(** * Bitcoin peer monitor: a shallow embedding of the Python scripts

    The development follows the five scripts of the repository
    ([peerinfo2.py], [peers.py], [peers_rich.py], [peers_rich2.py],
    [peers_monitor.py]).  Python values that come out of [json.loads] are
    the inductive type [pyval]; a peer record is a finite map from field
    names to such values; an exception is the [Raise] branch of [result].
    Python [float]s are IEEE 754 binary64 numbers ([spec_float] of the
    Standard Library) and every arithmetic operation on them is the exact
    rational operation followed by rounding to nearest, ties to even.
    What a script does to the outside world (commands run, lines printed,
    screen updates, sleeps) is the list of its events, and what the world
    does to it (the output of [bitcoin-cli], the clock, the keyboard) is a
    record of functions of the cycle number; a loop that does not end is a
    function of the number of cycles it is given. *)

From Stdlib Require Import ZArith QArith Qround Qabs Qpower Lia Lqa Bool List Ascii String.
From Stdlib Require Import SpecFloat.
From stdpp Require Import base gmap strings.

Import ListNotations.
Local Open Scope Z_scope.

(** ** Exceptions and the error monad *)

Inductive exn : Type :=
  | KeyError (key : string)
  | ValueError
  | TypeError
  | AttributeError
  | OverflowError
  | ZeroDivisionError
  | CalledProcessError (returncode : Z)
  | OSError
  | JSONDecodeError
  | IndexError
  | CursesError
  | NotRenderableError.

Inductive result (A : Type) : Type :=
  | Ok (a : A)
  | Raise (e : exn).
Arguments Ok {A} a.
Arguments Raise {A} e.

Definition bind {A B : Type} (r : result A) (k : A -> result B) : result B :=
  match r with
  | Ok a => k a
  | Raise e => Raise e
  end.

Notation "'let*' x ':=' r 'in' k" := (bind r (fun x => k))
  (at level 10, x name, r at level 100, k at level 200).
Notation "'let*' ' p ':=' r 'in' k" := (bind r (fun p => k))
  (at level 10, p pattern, r at level 100, k at level 200).

Definition raises {A : Type} (r : result A) : Prop :=
  match r with
  | Ok _ => False
  | Raise _ => True
  end.

(** ** Python values as produced by [json.loads] *)

#[warnings="-register-all"]
Inductive pyval : Type :=
  | PNone
  | PBool (b : bool)
  | PInt (n : Z)
  | PFloat (f : spec_float)
  | PStr (s : string)
  | PList (l : list pyval)
  | PDict (kv : list (string * pyval)).

(** A peer record: the [dict] of one element of the [getpeerinfo] array. *)
Abbreviation peer := (gmap string pyval).

(** [peer[key]] *)
Definition getitem (p : peer) (key : string) : result pyval :=
  match p !! key with
  | Some v => Ok v
  | None => Raise (KeyError key)
  end.

(** [peer.get(key, default)] *)
Definition dict_get (p : peer) (key : string) (default : pyval) : pyval :=
  match p !! key with
  | Some v => v
  | None => default
  end.

(** ** Strings *)

Module Str.

Definition len (s : string) : Z := Z.of_nat (String.length s).

(** [sep.join(l)] *)
Fixpoint join (sep : string) (l : list string) : string :=
  match l with
  | [] => ""
  | [x] => x
  | x :: rest => x +:+ sep +:+ join sep rest
  end.

Fixpoint is_prefix (p s : string) : bool :=
  match p, s with
  | EmptyString, _ => true
  | String a p', String b s' => Ascii.eqb a b && is_prefix p' s'
  | String _ _, EmptyString => false
  end.

(** [needle in s] for two strings: a substring test. *)
Fixpoint contains (needle s : string) : bool :=
  is_prefix needle s ||
  match s with
  | EmptyString => false
  | String _ s' => contains needle s'
  end.

Fixpoint take (n : nat) (s : string) : string :=
  match n, s with
  | S n', String c s' => String c (take n' s')
  | _, _ => ""
  end.

(** [s[:n]] for any Python integer [n]: a negative bound counts from the
    end of the string. *)
Definition slice_to (s : string) (n : Z) : string :=
  if n <? 0 then take (Z.to_nat (Z.max 0 (len s + n))) s
  else take (Z.to_nat n) s.

(** [s.split(c)[0]]: everything before the first occurrence of [c]. *)
Fixpoint before_first (c : ascii) (s : string) : string :=
  match s with
  | EmptyString => ""
  | String a s' => if Ascii.eqb a c then "" else String a (before_first c s')
  end.

Fixpoint repeat (c : ascii) (n : nat) : string :=
  match n with
  | O => ""
  | S n' => String c (repeat c n')
  end.

(** Left padding with [c] up to [width] characters. *)
Definition pad_left (c : ascii) (width : nat) (s : string) : string :=
  repeat c (width - String.length s) +:+ s.

Definition digit (d : Z) : ascii := ascii_of_nat (48 + Z.to_nat d).

Fixpoint digits_loop (fuel : nat) (n : Z) (acc : string) : string :=
  match fuel with
  | O => acc
  | S f =>
      let acc' := String (digit (n mod 10)) acc in
      if n <? 10 then acc' else digits_loop f (n / 10) acc'
  end.

(** Decimal digits of a natural number. *)
Definition of_nonneg (n : Z) : string :=
  digits_loop (S (Z.to_nat (Z.log2 n))) n "".

(** [str(n)] for an [int]. *)
Definition of_int (n : Z) : string :=
  if n <? 0 then "-" +:+ of_nonneg (- n) else of_nonneg n.

(** [f"{n:02}"]: zero padding to width 2, the sign first. *)
Definition of_int_02 (n : Z) : string :=
  if n <? 0 then "-" +:+ pad_left "0" 1 (of_nonneg (- n))
  else pad_left "0" 2 (of_nonneg n).

End Str.

(** ** [int(s, 16)]

    The string is stripped of surrounding white space, may carry one sign
    and one [0x]/[0X] prefix, and single underscores may separate digits.
    Anything else raises [ValueError]. *)

Module PyInt.

Definition is_space (c : ascii) : bool :=
  let n := nat_of_ascii c in
  ((9 <=? n) && (n <=? 13))%nat || (n =? 32)%nat.

Fixpoint skip_spaces (s : string) : string :=
  match s with
  | String c s' => if is_space c then skip_spaces s' else s
  | EmptyString => s
  end.

Definition hex_value (c : ascii) : option Z :=
  let n := Z.of_nat (nat_of_ascii c) in
  if (48 <=? n) && (n <=? 57) then Some (n - 48)
  else if (97 <=? n) && (n <=? 102) then Some (n - 87)
  else if (65 <=? n) && (n <=? 70) then Some (n - 55)
  else None.

Definition underscore : ascii := "_"%char.

(** The digit scan: [prev_us] tells whether the previous character was an
    underscore, [ndigits] counts the digits read.  The scan stops at the
    first character that is neither a digit nor an underscore and returns
    the value, the number of digits and the rest of the string; a doubled
    or a trailing underscore is an error. *)
Fixpoint scan (s : string) (prev_us : bool) (ndigits : nat) (acc : Z)
  : option (Z * nat * string) :=
  match s with
  | String c s' =>
      if Ascii.eqb c underscore then
        if prev_us then None else scan s' true ndigits acc
      else
        match hex_value c with
        | Some d => scan s' false (S ndigits) (16 * acc + d)
        | None => if prev_us then None else Some (acc, ndigits, s)
        end
  | EmptyString => if prev_us then None else Some (acc, ndigits, s)
  end.

Definition strip_sign (s : string) : bool * string :=
  match s with
  | String "+" s' => (false, s')
  | String "-" s' => (true, s')
  | _ => (false, s)
  end.

Definition strip_prefix (s : string) : string :=
  match s with
  | String "0" (String "x" s') | String "0" (String "X" s') =>
      match s' with
      | String "_" s'' => s''
      | _ => s'
      end
  | _ => s
  end.

Definition of_hex (s : string) : result Z :=
  let '(neg, s1) := strip_sign (skip_spaces s) in
  let s2 := strip_prefix s1 in
  match s2 with
  | String "_" _ => Raise ValueError
  | _ =>
      match scan s2 false 0 0 with
      | Some (v, nd, rest) =>
          match nd, skip_spaces rest with
          | S _, EmptyString => Ok (if neg then - v else v)
          | _, _ => Raise ValueError
          end
      | None => Raise ValueError
      end
  end.

(** [int(x, 16)] on a Python value: only strings are accepted with an
    explicit base. *)
Definition int16 (x : pyval) : result Z :=
  match x with
  | PStr s => of_hex s
  | _ => Raise TypeError
  end.

End PyInt.

(** ** Python floats: IEEE 754 binary64

    A finite float [S754_finite s m e] denotes the rational [(-1)^s * m * 2^e].
    The results of this module are canonical: [2^52 <= m < 2^53] for normal
    numbers and [e = -1074] for subnormal ones.  Every operation computes
    the exact rational result and rounds it with [RN]. *)

Module F64.

Abbreviation float := spec_float.

Definition pow2 (k : Z) : Q := (2 ^ k)%Q.

Definition F2Q (f : float) : Q :=
  match f with
  | S754_finite s m e =>
      (inject_Z (if s then Z.neg m else Z.pos m) * pow2 e)%Q
  | _ => 0%Q
  end.

Definition is_nan (f : float) : bool :=
  match f with S754_nan => true | _ => false end.

Definition is_inf (f : float) : bool :=
  match f with S754_infinity _ => true | _ => false end.

Definition is_zero (f : float) : bool :=
  match f with S754_zero _ => true | _ => false end.

Definition sign_bit (f : float) : bool :=
  match f with
  | S754_zero s | S754_infinity s | S754_finite s _ _ => s
  | S754_nan => false
  end.

(** Nearest integer, ties to the even one. *)
Definition round_half_even (q : Q) : Z :=
  let fl := Qfloor q in
  match (q - inject_Z fl ?= 1 # 2)%Q with
  | Lt => fl
  | Gt => fl + 1
  | Eq => if Z.even fl then fl else fl + 1
  end.

(** [floor (log2 q)] for a positive rational. *)
Definition ilog2 (q : Q) : Z :=
  let k := Z.log2 (Qnum q) - Z.log2 (Z.pos (Qden q)) in
  if Qle_bool (pow2 k) q then k else k - 1.

(** Rounding of a positive rational; [neg] is the sign of the result. *)
Definition round_pos (neg : bool) (q : Q) : float :=
  let e := Z.max (ilog2 q - 52) (-1074) in
  let m := round_half_even (q / pow2 e) in
  if m =? 0 then S754_zero neg
  else
    let '(m, e) := if m =? 2 ^ 53 then (2 ^ 52, e + 1) else (m, e) in
    if 971 <? e then S754_infinity neg
    else S754_finite neg (Z.to_pos m) e.

(** Round to nearest, ties to even; overflow gives an infinity. *)
Definition RN (q : Q) : float :=
  match (q ?= 0)%Q with
  | Eq => S754_zero false
  | Gt => round_pos false q
  | Lt => round_pos true (- q)
  end.

Definition neg (x : float) : float :=
  match x with
  | S754_zero s => S754_zero (negb s)
  | S754_infinity s => S754_infinity (negb s)
  | S754_finite s m e => S754_finite (negb s) m e
  | S754_nan => S754_nan
  end.

Definition add (x y : float) : float :=
  match x, y with
  | S754_nan, _ | _, S754_nan => S754_nan
  | S754_infinity sx, S754_infinity sy =>
      if Bool.eqb sx sy then x else S754_nan
  | S754_infinity _, _ => x
  | _, S754_infinity _ => y
  | S754_zero sx, S754_zero sy => S754_zero (sx && sy)
  | _, _ => RN (F2Q x + F2Q y)
  end.

Definition sub (x y : float) : float := add x (neg y).

(** [x / y] for a non-zero [y] (Python raises [ZeroDivisionError]
    before it divides by zero). *)
Definition div (x y : float) : float :=
  let s := xorb (sign_bit x) (sign_bit y) in
  match x, y with
  | S754_nan, _ | _, S754_nan => S754_nan
  | S754_infinity _, S754_infinity _ => S754_nan
  | S754_infinity _, _ => S754_infinity s
  | _, S754_infinity _ => S754_zero s
  | _, S754_zero _ => S754_nan
  | S754_zero _, _ => S754_zero s
  | _, _ => round_pos s (Qabs (F2Q x / F2Q y))
  end.

(** C's [fmod]: the exact remainder [x - trunc (x / y) * y], with the sign
    of [x]. *)
Definition fmod (x y : float) : float :=
  match x, y with
  | S754_nan, _ | _, S754_nan => S754_nan
  | S754_infinity _, _ | _, S754_zero _ => S754_nan
  | _, S754_infinity _ => x
  | S754_zero _, _ => x
  | _, _ =>
      let qx := Qabs (F2Q x) in
      let qy := Qabs (F2Q y) in
      let r := (qx - inject_Z (Qfloor (qx / qy)) * qy)%Q in
      match (r ?= 0)%Q with
      | Eq => S754_zero (sign_bit x)
      | _ => round_pos (sign_bit x) r
      end
  end.

Definition floor (x : float) : float :=
  match x with
  | S754_finite s _ _ =>
      let n := Qfloor (F2Q x) in
      if n =? 0 then S754_zero s else RN (inject_Z n)
  | _ => x
  end.

(** [x < y], [x <= y]: false as soon as one side is a NaN. *)
Definition cmp (x y : float) : option comparison :=
  match x, y with
  | S754_nan, _ | _, S754_nan => None
  | S754_infinity sx, S754_infinity sy =>
      Some (if Bool.eqb sx sy then Eq else if sx then Lt else Gt)
  | S754_infinity s, _ => Some (if s then Lt else Gt)
  | _, S754_infinity s => Some (if s then Gt else Lt)
  | _, _ => Some (F2Q x ?= F2Q y)%Q
  end.

Definition ltb (x y : float) : bool :=
  match cmp x y with Some Lt => true | _ => false end.

Definition leb (x y : float) : bool :=
  match cmp x y with Some Lt | Some Eq => true | _ => false end.

(** Truth value of a float: anything but a zero. *)
Definition truthy (x : float) : bool := negb (is_zero x).

(** [float(n)] for an [int]. *)
Definition of_int (n : Z) : result float :=
  let f := RN (inject_Z n) in
  if is_inf f then Raise OverflowError else Ok f.

(** [a / b] for two [int]s: the correctly rounded quotient. *)
Definition int_truediv (a b : Z) : result float :=
  if b =? 0 then Raise ZeroDivisionError
  else if a =? 0 then Ok (S754_zero (b <? 0))
  else
    let f := RN (inject_Z a / inject_Z b) in
    if is_inf f then Raise OverflowError else Ok f.

(** [int(x)]: truncation towards zero. *)
Definition to_int (x : float) : result Z :=
  match x with
  | S754_nan => Raise ValueError
  | S754_infinity _ => Raise OverflowError
  | _ => Ok (Z.quot (Qnum (F2Q x)) (Z.pos (Qden (F2Q x))))
  end.

(** Comparison of a float with an [int]: exact, no conversion. *)
Definition le_int (x : float) (n : Z) : bool :=
  match x with
  | S754_nan => false
  | S754_infinity s => s
  | _ => Qle_bool (F2Q x) (inject_Z n)
  end.

Definition one : float := S754_finite false (Z.to_pos (2 ^ 52)) (-52).
Definition half : float := S754_finite false (Z.to_pos (2 ^ 52)) (-53).

(** [divmod(vx, wx)] on two floats, as CPython's [float_divmod]. *)
Definition divmod (vx wx : float) : result (float * float) :=
  if is_zero wx then Raise ZeroDivisionError
  else
    let md := fmod vx wx in
    let dv := div (sub vx md) wx in
    let '(md, dv) :=
      if truthy md then
        if negb (Bool.eqb (ltb wx (S754_zero false)) (ltb md (S754_zero false)))
        then (add md wx, sub dv one)
        else (md, dv)
      else (S754_zero (sign_bit wx), dv) in
    let floordiv :=
      if truthy dv then
        let fl := floor dv in
        if ltb half (sub dv fl) then add fl one else fl
      else S754_zero (sign_bit (div vx wx)) in
    Ok (floordiv, md).

(** [f"{x:.<d>f}"]: the exact value rounded to [d] decimals, ties to
    even. *)
Definition format_fixed (d : nat) (x : float) : string :=
  match x with
  | S754_nan => "nan"
  | S754_infinity s => if s then "-inf" else "inf"
  | _ =>
      let scale := 10 ^ Z.of_nat d in
      let t := round_half_even (Qabs (F2Q x) * inject_Z scale) in
      (if sign_bit x then "-" else "") +:+
      Str.of_nonneg (t / scale) +:+ "." +:+
      Str.pad_left "0" d (Str.of_nonneg (t mod scale))
  end.

(** *** [float(s)] for a string *)

Definition is_digit (c : ascii) : bool :=
  let n := nat_of_ascii c in ((48 <=? n) && (n <=? 57))%nat.

Definition lower (c : ascii) : ascii :=
  let n := nat_of_ascii c in
  if ((65 <=? n) && (n <=? 90))%nat then ascii_of_nat (n + 32) else c.

(** Underscores may only stand between two digits; they are removed
    before the number is read. *)
Fixpoint drop_underscores (s : string) (prev : option ascii) : option string :=
  match s with
  | EmptyString =>
      match prev with
      | Some "_"%char => None
      | _ => Some ""
      end
  | String c s' =>
      if Ascii.eqb c "_" then
        match prev with
        | Some p => if is_digit p then drop_underscores s' (Some c) else None
        | None => None
        end
      else
        match prev with
        | Some "_"%char =>
            if is_digit c
            then option_map (String c) (drop_underscores s' (Some c))
            else None
        | _ => option_map (String c) (drop_underscores s' (Some c))
        end
  end.

Fixpoint rev_app (s acc : string) : string :=
  match s with
  | EmptyString => acc
  | String c s' => rev_app s' (String c acc)
  end.

Definition strip (s : string) : string :=
  let s1 := PyInt.skip_spaces s in
  rev_app (PyInt.skip_spaces (rev_app s1 "")) "".

Fixpoint read_digits (s : string) (acc : Z) (n : nat) : Z * nat * string :=
  match s with
  | String c s' =>
      if is_digit c
      then read_digits s' (10 * acc + (Z.of_nat (nat_of_ascii c) - 48)) (S n)
      else (acc, n, s)
  | EmptyString => (acc, n, s)
  end.

(** The optional exponent: it is read only when at least one digit
    follows the [e] and its sign. *)
Definition read_exponent (s : string) : Z * string :=
  match s with
  | String c s' =>
      if Ascii.eqb (lower c) "e" then
        let '(sg, s'') := PyInt.strip_sign s' in
        match read_digits s'' 0 0 with
        | (_, O, _) => (0, s)
        | (x, S _, rest) => (if sg then - x else x, rest)
        end
      else (0, s)
  | EmptyString => (0, s)
  end.

Fixpoint lower_string (s : string) : string :=
  match s with
  | EmptyString => ""
  | String c s' => String (lower c) (lower_string s')
  end.

Definition parse_inf_or_nan (sg : bool) (s : string) : result float :=
  let l := lower_string s in
  if String.eqb l "inf" || String.eqb l "infinity" then Ok (S754_infinity sg)
  else if String.eqb l "nan" then Ok S754_nan
  else Raise ValueError.

Definition parse_decimal (s : string) : result float :=
  let '(sg, s1) := PyInt.strip_sign s in
  let '(ip, ni, s2) := read_digits s1 0 0 in
  let '(mant, nf, s3) :=
    match s2 with
    | String "." s2' =>
        let '(m, k, r) := read_digits s2' ip 0 in (m, k, r)
    | _ => (ip, O, s2)
    end in
  match (ni + nf)%nat with
  | O => parse_inf_or_nan sg s1
  | S _ =>
      let '(x, s4) := read_exponent s3 in
      match s4 with
      | EmptyString =>
          if mant =? 0 then Ok (S754_zero sg)
          else Ok (round_pos sg (inject_Z mant * (10 ^ (x - Z.of_nat nf))%Q))
      | String _ _ => Raise ValueError
      end
  end.

Definition of_string (s : string) : result float :=
  match drop_underscores s None with
  | None => Raise ValueError
  | Some s' =>
      match strip s' with
      | EmptyString => Raise ValueError
      | t => parse_decimal t
      end
  end.

(** *** Vocabulary for the non-negative finite floats *)

Definition finite (x : float) : Prop :=
  match x with
  | S754_zero _ | S754_finite _ _ _ => True
  | _ => False
  end.

Definition sgn (s : bool) : Q := (if s then -1 else 1)%Q.

(** [x] is a finite float with a clear sign bit and value [v]. *)
Definition val (x : float) (v : Q) : Prop :=
  finite x /\ sign_bit x = false /\ (F2Q x == v)%Q.

(** [v] is a non-negative binary64 value up to [2^53]. *)
Definition repr (v : Q) : Prop :=
  exists M g, (v == inject_Z M * pow2 g)%Q /\ 0 <= M <= 2 ^ 53 /\ -1074 <= g <= 0.

End F64.

(** ** Built-in operations on Python values *)

Module Py.

(** Truth value of an object in a conditional. *)
Definition truthy (v : pyval) : bool :=
  match v with
  | PNone => false
  | PBool b => b
  | PInt n => negb (n =? 0)
  | PFloat f => F64.truthy f
  | PStr s => negb (String.eqb s "")
  | PList l => match l with [] => false | _ => true end
  | PDict kv => match kv with [] => false | _ => true end
  end.

(** [float(v)] *)
Definition to_float (v : pyval) : result F64.float :=
  match v with
  | PFloat f => Ok f
  | PInt n => F64.of_int n
  | PBool b => F64.of_int (if b then 1 else 0)
  | PStr s => F64.of_string s
  | _ => Raise TypeError
  end.

(** [v / n] for an integer literal [n]. *)
Definition truediv_int (v : pyval) (n : Z) : result F64.float :=
  match v with
  | PInt a => F64.int_truediv a n
  | PBool b => F64.int_truediv (if b then 1 else 0) n
  | PFloat x =>
      let* y := F64.of_int n in
      if F64.is_zero y then Raise ZeroDivisionError else Ok (F64.div x y)
  | _ => Raise TypeError
  end.

(** [v > n] for an integer literal [n]. *)
Definition gt_int (v : pyval) (n : Z) : result bool :=
  match v with
  | PInt a => Ok (n <? a)
  | PBool b => Ok (n <? (if b then 1 else 0))
  | PFloat x => Ok (negb (F64.is_nan x) && negb (F64.le_int x n))
  | _ => Raise TypeError
  end.

(** [v == s] for a string literal [s]. *)
Definition eq_str (v : pyval) (s : string) : bool :=
  match v with
  | PStr t => String.eqb t s
  | _ => false
  end.

(** A value used where only a [str] works ([len], slicing and
    concatenation with a string, a table cell).  The scripts receive
    strings there; any other value makes Python raise, which is modelled
    as a [TypeError] at the point of use. *)
Definition as_str (v : pyval) : result string :=
  match v with
  | PStr s => Ok s
  | _ => Raise TypeError
  end.

(** [f"{x:.2f} MB"] *)
Definition megabytes (x : F64.float) : string :=
  F64.format_fixed 2 x +:+ " MB".

End Py.

(** ** [datetime]

    A naive local [datetime] is the number of microseconds since the local
    epoch; a [timedelta] is a number of microseconds.  [utcoffset t] is the
    offset of local time from UTC, in seconds, at the POSIX time [t].  The
    limits are those of CPython on Linux with a 64-bit [time_t]. *)

Module DateTime.

(** [datetime.min] and [datetime.max], in microseconds. *)
Definition min_us : Z := -62135596800 * 1000000.
Definition max_us : Z := 253402300799 * 1000000 + 999999.

(** The seconds that fit [time_t]. *)
Definition time_t_min : Z := - 2 ^ 63.
Definition time_t_max : Z := 2 ^ 63 - 1.

(** The local times, in seconds, that [localtime] and [gmtime] break
    down: the year has to fit the [int] of [struct tm]. *)
Definition tm_min : Z := -67768040609740800.
Definition tm_max : Z := 67768036191676799.

(** The naive local time, in seconds, of the POSIX time [t]: [OSError]
    when [localtime] fails, [ValueError] when the year is not one of 1 to
    9999. *)
Definition localtime (utcoffset : Z -> Z) (t : Z) : result Z :=
  let s := t + utcoffset t in
  if (s <? tm_min) || (tm_max <? s) then Raise OSError
  else if (s * 1000000 <? min_us) || (max_us <? s * 1000000 + 999999)
       then Raise ValueError
       else Ok s.

Definition max_fold_seconds : Z := 24 * 3600.

(** The search for a repeated hour that a local [fromtimestamp] makes: the
    local time 24 hours earlier is computed, and when the offset from UTC
    has dropped since then, the local time as much later as it dropped.
    Both have to exist. *)
Definition probe_fold (utcoffset : Z -> Z) (secs s : Z) : result Z :=
  let* before := localtime utcoffset (secs - max_fold_seconds) in
  let transition := s - before - max_fold_seconds in
  if transition <? 0 then localtime utcoffset (secs - transition) else Ok s.

(** The [datetime] of [secs] seconds and [us] microseconds.  A timestamp
    outside [time_t] raises [OverflowError].  [probe] is set for local
    time and not for UTC. *)
Definition from_seconds (probe : bool) (utcoffset : Z -> Z) (secs us : Z)
  : result Z :=
  if (secs <? time_t_min) || (time_t_max <? secs) then Raise OverflowError
  else
    let* s := localtime utcoffset secs in
    let* _ := if probe then probe_fold utcoffset secs s else Ok s in
    Ok (s * 1000000 + us).

(** C's [modf]: the integral part, towards zero, and the exact fraction. *)
Definition modf (q : Q) : Z * Q :=
  let i := Z.quot (Qnum q) (Z.pos (Qden q)) in (i, (q - inject_Z i)%Q).

(** Seconds and microseconds of a finite float timestamp: the fraction is
    multiplied by [1e6] in floating point and rounded half to even; a
    result of a whole second is carried over. *)
Definition to_timeval (f : F64.float) : Z * Z :=
  let '(intpart, floatpart) := modf (F64.F2Q f) in
  let us := F64.round_half_even (F64.F2Q (F64.RN (floatpart * 1000000))) in
  if 1000000 <=? us then (intpart + 1, us - 1000000)
  else if us <? 0 then (intpart - 1, us + 1000000)
  else (intpart, us).

Definition fromtimestamp_with (probe : bool) (utcoffset : Z -> Z) (ts : pyval)
  : result Z :=
  match ts with
  | PInt n => from_seconds probe utcoffset n 0
  | PBool b => from_seconds probe utcoffset (if b then 1 else 0) 0
  | PFloat S754_nan => Raise ValueError
  | PFloat (S754_infinity _) => Raise OverflowError
  | PFloat f =>
      let '(secs, us) := to_timeval f in from_seconds probe utcoffset secs us
  | _ => Raise TypeError
  end.

(** [datetime.fromtimestamp(ts)] *)
Definition fromtimestamp (utcoffset : Z -> Z) (ts : pyval) : result Z :=
  fromtimestamp_with true utcoffset ts.

(** [datetime.now()] when the POSIX time is [us] microseconds: the naive
    local time of that instant. *)
Definition now (utcoffset : Z -> Z) (us : Z) : Z :=
  us + utcoffset (us / 1000000) * 1000000.

(** [timedelta.total_seconds()] *)
Definition total_seconds (delta : Z) : result F64.float :=
  F64.int_truediv delta 1000000.

(** [divmod(x, n)] for a float and an integer literal. *)
Definition divmod_int (x : F64.float) (n : Z) : result (F64.float * F64.float) :=
  let* w := F64.of_int n in F64.divmod x w.

(** [x / n] for a float and an integer literal. *)
Definition div_int (x : F64.float) (n : Z) : result F64.float :=
  let* w := F64.of_int n in
  if F64.is_zero w then Raise ZeroDivisionError else Ok (F64.div x w).

(** [f"{int(h):02}:{int(m):02}:{int(s):02}"] *)
Definition hms (hours minutes seconds : F64.float) : result string :=
  let* h := F64.to_int hours in
  let* m := F64.to_int minutes in
  let* s := F64.to_int seconds in
  Ok (Str.of_int_02 h +:+ ":" +:+ Str.of_int_02 m +:+ ":" +:+ Str.of_int_02 s).

End DateTime.

(** ** The proleptic Gregorian calendar of [datetime]

    Day 1 is the first of January of year 1.  [ymd2ord] and [ord2ymd] are
    the two conversions of the [datetime] module between a date and its
    ordinal; [//] and [%] are the floor division and its remainder. *)

Module Calendar.

Definition DAYS_IN_MONTH : list Z :=
  [-1; 31; 28; 31; 30; 31; 30; 31; 31; 30; 31; 30; 31].

Definition DAYS_BEFORE_MONTH : list Z :=
  [-1; 0; 31; 59; 90; 120; 151; 181; 212; 243; 273; 304; 334].

Definition DI400Y : Z := 146097.
Definition DI100Y : Z := 36524.
Definition DI4Y : Z := 1461.

Definition is_leap (year : Z) : bool :=
  (year mod 4 =? 0) && (negb (year mod 100 =? 0) || (year mod 400 =? 0)).

Definition days_before_year (year : Z) : Z :=
  let y := year - 1 in
  y * 365 + y / 4 - y / 100 + y / 400.

Definition days_in_month (year month : Z) : Z :=
  if (month =? 2) && is_leap year then 29
  else nth (Z.to_nat month) DAYS_IN_MONTH 0.

Definition days_before_month (year month : Z) : Z :=
  nth (Z.to_nat month) DAYS_BEFORE_MONTH 0 +
  (if (2 <? month) && is_leap year then 1 else 0).

Definition ymd2ord (year month day : Z) : Z :=
  days_before_year year + days_before_month year month + day.

Definition ord2ymd (ordinal : Z) : Z * Z * Z :=
  let n := ordinal - 1 in
  let n400 := n / DI400Y in
  let n := n mod DI400Y in
  let year := n400 * 400 + 1 in
  let n100 := n / DI100Y in
  let n := n mod DI100Y in
  let n4 := n / DI4Y in
  let n := n mod DI4Y in
  let n1 := n / 365 in
  let n := n mod 365 in
  let year := year + n100 * 100 + n4 * 4 + n1 in
  if (n1 =? 4) || (n100 =? 4) then (year - 1, 12, 31)
  else
    let leapyear := (n1 =? 3) && (negb (n4 =? 24) || (n100 =? 3)) in
    let month := Z.shiftr (n + 50) 5 in
    let preceding :=
      nth (Z.to_nat month) DAYS_BEFORE_MONTH 0 +
      (if (2 <? month) && leapyear then 1 else 0) in
    let '(month, preceding) :=
      if n <? preceding then
        (month - 1,
         preceding - (nth (Z.to_nat (month - 1)) DAYS_IN_MONTH 0 +
                      (if (month - 1 =? 2) && leapyear then 1 else 0)))
      else (month, preceding) in
    (year, month, n - preceding + 1).

(** The ordinal of the first of January 1970. *)
Definition epoch_ordinal : Z := 719163.

(** Zero padding of a number that is not negative. *)
Definition zero_padded (width : nat) (n : Z) : string :=
  Str.pad_left "0" width (Str.of_nonneg n).

(** [strftime('%Y-%m-%d %H:%M:%S')] of the naive [datetime] that lies
    [us] microseconds after the epoch; the year is written with four
    digits. *)
Definition strftime (us : Z) : string :=
  let secs := us / 1000000 in
  let '(year, month, day) := ord2ymd (secs / 86400 + epoch_ordinal) in
  let sod := secs mod 86400 in
  zero_padded 4 year +:+ "-" +:+ zero_padded 2 month +:+ "-" +:+
  zero_padded 2 day +:+ " " +:+ zero_padded 2 (sod / 3600) +:+ ":" +:+
  zero_padded 2 (sod mod 3600 / 60) +:+ ":" +:+ zero_padded 2 (sod mod 60).

End Calendar.

(** ** [peerinfo2.py] *)

Module PeerInfo2.

(** The [SERVICES] dictionary, in insertion order. *)
Definition SERVICES : list (Z * string) :=
  [ (0x01, "NODE_NETWORK");
    (0x02, "NODE_GETUTXOS");
    (0x04, "NODE_BLOOM");
    (0x08, "NODE_WITNESS");
    (0x10, "NODE_XTHIN");
    (0x40000000, "NODE_NETWORK_LIMITED") ].

(** The loop of [translate_services]: [supported] is the list built so
    far. *)
Fixpoint translate_loop (items : list (Z * string)) (services_bitmask : Z)
    (supported : list string) : list string :=
  match items with
  | [] => supported
  | (bit, service_name) :: rest =>
      translate_loop rest services_bitmask
        (if Z.land services_bitmask bit =? 0 then supported
         else supported ++ [service_name])
  end.

Definition translate_services (services_bitmask : Z) : list string :=
  translate_loop SERVICES services_bitmask [].

(** [translate_services] applied to a value of [json.loads]: the operator
    [&] of its first test needs an integer on its left. *)
Definition translate_value (services_bitmask : pyval) : result (list string) :=
  match services_bitmask with
  | PInt n => Ok (translate_services n)
  | PBool b => Ok (translate_services (if b then 1 else 0))
  | _ => Raise TypeError
  end.

(** What [subprocess.run] gives back: the exit status of [bitcoin-cli],
    what [json.loads] makes of its standard output, and its standard
    error; or the exception raised when the program cannot be started. *)
Inductive completed : Type :=
  | Completed (returncode : Z) (loaded : result (list peer)) (stderr : string)
  | NotStarted (e : exn).

(** [get_peer_info]: the lines printed and the value returned. *)
Definition get_peer_info (o : completed) : list string * result (list peer) :=
  match o with
  | Completed returncode loaded stderr =>
      if negb (returncode =? 0)
      then (["Error executing bitcoin-cli: " +:+ stderr], Ok [])
      else ([], loaded)
  | NotStarted e => ([], Raise e)
  end.

(** [datetime.utcfromtimestamp(ts)]: no offset from UTC, and no search
    for a repeated hour. *)
Definition utcfromtimestamp (ts : pyval) : result Z :=
  DateTime.fromtimestamp_with false (fun _ => 0) ts.

(** One element of [table_data]. *)
Definition format_peer (p : peer) : result (list pyval) :=
  let* services_bitmask := getitem p "services" in
  let* services := translate_value services_bitmask in
  let* id := getitem p "id" in
  let* addr := getitem p "addr" in
  let* conntime := getitem p "conntime" in
  let* connected := utcfromtimestamp conntime in
  let* subver := getitem p "subver" in
  let* version := getitem p "version" in
  let* bytessent := getitem p "bytessent" in
  let* sent := Py.truediv_int bytessent 1048576 in
  let* bytesrecv := getitem p "bytesrecv" in
  let* recv := Py.truediv_int bytesrecv 1048576 in
  let pingtime := dict_get p "pingtime" (PStr "N/A") in
  let* inbound := getitem p "inbound" in
  let* synced_headers := getitem p "synced_headers" in
  let* synced_blocks := getitem p "synced_blocks" in
  let banscore := dict_get p "banscore" (PStr "N/A") in
  let* relaytxes := getitem p "relaytxes" in
  Ok [ id; addr; PStr (Calendar.strftime connected);
       PStr (Str.join ", " services); subver; version;
       PStr (Py.megabytes sent); PStr (Py.megabytes recv); pingtime;
       PStr (if Py.truthy inbound then "Inbound" else "Outbound");
       synced_headers; synced_blocks; banscore;
       PStr (if Py.truthy relaytxes then "Yes" else "No") ].

Fixpoint format_peer_info (peers : list peer) : result (list (list pyval)) :=
  match peers with
  | [] => Ok []
  | p :: rest =>
      let* r := format_peer p in
      let* rs := format_peer_info rest in
      Ok (r :: rs)
  end.

Definition headers : list string :=
  ["ID"; "Address"; "Connection Time"; "Services"; "Subver"; "Version";
   "Bytes Sent"; "Bytes Recvd"; "Ping"; "Type"; "Synced Headers";
   "Synced Blocks"; "Ban Score"; "Relay TXes"].

Section Environment.

(** [str] of the values whose text the script does not produce itself
    (floats and containers). *)
Variable py_repr : pyval -> string.

Definition py_str (v : pyval) : string :=
  match v with
  | PStr s => s
  | PInt n => Str.of_int n
  | PBool true => "True"
  | PBool false => "False"
  | PNone => "None"
  | _ => py_repr v
  end.

(** [print_table]: the lines printed. *)
Definition print_table (table_data : list (list pyval)) : list string :=
  Str.join " | " headers ::
  Str.repeat "-" 150 ::
  map (fun row => Str.join " | " (map py_str row)) table_data.

(** [main]: the lines printed, and whether it returns or raises. *)
Definition main (o : completed) : list string * result unit :=
  let '(out, r) := get_peer_info o in
  match r with
  | Ok [] => (out, Ok tt)
  | Ok peers =>
      match format_peer_info peers with
      | Ok table_data => (out ++ print_table table_data, Ok tt)
      | Raise e => (out, Raise e)
      end
  | Raise e => (out, Raise e)
  end.

End Environment.

End PeerInfo2.

(** ** Tables of the [rich] library

    A column has a header and a justification; a row is its cells and
    whether it was added with [style="yellow"]. *)

Inductive justify : Type := JRight | JCenter.

Record row : Type := mk_row { cells : list string; highlighted : bool }.

Record table : Type := mk_table { columns : list (string * justify); rows : list row }.

Definition add_columns (headers right_align : list string) : list (string * justify) :=
  map (fun header =>
         if existsb (String.eqb header) right_align
         then (header, JRight) else (header, JCenter)) headers.

(** ** The refresh loop of the scripts built on [rich]

    [get_peer_info] of these scripts does not look at the exit status and
    catches nothing: it hands the standard output of [bitcoin-cli] to
    [json.loads].  The loop fetches, builds the table, shows it and sleeps;
    only [KeyboardInterrupt] is handled.  An interrupt is delivered while
    the fetch is under way, between the fetch and the update of the screen,
    or during the sleep; the update of the screen itself is taken to
    succeed. *)

Inductive run_result : Type :=
  | RunCompleted (returncode : Z) (stdout : string)
  | RunFailed (e : exn).

Inductive phase : Type := InFetch | InBuild | InSleep.

Inductive screen_event : Type :=
  | ScRun (argv : list string)
  | ScUpdate (t : table)
  | ScSleep (seconds : Z)
  | ScPrint (markup : string).

(** How the script ends: the interrupt was caught and the program leaves
    normally, an exception leaves the program, or the loop is still
    going. *)
Inductive ending : Type :=
  | Exited
  | Crashed (e : exn)
  | Running.

(** One run: what [bitcoin-cli] does in each cycle, the clock readings of
    each cycle, and where an interrupt arrives, if it does. *)
Record feed : Type := mk_feed {
  ran : nat -> run_result;
  readings : nat -> nat -> Z;
  interrupt : nat -> option phase
}.

Section ScreenLoop.

Variable get_peer_info : run_result -> result (list peer).
Variable build_peer_table : (nat -> Z) -> list peer -> result table.
Variable period : Z.

(** [cycles] iterations of the [while True] loop, from cycle [c]. *)
Fixpoint screen_loop (w : feed) (cycles c : nat) : list screen_event * ending :=
  match cycles with
  | O => ([], Running)
  | S k =>
      let run := ScRun ["bitcoin-cli"; "getpeerinfo"] in
      let bye := ScPrint "[bold red]Exiting...[/bold red]" in
      match interrupt w c with
      | Some InFetch => ([run; bye], Exited)
      | i =>
          match get_peer_info (ran w c) with
          | Raise e => ([run], Crashed e)
          | Ok peers =>
              match i with
              | Some InBuild => ([run; bye], Exited)
              | _ =>
                  match build_peer_table (readings w c) peers with
                  | Raise e => ([run], Crashed e)
                  | Ok t =>
                      match i with
                      | Some _ => ([run; ScUpdate t; ScSleep period; bye], Exited)
                      | None =>
                          let '(evs, x) := screen_loop w k (S c) in
                          (run :: ScUpdate t :: ScSleep period :: evs, x)
                      end
                  end
              end
          end
      end
  end.

End ScreenLoop.

(** ** [peers_monitor.py] *)

Module PeersMonitor.

Definition NODE_NETWORK : Z := Z.shiftl 1 0.
Definition NODE_WITNESS : Z := Z.shiftl 1 3.
Definition NODE_COMPACT_FILTERS : Z := Z.shiftl 1 6.
Definition NODE_NETWORK_LIMITED : Z := Z.shiftl 1 10.

(** [services_list] after the four tests of [decode_services]. *)
Definition services_list (services_int : Z) : list string :=
  let l := [] in
  let l := if Z.land services_int NODE_NETWORK =? 0 then l else l ++ ["N"] in
  let l := if Z.land services_int NODE_WITNESS =? 0 then l else l ++ ["W"] in
  let l := if Z.land services_int NODE_COMPACT_FILTERS =? 0 then l else l ++ ["C_F"] in
  let l := if Z.land services_int NODE_NETWORK_LIMITED =? 0 then l else l ++ ["N_L"] in
  l.

Definition decode_services (services_hex : pyval) : result string :=
  let* services_int := PyInt.int16 services_hex in
  Ok (Str.join ", " (services_list services_int)).

Definition format_pingtime (pingtime : pyval) : result string :=
  if Py.eq_str pingtime "N/A" then Ok "N/A"
  else
    match Py.to_float pingtime with
    | Ok x => Ok (F64.format_fixed 3 x)
    | Raise ValueError => Ok "N/A"
    | Raise e => Raise e
    end.

Definition truncate_with_ellipsis (s : string) (N : Z) : string :=
  if N <? Str.len s then Str.slice_to s N +:+ "..." else s.

Definition headers : list string :=
  ["ID"; "Connected"; "Services"; "Version"; "Protocol"; "Bytes Out";
   "Bytes In"; "Ping"; "Inbound"; "Relay"].

Definition right_align : list string :=
  ["ID"; "Connected"; "Bytes In"; "Bytes Out"; "Direction"; "Relay"].

Section Environment.

(** Offset of local time from UTC, and [str] of the values whose
    text the scripts never inspect (floats and containers). *)
Variable utcoffset : Z -> Z.
Variable py_repr : pyval -> string.

Definition py_str (v : pyval) : string :=
  match v with
  | PStr s => s
  | PInt n => Str.of_int n
  | PBool true => "True"
  | PBool false => "False"
  | PNone => "None"
  | _ => py_repr v
  end.

(** [now] is the reading of [datetime.now()]. *)
Definition connection_duration (now : Z) (connected_since : pyval)
  : result string :=
  let* connected_time := DateTime.fromtimestamp utcoffset connected_since in
  let duration := now - connected_time in
  let* total := DateTime.total_seconds duration in
  let* '(hours, remainder) := DateTime.divmod_int total 3600 in
  let* '(minutes, seconds) := DateTime.divmod_int remainder 60 in
  let* days := DateTime.div_int total 86400 in
  if F64.le_int days 1 then DateTime.hms hours minutes seconds
  else Ok (F64.format_fixed 1 days +:+ " days").

(** The body of the loop of [build_peer_table] for one peer. *)
Definition build_row (now : Z) (p : peer) : result row :=
  let* services := decode_services (dict_get p "services" (PStr "0")) in
  let is_missing_node_network := negb (Str.contains "N" services) in
  let* id := getitem p "id" in
  let* connected := connection_duration now (dict_get p "conntime" (PInt 0)) in
  let* subver := Py.as_str (dict_get p "subver" (PStr "Unknown")) in
  let version := py_str (dict_get p "version" (PInt 99)) in
  let* bytessent := getitem p "bytessent" in
  let* sent := Py.truediv_int bytessent 1048576 in
  let* bytesrecv := getitem p "bytesrecv" in
  let* recv := Py.truediv_int bytesrecv 1048576 in
  let* ping := format_pingtime (dict_get p "pingtime" (PStr "N/A")) in
  let* inbound := getitem p "inbound" in
  let* relaytxes := getitem p "relaytxes" in
  Ok (mk_row
        [ py_str id; connected; services;
          truncate_with_ellipsis subver 20; version;
          Py.megabytes sent; Py.megabytes recv; ping;
          (if Py.truthy inbound then "Yes" else "");
          (if Py.truthy relaytxes then "Yes" else "") ]
        is_missing_node_network).

(** [clock i] is the reading of [datetime.now()] while row [i] is
    built. *)
Fixpoint build_rows (clock : nat -> Z) (i : nat) (peers : list peer)
  : result (list row) :=
  match peers with
  | [] => Ok []
  | p :: rest =>
      let* r := build_row (clock i) p in
      let* rs := build_rows clock (S i) rest in
      Ok (r :: rs)
  end.

Definition build_peer_table (clock : nat -> Z) (peers : list peer)
  : result table :=
  let* rs := build_rows clock 0 peers in
  Ok (mk_table (add_columns headers right_align) rs).

(** [json.loads] on the standard output of [bitcoin-cli]. *)
Variable json_loads : string -> result (list peer).

Definition get_peer_info (o : run_result) : result (list peer) :=
  match o with
  | RunCompleted _ stdout => json_loads stdout
  | RunFailed e => Raise e
  end.

(** The script itself: the loop, refreshed every 15 seconds. *)
Definition main (w : feed) (cycles : nat) : list screen_event * ending :=
  screen_loop get_peer_info build_peer_table 15 w cycles 0.

End Environment.

End PeersMonitor.

(** ** [peers_rich2.py] *)

Module PeersRich2.

Definition truncate_with_ellipsis (s : string) (N : Z) : string :=
  if N <? Str.len s then Str.slice_to s N +:+ "..." else s.

(** [decode_services], [format_pingtime] and [connection_duration] of
    this script are, character for character, those of
    [peers_monitor.py], and so are the headers and their alignment. *)
Definition decode_services : pyval -> result string := PeersMonitor.decode_services.

Definition format_pingtime : pyval -> result string := PeersMonitor.format_pingtime.

Definition headers : list string := PeersMonitor.headers.

Definition right_align : list string := PeersMonitor.right_align.

Section Environment.

Variable utcoffset : Z -> Z.
Variable py_repr : pyval -> string.
Variable json_loads : string -> result (list peer).

Definition connection_duration : Z -> pyval -> result string :=
  PeersMonitor.connection_duration utcoffset.

Definition py_str : pyval -> string := PeersMonitor.py_str py_repr.

(** The body of the loop of [build_peer_table] for one peer. *)
Definition build_row (now : Z) (p : peer) : result row :=
  let* services := decode_services (dict_get p "services" (PStr "0")) in
  let is_missing_node_network := negb (Str.contains "N" services) in
  let* id := getitem p "id" in
  let* connected := connection_duration now (dict_get p "conntime" (PInt 0)) in
  let* subver := getitem p "subver" in
  let* subver := Py.as_str subver in
  let* version := getitem p "version" in
  let* bytessent := getitem p "bytessent" in
  let* sent := Py.truediv_int bytessent 1048576 in
  let* bytesrecv := getitem p "bytesrecv" in
  let* recv := Py.truediv_int bytesrecv 1048576 in
  let* ping := format_pingtime (dict_get p "pingtime" (PStr "N/A")) in
  let* inbound := getitem p "inbound" in
  let* relaytxes := getitem p "relaytxes" in
  Ok (mk_row
        [ py_str id; connected; services;
          truncate_with_ellipsis subver 23; py_str version;
          Py.megabytes sent; Py.megabytes recv; ping;
          (if Py.truthy inbound then "Yes" else "");
          (if Py.truthy relaytxes then "Yes" else "") ]
        is_missing_node_network).

Fixpoint build_rows (clock : nat -> Z) (i : nat) (peers : list peer)
  : result (list row) :=
  match peers with
  | [] => Ok []
  | p :: rest =>
      let* r := build_row (clock i) p in
      let* rs := build_rows clock (S i) rest in
      Ok (r :: rs)
  end.

Definition build_peer_table (clock : nat -> Z) (peers : list peer)
  : result table :=
  let* rs := build_rows clock 0 peers in
  Ok (mk_table (add_columns headers right_align) rs).

Definition get_peer_info (o : run_result) : result (list peer) :=
  match o with
  | RunCompleted _ stdout => json_loads stdout
  | RunFailed e => Raise e
  end.

(** The script itself: the loop, refreshed every 10 seconds. *)
Definition main (w : feed) (cycles : nat) : list screen_event * ending :=
  screen_loop get_peer_info build_peer_table 10 w cycles 0.

End Environment.

End PeersRich2.

(** ** [peers_rich.py] *)

Module PeersRich.

Definition NODE_NETWORK : Z := Z.shiftl 1 0.
Definition NODE_WITNESS : Z := Z.shiftl 1 3.
Definition NODE_COMPACT_FILTERS : Z := Z.shiftl 1 6.
Definition NODE_NETWORK_LIMITED : Z := Z.shiftl 1 10.

Definition services_list (services_int : Z) : list string :=
  let l := [] in
  let l := if Z.land services_int NODE_NETWORK =? 0 then l else l ++ ["N_N"] in
  let l := if Z.land services_int NODE_WITNESS =? 0 then l else l ++ ["N_W"] in
  let l := if Z.land services_int NODE_COMPACT_FILTERS =? 0 then l else l ++ ["N_C_F"] in
  let l := if Z.land services_int NODE_NETWORK_LIMITED =? 0 then l else l ++ ["N_N_L"] in
  l.

Definition decode_services (services_hex : pyval) : result string :=
  let* services_int := PyInt.int16 services_hex in
  Ok (Str.join ", " (services_list services_int)).

Definition format_pingtime (pingtime : pyval) : result string :=
  if Py.eq_str pingtime "N/A" then Ok "N/A"
  else
    match Py.to_float pingtime with
    | Ok x => Ok (F64.format_fixed 3 x)
    | Raise ValueError => Ok "N/A"
    | Raise e => Raise e
    end.

Definition headers : list string :=
  ["ID"; "Address"; "Connected For"; "Services"; "Version"; "Protocol";
   "Bytes Out"; "Bytes In"; "Ping Time"; "Direction"; "Synced Headers";
   "Synced Blocks"; "Ban Score"; "Relays TX"].

Definition right_align : list string := ["ID"; "Bytes In"; "Bytes Out"].

Section Environment.

Variable utcoffset : Z -> Z.
Variable py_repr : pyval -> string.

Definition py_str (v : pyval) : string :=
  match v with
  | PStr s => s
  | PInt n => Str.of_int n
  | PBool true => "True"
  | PBool false => "False"
  | PNone => "None"
  | _ => py_repr v
  end.

Definition connection_duration (now : Z) (connected_since : pyval)
  : result string :=
  let* connected_time := DateTime.fromtimestamp utcoffset connected_since in
  let duration := now - connected_time in
  let* total := DateTime.total_seconds duration in
  let* '(hours, remainder) := DateTime.divmod_int total 3600 in
  let* '(minutes, seconds) := DateTime.divmod_int remainder 60 in
  DateTime.hms hours minutes seconds.

(** A value given to [table.add_row] as it is: a string is a cell, [None]
    an empty cell, and any other value of a peer is not renderable. *)
Definition add_row_cell (renderable : pyval) : result string :=
  match renderable with
  | PStr s => Ok s
  | PNone => Ok ""
  | _ => Raise NotRenderableError
  end.

Definition build_row (now : Z) (p : peer) : result row :=
  let* services := decode_services (dict_get p "services" (PStr "0")) in
  let is_missing_node_network := negb (Str.contains "N_N" services) in
  let* id := getitem p "id" in
  let* addr := getitem p "addr" in
  let* connected := connection_duration now (dict_get p "conntime" (PInt 0)) in
  let* subver := getitem p "subver" in
  let* version := getitem p "version" in
  let* bytessent := getitem p "bytessent" in
  let* sent := Py.truediv_int bytessent 1048576 in
  let* bytesrecv := getitem p "bytesrecv" in
  let* recv := Py.truediv_int bytesrecv 1048576 in
  let* ping := format_pingtime (dict_get p "pingtime" (PStr "N/A")) in
  let* inbound := getitem p "inbound" in
  let* synced_headers := getitem p "synced_headers" in
  let* synced_blocks := getitem p "synced_blocks" in
  let banscore := py_str (dict_get p "banscore" (PStr "N/A")) in
  let* relaytxes := getitem p "relaytxes" in
  (* [table.add_row]: the address and the version string are passed as
     they are *)
  let* addr := add_row_cell addr in
  let* subver := add_row_cell subver in
  Ok (mk_row
        [ py_str id; addr; connected; services; subver; py_str version;
          Py.megabytes sent; Py.megabytes recv; ping;
          (if Py.truthy inbound then "Inbound" else "Outbound");
          py_str synced_headers; py_str synced_blocks; banscore;
          (if Py.truthy relaytxes then "Yes" else "No") ]
        is_missing_node_network).

Fixpoint build_rows (clock : nat -> Z) (i : nat) (peers : list peer)
  : result (list row) :=
  match peers with
  | [] => Ok []
  | p :: rest =>
      let* r := build_row (clock i) p in
      let* rs := build_rows clock (S i) rest in
      Ok (r :: rs)
  end.

Definition build_peer_table (clock : nat -> Z) (peers : list peer)
  : result table :=
  let* rs := build_rows clock 0 peers in
  Ok (mk_table (add_columns headers right_align) rs).

Variable json_loads : string -> result (list peer).

Definition get_peer_info (o : run_result) : result (list peer) :=
  match o with
  | RunCompleted _ stdout => json_loads stdout
  | RunFailed e => Raise e
  end.

(** The script itself: the loop, refreshed every 5 seconds. *)
Definition main (w : feed) (cycles : nat) : list screen_event * ending :=
  screen_loop get_peer_info build_peer_table 5 w cycles 0.

End Environment.

End PeersRich.

(** ** [peers.py] *)

Module Peers.

Definition NODE_NETWORK : Z := Z.shiftl 1 0.
Definition NODE_WITNESS : Z := Z.shiftl 1 3.
Definition NODE_COMPACT_FILTERS : Z := Z.shiftl 1 6.
Definition NODE_NETWORK_LIMITED : Z := Z.shiftl 1 10.

(** What the script does to the outside world, in program order. *)
Inductive message : Type :=
  | MsgFetchError (returncode : Z)
  | MsgBanning (ip banscore : pyval)
  | MsgBanned (ip : string)
  | MsgBanFailed (ip stderr : string)
  | MsgBanError (peer_ip_port : pyval) (e : exn)
  | MsgMissingNetwork (ip : pyval).

Inductive text : Type :=
  | Title
  | TableText (table_data : list (list pyval))
  | ErrorText (e : exn).

Inductive event : Type :=
  | EvRun (argv : list string)
  | EvPrint (m : message)
  | EvClear
  | EvAddStr (y x : Z) (t : text)
  | EvAddStrError (y x : Z) (t : text)
  | EvRefresh
  | EvGetCh (key : Z)
  | EvNapms (ms : Z).

(** Outcome of [subprocess.run] for [setban]. *)
Inductive run_outcome : Type :=
  | Completed (returncode : Z) (stderr : string)
  | NotStarted (e : exn).

(** Outcome of the body of [get_peer_info]: [bitcoin-cli] exits with
    status 0 and prints an array of peer objects; it exits with another
    status ([CalledProcessError]); or any other exception is raised (the
    program cannot be started, its output is not the expected JSON). *)
Inductive fetch_outcome : Type :=
  | Fetched (peers : list peer)
  | ExitStatus (returncode : Z)
  | Failed (e : exn).

Definition get_peer_info (o : fetch_outcome) : list event * result (list peer) :=
  let run := EvRun ["bitcoin-cli"; "getpeerinfo"] in
  match o with
  | Fetched peers => ([run], Ok peers)
  | ExitStatus rc => ([run; EvPrint (MsgFetchError rc)], Ok [])
  | Failed e => ([run], Raise e)
  end.

Definition services_list (services_int : Z) : list string :=
  let l := [] in
  let l := if Z.land services_int NODE_NETWORK =? 0 then l else l ++ ["N_N"] in
  let l := if Z.land services_int NODE_WITNESS =? 0 then l else l ++ ["N_W"] in
  let l := if Z.land services_int NODE_COMPACT_FILTERS =? 0 then l else l ++ ["N_C_F"] in
  let l := if Z.land services_int NODE_NETWORK_LIMITED =? 0 then l else l ++ ["N_N_L"] in
  l.

Definition decode_services (services_hex : pyval) : result string :=
  let* services_int := PyInt.int16 services_hex in
  Ok (Str.join ", " (services_list services_int)).

(** [peer_ip_port.split(":")[0]] *)
Definition ban_target (peer_ip_port : string) : string :=
  Str.before_first ":" peer_ip_port.

(** [ban_peer]: every exception of its body is caught and reported. *)
Definition ban_peer (setban : string -> run_outcome) (peer_ip_port : pyval)
  : list event :=
  match peer_ip_port with
  | PStr s =>
      let ip := ban_target s in
      let run := EvRun ["bitcoin-cli"; "setban"; ip; "add"] in
      match setban ip with
      | Completed rc stderr =>
          [run; EvPrint (if rc =? 0 then MsgBanned ip else MsgBanFailed ip stderr)]
      | NotStarted e => [run; EvPrint (MsgBanError peer_ip_port e)]
      end
  | _ => [EvPrint (MsgBanError peer_ip_port AttributeError)]
  end.

(** The branch taken by the body of the loop of [analyze_peers]. *)
Inductive action : Type :=
  | NoAction
  | Warn (ip : pyval)
  | RequestBan (ip banscore : pyval).

Definition peer_action (p : peer) : result action :=
  let* ip := getitem p "addr" in
  let banscore := dict_get p "banscore" (PInt 0) in
  let* services := decode_services (dict_get p "services" (PStr "0")) in
  let* over := Py.gt_int banscore 100 in
  if over then Ok (RequestBan ip banscore)
  else if negb (Str.contains "N_N" services) then Ok (Warn ip)
  else Ok NoAction.

Definition perform (setban : string -> run_outcome) (a : action) : list event :=
  match a with
  | RequestBan ip banscore => EvPrint (MsgBanning ip banscore) :: ban_peer setban ip
  | Warn ip => [EvPrint (MsgMissingNetwork ip)]
  | NoAction => []
  end.

(** [analyze_peers]: the events up to the end of the list or up to the
    first exception. *)
Fixpoint analyze_peers (setban : string -> run_outcome) (peers : list peer)
  : list event * result unit :=
  match peers with
  | [] => ([], Ok tt)
  | p :: rest =>
      match peer_action p with
      | Ok a =>
          let '(evs, r) := analyze_peers setban rest in
          (perform setban a ++ evs, r)
      | Raise e => ([], Raise e)
      end
  end.

Definition format_pingtime (pingtime : pyval) : result string :=
  if Py.eq_str pingtime "N/A" then Ok "N/A"
  else
    match Py.to_float pingtime with
    | Ok x => Ok (F64.format_fixed 3 x)
    | Raise ValueError => Ok "N/A"
    | Raise e => Raise e
    end.

Section Environment.

Variable utcoffset : Z -> Z.

Definition connection_duration (now : Z) (connected_since : pyval)
  : result string :=
  let* connected_time := DateTime.fromtimestamp utcoffset connected_since in
  let duration := now - connected_time in
  let* total := DateTime.total_seconds duration in
  let* '(hours, remainder) := DateTime.divmod_int total 3600 in
  let* '(minutes, seconds) := DateTime.divmod_int remainder 60 in
  DateTime.hms hours minutes seconds.

Definition format_peer_data (now : Z) (p : peer) : result (list pyval) :=
  let* id := getitem p "id" in
  let* addr := getitem p "addr" in
  let* connected := connection_duration now (dict_get p "conntime" (PInt 0)) in
  let* services := decode_services (dict_get p "services" (PStr "0")) in
  let* subver := getitem p "subver" in
  let* version := getitem p "version" in
  let* bytessent := getitem p "bytessent" in
  let* sent := Py.truediv_int bytessent 1048576 in
  let* bytesrecv := getitem p "bytesrecv" in
  let* recv := Py.truediv_int bytesrecv 1048576 in
  let* ping := format_pingtime (dict_get p "pingtime" (PStr "N/A")) in
  let* inbound := getitem p "inbound" in
  let* synced_headers := getitem p "synced_headers" in
  let* synced_blocks := getitem p "synced_blocks" in
  let banscore := dict_get p "banscore" (PStr "N/A") in
  let* relaytxes := getitem p "relaytxes" in
  Ok [ id; addr; PStr connected; PStr services; subver; version;
       PStr (Py.megabytes sent); PStr (Py.megabytes recv); PStr ping;
       PStr (if Py.truthy inbound then "Inbound" else "Outbound");
       synced_headers; synced_blocks; banscore;
       PStr (if Py.truthy relaytxes then "Yes" else "No") ].

(** [clock i] is the reading of [datetime.now()] for row [i]. *)
Fixpoint format_rows (clock : nat -> Z) (i : nat) (peers : list peer)
  : result (list (list pyval)) :=
  match peers with
  | [] => Ok []
  | p :: rest =>
      let* r := format_peer_data (clock i) p in
      let* rs := format_rows clock (S i) rest in
      Ok (r :: rs)
  end.

Definition format_peer_info (clock : nat -> Z) (peers : list peer)
  : result (list (list pyval)) :=
  format_rows clock 0 peers.

(** *** [display_real_time]

    The world of one run: the outcome of the fetch of each cycle, the
    clock readings, the keys typed, the [tabulate] that is installed and
    the room on the screen.  [typed c 0] are the keys that arrive while
    cycle [c] clears, fetches and redraws; [typed c (S j)] are the keys
    that arrive during the sleep that follows the cancellation check
    number [j] of cycle [c] (checks are numbered from 0).  Typed keys queue
    up in the terminal; [getch] takes the oldest one, or returns -1 when
    there is none.  [tabulate rows] is the exception that [tabulate] raises
    on these rows with the headers and alignments of the script, if it
    raises one: version 0.9.0 raises [IndexError] when there is no row.
    [fits c t] tells whether the window has room for the text [t] in cycle
    [c]; when it has not, [addstr] writes what fits and raises
    [curses.error].

    The line of the handler is taken to fit ([EvAddStr] is a call that
    returned, [EvAddStrError] one that raised), [clear] and [refresh] to
    succeed, and an interrupt from the keyboard is not part of the
    model. *)
Record world : Type := mk_world {
  fetch : nat -> fetch_outcome;
  clock : nat -> nat -> Z;
  typed : nat -> nat -> list Z;
  tabulate : list (list pyval) -> option exn;
  fits : nat -> text -> bool
}.

Definition refresh_rate : Z := 5.
Definition ord_q : Z := 113.

Definition getch (buf : list Z) : Z * list Z :=
  match buf with
  | [] => (-1, [])
  | k :: rest => (k, rest)
  end.

(** [stdscr.addstr(y, x, t)] in cycle [c]. *)
Definition addstr (w : world) (c : nat) (y x : Z) (t : text)
  : list event * option exn :=
  if fits w c t then ([EvAddStr y x t], None)
  else ([EvAddStrError y x t], Some CursesError).

(** The [try] block: what it does, and the exception that leaves it. *)
Definition attempt (w : world) (c : nat) : list event * option exn :=
  let '(evs, peers) := get_peer_info (fetch w c) in
  match (let* ps := peers in format_peer_info (clock w c) ps) with
  | Raise e => (evs, Some e)
  | Ok table_data =>
      match tabulate w table_data with
      | Some e => (evs, Some e)
      | None =>
          match addstr w c 0 0 Title with
          | (evs1, Some e) => (evs ++ evs1, Some e)
          | (evs1, None) =>
              let '(evs2, r) := addstr w c 2 0 (TableText table_data) in
              (evs ++ evs1 ++ evs2, r)
          end
      end
  end.

(** The [try] block and its handler. *)
Definition redraw (w : world) (c : nat) : list event :=
  match attempt w c with
  | (evs, None) => evs
  | (evs, Some e) => evs ++ [EvAddStr 0 0 (ErrorText e)]
  end.

(** The [for] loop that waits: [n] iterations are left, [j] is the
    number of the next check.  The result is [None] when the function
    returned on the quit key, and the pending keys otherwise. *)
Fixpoint wait (w : world) (c : nat) (n j : nat) (buf : list Z)
  : list event * option (list Z) :=
  match n with
  | O => ([], Some buf)
  | S n' =>
      let '(key, buf1) := getch buf in
      if key =? ord_q then ([EvGetCh key], None)
      else
        let '(evs, r) := wait w c n' (S j) (buf1 ++ typed w c (S j)) in
        (EvGetCh key :: EvNapms 100 :: evs, r)
  end.

Inductive status : Type :=
  | Returned
  | Looping (buf : list Z).

(** [cycles] iterations of the [while True] loop, from cycle [c]. *)
Fixpoint run_from (w : world) (cycles : nat) (c : nat) (buf : list Z)
  : list event * status :=
  match cycles with
  | O => ([], Looping buf)
  | S k =>
      let buf0 := buf ++ typed w c 0 in
      let head := EvClear :: redraw w c ++ [EvRefresh] in
      match wait w c (Z.to_nat (refresh_rate * 10)) 0 buf0 with
      | (evs, None) => (head ++ evs, Returned)
      | (evs, Some buf') =>
          let '(evs', st) := run_from w k (S c) buf' in
          (head ++ evs ++ evs', st)
      end
  end.

Definition display_real_time (w : world) (cycles : nat) : list event * status :=
  run_from w cycles 0 [].

End Environment.

End Peers.

(** ** Vocabulary of the statements *)

(** The tags selected from an enumeration of (bit, tag) pairs, in the
    order of the enumeration. *)
Definition select_tags (table : list (Z * string)) (m : Z) : list string :=
  map snd (List.filter (fun bt => negb (Z.land m (fst bt) =? 0)) table).

(** The tags of a decoded text: [text.split(", ")], and no tag for the
    empty text. *)
Fixpoint split_from (s : string) (tag : string) : list string :=
  match s with
  | EmptyString => [tag]
  | String "," (String " " rest) => tag :: split_from rest ""
  | String c rest => split_from rest (tag +:+ String c "")
  end.

Definition split_tags (text : string) : list string :=
  match text with
  | EmptyString => []
  | _ => split_from text ""
  end.

(** All the bits of an enumeration. *)
Definition known_mask (table : list (Z * string)) : Z :=
  fold_right Z.lor 0 (map fst table).

(** The enumeration behind the four tests of [peers_monitor.py]. *)
Definition monitor_tags : list (Z * string) :=
  [ (PeersMonitor.NODE_NETWORK, "N");
    (PeersMonitor.NODE_WITNESS, "W");
    (PeersMonitor.NODE_COMPACT_FILTERS, "C_F");
    (PeersMonitor.NODE_NETWORK_LIMITED, "N_L") ].

(** A pruned node as [getpeerinfo] reports it: NODE_WITNESS and
    NODE_NETWORK_LIMITED, no NODE_NETWORK. *)
Definition limited_peer : peer :=
  list_to_map
    [ ("id", PInt 7); ("addr", PStr "203.0.113.5:8333");
      ("conntime", PInt 1700000000); ("services", PStr "0000000000000408");
      ("subver", PStr "/Satoshi:25.0.0/"); ("version", PInt 70016);
      ("bytessent", PInt 1048576); ("bytesrecv", PInt 2621440);
      ("pingtime", PFloat (S754_finite false 4503599627370496 (-55)));
      ("inbound", PBool false); ("synced_headers", PInt 800000);
      ("synced_blocks", PInt 800000); ("banscore", PInt 0);
      ("relaytxes", PBool true) ].

(** A full node: NODE_NETWORK and NODE_WITNESS. *)
Definition full_peer : peer := <["services" := PStr "0000000000000009"]> limited_peer.

Definition is_ban (a : Peers.action) : bool :=
  match a with
  | Peers.RequestBan _ _ => true
  | _ => false
  end.

Definition utc (_ : Z) : Z := 0.
Definition no_repr (_ : pyval) : string := "".

(** The cell of peers_rich.py for the value that peers.py puts in a
    column: its [str], but for the address (column 1) and the version
    string (column 4), where [None] is an empty cell. *)
Definition rich_cell (py_repr : pyval -> string) (column : nat) (v : pyval)
  : string :=
  if (column =? 1)%nat || (column =? 4)%nat
  then match v with
       | PNone => ""
       | _ => PeersRich.py_str py_repr v
       end
  else PeersRich.py_str py_repr v.

(** A value that a cell of a [rich] table can hold as it is. *)
Definition text_or_none (v : pyval) : Prop :=
  v = PNone \/ exists s, v = PStr s.

(** The events of a trace that start [bitcoin-cli getpeerinfo]. *)
Definition is_fetch (ev : Peers.event) : bool :=
  match ev with
  | Peers.EvRun ["bitcoin-cli"; "getpeerinfo"] => true
  | _ => false
  end.

Definition count_fetches (tr : list Peers.event) : nat :=
  List.length (List.filter is_fetch tr).

(** The events of a wait window in which the checks read [keys]: every
    check is followed by a sleep of 100 ms. *)
Definition window (keys : list Z) : list Peers.event :=
  flat_map (fun k => [Peers.EvGetCh k; Peers.EvNapms 100]) keys.

(** The events of one cycle before its wait window. *)
Definition cycle_head (utcoffset : Z -> Z) (w : Peers.world) (c : nat)
  : list Peers.event :=
  Peers.EvClear :: Peers.redraw utcoffset w c ++ [Peers.EvRefresh].




(** A [tabulate] that raises nothing, and one that raises on a table with
    no row, as version 0.9.0 does. *)
Definition tabulate_total (_ : list (list pyval)) : option exn := None.


(** A window with room for everything. *)
Definition roomy (_ : nat) (_ : Peers.text) : bool := true.

(** The number of cancellation checks of one wait window. *)
Definition polls : nat := Z.to_nat (Peers.refresh_rate * 10).

(** A world in which the fetch always fails and the only key ever typed is
    [q], during the sleep that follows check [j] of cycle [c] ([slot] is
    [S j]), or while cycle [c] is redrawn ([slot] is 0). *)
Definition quit_world (c slot : nat) : Peers.world :=
  Peers.mk_world
    (fun _ => Peers.Failed OSError)
    (fun _ _ => 0)
    (fun c' j' => if (c' =? c)%nat && (j' =? slot)%nat then [Peers.ord_q] else [])
    tabulate_total roomy.



(** Local time is less than a day away from UTC. *)
Definition ordinary_clock (utcoffset : Z -> Z) : Prop :=
  forall t, -86400 < utcoffset t < 86400.

(** Central European time in the autumn of 2023: two hours ahead of UTC
    until 29 October, 01:00 UTC, one hour from then on. *)
Definition berlin_2023 (t : Z) : Z := if t <? 1698541200 then 7200 else 3600.

(** Two decimal digits, and the text [HH:MM:SS] of a number of seconds. *)
Definition two_digits (n : Z) : string :=
  String (Str.digit (n / 10)) (String (Str.digit (n mod 10)) "").

Definition hms_text (secs : Z) : string :=
  two_digits (secs / 3600) +:+ ":" +:+ two_digits (secs mod 3600 / 60) +:+ ":" +:+
  two_digits (secs mod 60).

(** The events of a trace that run [bitcoin-cli setban], and those that
    print the warning about a missing NODE_NETWORK service. *)
Definition is_setban (ev : Peers.event) : bool :=
  match ev with
  | Peers.EvRun ("bitcoin-cli" :: "setban" :: _) => true
  | _ => false
  end.

Definition is_warning (ev : Peers.event) : bool :=
  match ev with
  | Peers.EvPrint (Peers.MsgMissingNetwork _) => true
  | _ => false
  end.

(** The fields that [analyze_peers] reads, when they have the form in
    which [getpeerinfo] reports them: the address as text, the banscore as
    an integer (0 when absent), the services as hexadecimal text (no
    service when absent). *)
Definition addr_field (p : peer) : option string :=
  match p !! "addr" with
  | Some (PStr a) => Some a
  | _ => None
  end.

Definition banscore_field (p : peer) : option Z :=
  match dict_get p "banscore" (PInt 0) with
  | PInt n => Some n
  | _ => None
  end.

Definition services_field (p : peer) : option Z :=
  match dict_get p "services" (PStr "0") with
  | PStr s =>
      match PyInt.of_hex s with
      | Ok m => Some m
      | Raise _ => None
      end
  | _ => None
  end.

Definition readable (p : peer) : bool :=
  match addr_field p, banscore_field p, services_field p with
  | Some _, Some _, Some _ => true
  | _, _, _ => false
  end.

Definition over_threshold (p : peer) : bool :=
  match banscore_field p with
  | Some n => 100 <? n
  | None => false
  end.

(** Neither the NETWORK bit (bit 0) nor the NETWORK_LIMITED bit (bit 10)
    is set. *)
Definition no_network_bits (m : Z) : bool :=
  negb (Z.testbit m 0) && negb (Z.testbit m 10).

Definition lacks_network (p : peer) : bool :=
  match services_field p with
  | Some m => no_network_bits m
  | None => false
  end.

(** The service flags as [getpeerinfo] prints them: [width] hexadecimal
    digits in lower case, the most significant first. *)
Definition hex_digit (d : Z) : ascii :=
  if d <? 10 then ascii_of_nat (48 + Z.to_nat d) else ascii_of_nat (87 + Z.to_nat d).

Fixpoint hex_fixed (width : nat) (n : Z) : string :=
  match width with
  | O => ""
  | S w => hex_fixed w (n / 16) +:+ String (hex_digit (n mod 16)) ""
  end.

(** The sleeps of a trace. *)
Definition is_nap (ev : Peers.event) : bool :=
  match ev with
  | Peers.EvNapms _ => true
  | _ => false
  end.

Definition count_naps (tr : list Peers.event) : nat :=
  List.length (List.filter is_nap tr).

(** The number of elements of a list that pass a test. *)
Definition count {A : Type} (f : A -> bool) (l : list A) : nat :=
  List.length (List.filter f l).

(** What one cycle of a screen loop has to show: the table of the peers
    fetched, or the exception of the fetch or of the construction of the
    table. *)
Definition frame (get_peer_info : run_result -> result (list peer))
    (build_peer_table : (nat -> Z) -> list peer -> result table)
    (w : feed) (c : nat) : result table :=
  let* peers := get_peer_info (ran w c) in
  build_peer_table (readings w c) peers.

(** The events of a cycle that runs to the end of its sleep. *)
Definition full_cycle (period : Z) (t : table) : list screen_event :=
  [ScRun ["bitcoin-cli"; "getpeerinfo"]; ScUpdate t; ScSleep period].

Definition is_update (ev : screen_event) : bool :=
  match ev with
  | ScUpdate _ => true
  | _ => false
  end.

Definition is_print (ev : screen_event) : bool :=
  match ev with
  | ScPrint _ => true
  | _ => false
  end.

(** A run in which [q] is typed behind two other keys while the first
    cycle is drawn. *)
Definition type_ahead_world : Peers.world :=
  Peers.mk_world
    (fun _ => Peers.Fetched [])
    (fun _ _ => 0)
    (fun c j => if (c =? 0)%nat && (j =? 0)%nat then [120; 121; Peers.ord_q] else [])
    tabulate_total roomy.

(** A stand-in for [json.loads] that reads the empty array and nothing
    else, and three runs: [bitcoin-cli] prints the empty array in every
    cycle; it fails and prints nothing in cycle 1; an interrupt arrives
    during the sleep of cycle 1. *)
Definition loads_empty_array (s : string) : result (list peer) :=
  if String.eqb s "[]" then Ok [] else Raise JSONDecodeError.

Definition quiet_feed : feed :=
  mk_feed (fun _ => RunCompleted 0 "[]") (fun _ _ => 0) (fun _ => None).

Definition failing_feed : feed :=
  mk_feed (fun c => if (c =? 1)%nat then RunCompleted 1 "" else RunCompleted 0 "[]")
          (fun _ _ => 0) (fun _ => None).

Definition interrupted_feed : feed :=
  mk_feed (fun _ => RunCompleted 0 "[]") (fun _ _ => 0)
          (fun c => if (c =? 1)%nat then Some InSleep else None).

(** * Properties *)

(** ** Sanity checks of the prelude *)

Example join_three : Str.join ", " ["N"; "W"; "N_L"] = "N, W, N_L".
Proof. reflexivity. Qed.

Example of_int_02_examples :
  Str.of_int_02 7 = "07" /\ Str.of_int_02 123 = "123" /\
  Str.of_int_02 (-1) = "-1" /\ Str.of_int_02 0 = "00".
Proof. repeat split. Qed.

Example of_hex_examples :
  PyInt.of_hex "0000000000000409" = Ok 1033 /\
  PyInt.of_hex "0" = Ok 0 /\
  PyInt.of_hex " 0x_Ff " = Ok 255 /\
  PyInt.of_hex "-1f" = Ok (-31) /\
  PyInt.of_hex "zz" = Raise ValueError /\
  PyInt.of_hex "" = Raise ValueError /\
  PyInt.of_hex "0x" = Raise ValueError /\
  PyInt.of_hex "1__0" = Raise ValueError /\
  PyInt.of_hex "12 34" = Raise ValueError.
Proof. repeat split. Qed.

Example of_string_examples :
  F64.of_string "0.125" = Ok (S754_finite false 4503599627370496 (-55)) /\
  F64.of_string " 1_0.5e1 " = Ok (S754_finite false 7388718138654720 (-46)) /\
  F64.of_string "-.5" = Ok (S754_finite true 4503599627370496 (-53)) /\
  F64.of_string "-0" = Ok (S754_zero true) /\
  F64.of_string "1e400" = Ok (S754_infinity false) /\
  F64.of_string "-Infinity" = Ok (S754_infinity true) /\
  F64.of_string "NaN" = Ok S754_nan /\
  F64.of_string "oops" = Raise ValueError /\
  F64.of_string "N/A" = Raise ValueError /\
  F64.of_string "1e" = Raise ValueError /\
  F64.of_string "1_.5" = Raise ValueError /\
  F64.of_string "." = Raise ValueError /\
  F64.of_string "" = Raise ValueError.
Proof. vm_compute. repeat split. Qed.

(** The rounding of this development agrees with the binary64 operations
    of the Standard Library on sample operands. *)
Example rounding_agrees_with_SpecFloat :
  let f n := F64.RN (inject_Z n) in
  F64.div (f 90720) (f 86400) = SFdiv 53 1024 (f 90720) (f 86400) /\
  F64.div (f 1) (f 3) = SFdiv 53 1024 (f 1) (f 3) /\
  F64.div (f 123456789) (f 1000000) = SFdiv 53 1024 (f 123456789) (f 1000000) /\
  F64.sub (F64.div (f 1) (f 3)) (F64.div (f 1) (f 7)) =
    SFsub 53 1024 (F64.div (f 1) (f 3)) (F64.div (f 1) (f 7)) /\
  F64.add (F64.div (f 2) (f 3)) (f 3600) =
    SFadd 53 1024 (F64.div (f 2) (f 3)) (f 3600) /\
  f (2 ^ 60 + 1) = binary_normalize 53 1024 (2 ^ 60 + 1) 0 false /\
  F64.int_truediv 1 (2 ^ 1074) = Ok (S754_finite false 1 (-1074)) /\
  F64.int_truediv (2 ^ 1024) 1 = Raise OverflowError.
Proof. vm_compute. repeat split. Qed.

Example format_fixed_examples :
  F64.format_fixed 3 (S754_finite false 4503599627370496 (-55)) = "0.125" /\
  F64.format_fixed 1 (S754_finite false 4503599627370496 (-55)) = "0.1" /\
  F64.format_fixed 2 (S754_finite false 4503599627370496 (-55)) = "0.12" /\
  F64.format_fixed 3 (S754_zero true) = "-0.000" /\
  F64.format_fixed 3 S754_nan = "nan".
Proof. vm_compute. repeat split. Qed.

Example limited_peer_row :
  PeersMonitor.build_row utc no_repr (1700003661 * 1000000) limited_peer =
  Ok (mk_row ["7"; "01:01:01"; "W, N_L"; "/Satoshi:25.0.0/"; "70016";
              "1.00 MB"; "2.50 MB"; "0.125"; ""; "Yes"] false).
Proof. vm_compute. reflexivity. Qed.

(** ** Service decoding *)

Section SelectTags.

Lemma translate_loop_select items m acc :
  PeerInfo2.translate_loop items m acc = acc ++ select_tags items m.
Proof.
  revert acc. induction items as [|[bit name] rest IH]; intros acc; simpl.
  - now rewrite app_nil_r.
  - rewrite IH. unfold select_tags. simpl.
    destruct (Z.land m bit =? 0); simpl; [reflexivity|].
    now rewrite <- app_assoc.
Qed.

Lemma select_tags_in table m tag :
  In tag (select_tags table m) <->
  exists bit, In (bit, tag) table /\ Z.land m bit <> 0.
Proof.
  unfold select_tags. rewrite List.in_map_iff. split.
  - intros [[bit t] [Heq Hin]]. simpl in Heq. subst t.
    apply List.filter_In in Hin as [Hin Hb]. simpl in Hb.
    exists bit. split; [assumption|].
    intros H0. rewrite H0 in Hb. discriminate.
  - intros [bit [Hin Hb]]. exists (bit, tag). split; [reflexivity|].
    apply List.filter_In. split; [assumption|]. simpl.
    destruct (Z.eqb_spec (Z.land m bit) 0); [contradiction|reflexivity].
Qed.

(** When no tag is bound to two bits, a tag is selected exactly when its
    own bit is set. *)
Lemma select_tags_iff table m :
  List.NoDup (map snd table) ->
  Forall (fun bt => In (snd bt) (select_tags table m) <-> Z.land m (fst bt) <> 0)
         table.
Proof.
  intros Hnd. apply List.Forall_forall. intros [bit tag] Hin. simpl.
  rewrite select_tags_in. split.
  - intros [bit' [Hin' Hb]].
    assert (bit' = bit) as ->; [|assumption].
    clear Hb. induction table as [|[b t] rest IH]; [contradiction|].
    simpl in Hnd. inversion Hnd as [|? ? Hnot Hnd']; subst.
    destruct Hin as [Heq|Hin], Hin' as [Heq'|Hin'].
    + congruence.
    + inversion Heq; subst. exfalso. apply Hnot.
      apply List.in_map_iff. now exists (bit', tag).
    + inversion Heq'; subst. exfalso. apply Hnot.
      apply List.in_map_iff. now exists (bit, tag).
    + now apply IH.
  - intros Hb. now exists bit.
Qed.

Lemma land_known_mask table m bit tag :
  In (bit, tag) table -> Z.land (Z.land m (known_mask table)) bit = Z.land m bit.
Proof.
  intros Hin. rewrite <- Z.land_assoc. f_equal.
  unfold known_mask. induction table as [|[b t] rest IH]; [contradiction|].
  simpl. destruct Hin as [Heq|Hin].
  - inversion Heq; subst. rewrite Z.land_comm, Z.land_lor_distr_r, Z.land_diag.
    apply Z.bits_inj'. intros n Hn.
    rewrite Z.lor_spec, Z.land_spec. now destruct (Z.testbit bit n).
  - rewrite Z.land_lor_distr_l, (IH Hin).
    apply Z.bits_inj'. intros n Hn.
    rewrite Z.lor_spec, Z.land_spec. now destruct (Z.testbit bit n), (Z.testbit b n).
Qed.

(** Bits outside the enumeration do not change the selection. *)
Lemma select_tags_known table m :
  select_tags table (Z.land m (known_mask table)) = select_tags table m.
Proof.
  unfold select_tags. f_equal. apply List.filter_ext_in.
  intros [bit tag] Hin. simpl. now rewrite (land_known_mask table m bit tag).
Qed.

End SelectTags.

Lemma translate_services_select m :
  PeerInfo2.translate_services m = select_tags PeerInfo2.SERVICES m.
Proof. unfold PeerInfo2.translate_services. now rewrite translate_loop_select. Qed.

Lemma monitor_services_list_select m :
  PeersMonitor.services_list m = select_tags monitor_tags m.
Proof.
  unfold PeersMonitor.services_list, select_tags, monitor_tags. simpl.
  destruct (Z.land m PeersMonitor.NODE_NETWORK =? 0),
           (Z.land m PeersMonitor.NODE_WITNESS =? 0),
           (Z.land m PeersMonitor.NODE_COMPACT_FILTERS =? 0),
           (Z.land m PeersMonitor.NODE_NETWORK_LIMITED =? 0); reflexivity.
Qed.

Lemma services_nodup :
  List.NoDup (map snd PeerInfo2.SERVICES) /\ List.NoDup (map snd monitor_tags).
Proof.
  split; simpl;
    repeat (constructor; [simpl; intuition discriminate|]); constructor.
Qed.

(** The text of [decode_services] holds the tags of its list and nothing
    else. *)
Lemma monitor_text_splits (m : Z) :
  split_tags (Str.join ", " (PeersMonitor.services_list m)) =
  PeersMonitor.services_list m.
Proof.
  unfold PeersMonitor.services_list.
  destruct (Z.land m PeersMonitor.NODE_NETWORK =? 0),
           (Z.land m PeersMonitor.NODE_WITNESS =? 0),
           (Z.land m PeersMonitor.NODE_COMPACT_FILTERS =? 0),
           (Z.land m PeersMonitor.NODE_NETWORK_LIMITED =? 0); reflexivity.
Qed.

(** C3.  For every services bitmask [m], the decoded list contains the tag
    of an enumerated (bit, tag) pair exactly when [m & bit] is not zero; the
    zero bitmask decodes to the empty list; the tags come in the order of
    the enumeration; bits outside the enumeration are ignored.  This holds
    for the list of [translate_services] of peerinfo2.py, and for
    [decode_services] of peers_monitor.py: on every text [s] that
    [int(s, 16)] reads as [m] it returns the tags of that list joined by
    [", "], a text that splits into these tags again. *)
Theorem decoded_tags_iff_bit_set (m : Z) :
  (Forall (fun bt => In (snd bt) (PeerInfo2.translate_services m) <->
                     Z.land m (fst bt) <> 0) PeerInfo2.SERVICES /\
   PeerInfo2.translate_services 0 = [] /\
   PeerInfo2.translate_services m = select_tags PeerInfo2.SERVICES m /\
   PeerInfo2.translate_services (Z.land m (known_mask PeerInfo2.SERVICES)) =
   PeerInfo2.translate_services m) /\
  (Forall (fun bt => In (snd bt) (PeersMonitor.services_list m) <->
                     Z.land m (fst bt) <> 0) monitor_tags /\
   PeersMonitor.services_list 0 = [] /\
   PeersMonitor.services_list m = select_tags monitor_tags m /\
   PeersMonitor.services_list (Z.land m (known_mask monitor_tags)) =
   PeersMonitor.services_list m /\
   PeersMonitor.decode_services (PStr "0") = Ok "") /\
  (forall s, PyInt.of_hex s = Ok m ->
     exists text,
       PeersMonitor.decode_services (PStr s) = Ok text /\
       text = Str.join ", " (select_tags monitor_tags m) /\
       split_tags text = select_tags monitor_tags m /\
       Forall (fun bt => In (snd bt) (split_tags text) <-> Z.land m (fst bt) <> 0)
              monitor_tags /\
       (forall s', PyInt.of_hex s' = Ok (Z.land m (known_mask monitor_tags)) ->
                   PeersMonitor.decode_services (PStr s') = Ok text)).
Proof.
  destruct services_nodup as [Hn1 Hn2]. split; [|split].
  - rewrite !translate_services_select. repeat split.
    + now apply select_tags_iff.
    + apply select_tags_known.
  - rewrite !monitor_services_list_select. repeat split.
    + now apply select_tags_iff.
    + apply select_tags_known.
  - intros s Hs. exists (Str.join ", " (PeersMonitor.services_list m)).
    split; [unfold PeersMonitor.decode_services, PyInt.int16; now rewrite Hs|].
    rewrite monitor_text_splits, monitor_services_list_select.
    split; [reflexivity|]. split; [reflexivity|]. split; [now apply select_tags_iff|].
    intros s' Hs'. unfold PeersMonitor.decode_services, PyInt.int16. rewrite Hs'.
    cbn [bind]. now rewrite !monitor_services_list_select, select_tags_known.
Qed.

Lemma decoded_tags_iff_bit_set_witness :
  exists text,
    PeersMonitor.decode_services (PStr "0000000000000409") = Ok text /\
    text = "N, W, N_L" /\
    split_tags text = ["N"; "W"; "N_L"].
Proof.
  destruct (decoded_tags_iff_bit_set 1033) as [_ [_ H]].
  destruct (H "0000000000000409" eq_refl) as [text [Hd [Ht [Hsplit _]]]].
  exists text. split; [exact Hd|]. split; [rewrite Ht|rewrite Hsplit]; reflexivity.
Defined.

Example translate_services_order :
  PeerInfo2.translate_services (0x40000000 + 0x08 + 0x01 + 0x80) =
  ["NODE_NETWORK"; "NODE_WITNESS"; "NODE_NETWORK_LIMITED"].
Proof. reflexivity. Qed.

(** ** Strings *)

Lemma string_length_append (s t : string) :
  String.length (s +:+ t) = (String.length s + String.length t)%nat.
Proof. induction s as [|c s IH]; simpl; [reflexivity|now rewrite IH]. Qed.

Lemma take_all (n : nat) (s : string) :
  (String.length s <= n)%nat -> Str.take n s = s.
Proof.
  revert n. induction s as [|c s IH]; intros [|n] H; simpl in *; try reflexivity.
  - lia.
  - f_equal. apply IH. lia.
Qed.

Lemma take_length (n : nat) (s : string) :
  (n <= String.length s)%nat -> String.length (Str.take n s) = n.
Proof.
  revert n. induction s as [|c s IH]; intros [|n] H; simpl in *; try reflexivity.
  - lia.
  - f_equal. apply IH. lia.
Qed.

Lemma take_is_prefix (n : nat) (s : string) :
  exists rest, s = Str.take n s +:+ rest.
Proof.
  revert n. induction s as [|c s IH]; intros [|n]; simpl.
  - now exists "".
  - now exists "".
  - now exists (String c s).
  - destruct (IH n) as [rest Hrest]. exists rest.
    change (String c s = String c (Str.take n s +:+ rest)). now rewrite <- Hrest.
Qed.

(** ** Truncation *)

Section Truncate.

Variable s : string.
Variable N : Z.
Hypothesis N_nonneg : 0 <= N.

Lemma truncate_short :
  Str.len s <= N -> PeersMonitor.truncate_with_ellipsis s N = s.
Proof.
  intros H. unfold PeersMonitor.truncate_with_ellipsis.
  destruct (Z.ltb_spec N (Str.len s)); [lia|reflexivity].
Qed.

Lemma truncate_long :
  N < Str.len s ->
  PeersMonitor.truncate_with_ellipsis s N = Str.take (Z.to_nat N) s +:+ "..." /\
  Str.len (PeersMonitor.truncate_with_ellipsis s N) = N + 3.
Proof.
  intros H. unfold PeersMonitor.truncate_with_ellipsis, Str.slice_to.
  destruct (Z.ltb_spec N (Str.len s)); [|lia].
  destruct (Z.ltb_spec N 0); [lia|]. split; [reflexivity|].
  unfold Str.len in *. rewrite string_length_append, take_length by lia.
  simpl. lia.
Qed.

End Truncate.

Lemma rich2_truncate_same s N :
  PeersRich2.truncate_with_ellipsis s N = PeersMonitor.truncate_with_ellipsis s N.
Proof. reflexivity. Qed.

(** C9.  For every string [s] and every width [max_len], a number of
    characters and so not negative, [truncate_with_ellipsis]
    (peers_monitor.py and peers_rich2.py) returns [s] unchanged when
    [len(s) <= max_len], and otherwise the first [max_len] characters of
    [s] followed by ["..."], a result of length [max_len + 3]. *)
Theorem truncate_nonnegative_width (s : string) (max_len : Z) :
  0 <= max_len ->
  (Str.len s <= max_len ->
   PeersMonitor.truncate_with_ellipsis s max_len = s /\
   PeersRich2.truncate_with_ellipsis s max_len = s) /\
  (max_len < Str.len s ->
   PeersMonitor.truncate_with_ellipsis s max_len =
     Str.take (Z.to_nat max_len) s +:+ "..." /\
   PeersRich2.truncate_with_ellipsis s max_len =
     Str.take (Z.to_nat max_len) s +:+ "..." /\
   (exists rest, s = Str.take (Z.to_nat max_len) s +:+ rest) /\
   Str.len (Str.take (Z.to_nat max_len) s) = max_len /\
   Str.len (PeersMonitor.truncate_with_ellipsis s max_len) = max_len + 3).
Proof.
  intros Hn. split.
  - intros H. split; [|change (PeersMonitor.truncate_with_ellipsis s max_len = s)];
      now apply truncate_short.
  - intros H. destruct (truncate_long s max_len Hn H) as [H1 H2].
    split; [exact H1|]. split; [exact H1|]. split; [apply take_is_prefix|].
    split; [|exact H2].
    unfold Str.len in *. rewrite take_length by lia. lia.
Qed.

Lemma truncate_nonnegative_width_witness :
  PeersMonitor.truncate_with_ellipsis "ab" 5 = "ab" /\
  PeersMonitor.truncate_with_ellipsis "abcdefghij" 5 = "abcde...".
Proof.
  destruct (truncate_nonnegative_width "ab" 5 ltac:(lia)) as [H1 _].
  destruct (truncate_nonnegative_width "abcdefghij" 5 ltac:(lia)) as [_ H2].
  split.
  - apply H1. vm_compute. discriminate.
  - apply H2. reflexivity.
Defined.

(** ** The anomalous flag *)

(** What the substring tests of the scripts compute: the row is highlighted
    exactly when neither the NETWORK nor the NETWORK_LIMITED bit is set,
    since the tag of the latter contains the tag of the former. *)
Lemma monitor_flag_behaviour (m : Z) :
  negb (Str.contains "N" (Str.join ", " (PeersMonitor.services_list m))) =
  (Z.land m PeersMonitor.NODE_NETWORK =? 0) &&
  (Z.land m PeersMonitor.NODE_NETWORK_LIMITED =? 0).
Proof.
  unfold PeersMonitor.services_list.
  destruct (Z.land m PeersMonitor.NODE_NETWORK =? 0),
           (Z.land m PeersMonitor.NODE_WITNESS =? 0),
           (Z.land m PeersMonitor.NODE_COMPACT_FILTERS =? 0),
           (Z.land m PeersMonitor.NODE_NETWORK_LIMITED =? 0); reflexivity.
Qed.

Lemma rich_flag_behaviour (m : Z) :
  negb (Str.contains "N_N" (Str.join ", " (PeersRich.services_list m))) =
  (Z.land m PeersRich.NODE_NETWORK =? 0) &&
  (Z.land m PeersRich.NODE_NETWORK_LIMITED =? 0).
Proof.
  unfold PeersRich.services_list.
  destruct (Z.land m PeersRich.NODE_NETWORK =? 0),
           (Z.land m PeersRich.NODE_WITNESS =? 0),
           (Z.land m PeersRich.NODE_COMPACT_FILTERS =? 0),
           (Z.land m PeersRich.NODE_NETWORK_LIMITED =? 0); reflexivity.
Qed.

Lemma peers_flag_behaviour (m : Z) :
  negb (Str.contains "N_N" (Str.join ", " (Peers.services_list m))) =
  (Z.land m Peers.NODE_NETWORK =? 0) &&
  (Z.land m Peers.NODE_NETWORK_LIMITED =? 0).
Proof. exact (rich_flag_behaviour m). Qed.

(** The flag of a row is the substring test on the decoded services. *)
Lemma monitor_row_flag utcoffset py_repr now (p : peer) (s : string) (m : Z) (r : row) :
  dict_get p "services" (PStr "0") = PStr s ->
  PyInt.of_hex s = Ok m ->
  PeersMonitor.build_row utcoffset py_repr now p = Ok r ->
  highlighted r =
  (Z.land m PeersMonitor.NODE_NETWORK =? 0) &&
  (Z.land m PeersMonitor.NODE_NETWORK_LIMITED =? 0).
Proof.
  intros Hs Hm. unfold PeersMonitor.build_row, PeersMonitor.decode_services.
  rewrite Hs. simpl. rewrite Hm. simpl.
  rewrite monitor_flag_behaviour.
  repeat match goal with
         | |- context [bind ?x _] => destruct x; simpl; [|discriminate]
         | |- context [let* ' _ := ?x in _] => destruct x; simpl; [|discriminate]
         end.
  intros H. inversion H. reflexivity.
Qed.

(** C1 at the failing input.  The services field ["0000000000000408"]
    (NODE_WITNESS and NODE_NETWORK_LIMITED) has no NETWORK bit and the
    decoded list has no NETWORK tag, yet [build_peer_table] of
    peers_monitor.py and of peers_rich.py add the row without highlight. *)
Theorem network_limited_row_not_highlighted :
  PyInt.of_hex "0000000000000408" = Ok 0x408 /\
  Z.land 0x408 PeersMonitor.NODE_NETWORK = 0 /\
  ~ In "N" (PeersMonitor.services_list 0x408) /\
  ~ In "N_N" (PeersRich.services_list 0x408) /\
  option_map (map highlighted)
    (match PeersMonitor.build_peer_table utc no_repr
             (fun _ => 1700003661 * 1000000) [limited_peer] with
     | Ok t => Some (rows t) | Raise _ => None end) = Some [false] /\
  option_map (map highlighted)
    (match PeersRich.build_peer_table utc no_repr
             (fun _ => 1700003661 * 1000000) [limited_peer] with
     | Ok t => Some (rows t) | Raise _ => None end) = Some [false].
Proof.
  repeat split; try (vm_compute; reflexivity);
    vm_compute; intuition discriminate.
Qed.

Example full_peer_row_not_highlighted :
  PeersMonitor.build_row utc no_repr (1700003661 * 1000000) full_peer =
  Ok (mk_row ["7"; "01:01:01"; "N, W"; "/Satoshi:25.0.0/"; "70016";
              "1.00 MB"; "2.50 MB"; "0.125"; ""; "Yes"] false).
Proof. vm_compute. reflexivity. Qed.

Example no_service_row_highlighted :
  PeersMonitor.build_row utc no_repr (1700003661 * 1000000)
    (<["services" := PStr "0000000000000008"]> limited_peer) =
  Ok (mk_row ["7"; "01:01:01"; "W"; "/Satoshi:25.0.0/"; "70016";
              "1.00 MB"; "2.50 MB"; "0.125"; ""; "Yes"] true).
Proof. vm_compute. reflexivity. Qed.

(** ** The ban policy of [analyze_peers] *)

(** The three branches, for a peer whose services decode to [m] and whose
    banscore is the integer [n]. *)
Lemma peer_action_cases (p : peer) (ip : pyval) (s : string) (m n : Z) :
  p !! "addr" = Some ip ->
  dict_get p "services" (PStr "0") = PStr s ->
  PyInt.of_hex s = Ok m ->
  dict_get p "banscore" (PInt 0) = PInt n ->
  Peers.peer_action p =
  Ok (if 100 <? n then Peers.RequestBan ip (PInt n)
      else if (Z.land m Peers.NODE_NETWORK =? 0) &&
              (Z.land m Peers.NODE_NETWORK_LIMITED =? 0)
           then Peers.Warn ip
           else Peers.NoAction).
Proof.
  intros Ha Hs Hm Hb. unfold Peers.peer_action, getitem, Peers.decode_services.
  rewrite Ha, Hs, Hb. simpl. rewrite Hm. simpl.
  destruct (100 <? n); [reflexivity|].
  rewrite peers_flag_behaviour. now destruct (_ && _).
Qed.

(** The ban command is issued for the part of the address before the
    first colon. *)
Lemma ban_peer_target (setban : string -> Peers.run_outcome) (addr : string) :
  In (Peers.EvRun ["bitcoin-cli"; "setban"; Str.before_first ":" addr; "add"])
     (Peers.ban_peer setban (PStr addr)).
Proof.
  unfold Peers.ban_peer, Peers.ban_target.
  destruct (setban _); simpl; auto.
Qed.

Example ban_target_examples :
  Peers.ban_target "203.0.113.5:8333" = "203.0.113.5" /\
  Peers.ban_target "[2001:db8::1]:8333" = "[2001".
Proof. split; reflexivity. Qed.

Example banscore_150_requests_ban :
  Peers.peer_action (<["banscore" := PInt 150]> limited_peer) =
  Ok (Peers.RequestBan (PStr "203.0.113.5:8333") (PInt 150)).
Proof. vm_compute. reflexivity. Qed.

(** C2 at the failing input.  A peer with banscore 0 whose services field
    ["0000000000000408"] has no NETWORK bit is not warned about: the branch
    taken is the one that does nothing. *)
Theorem network_limited_peer_not_warned :
  limited_peer !! "banscore" = Some (PInt 0) /\
  limited_peer !! "services" = Some (PStr "0000000000000408") /\
  ~ In "N_N" (Peers.services_list 0x408) /\
  Peers.peer_action limited_peer = Ok Peers.NoAction /\
  forall setban, Peers.analyze_peers setban [limited_peer] = ([], Ok tt).
Proof.
  repeat split; try (vm_compute; reflexivity).
  vm_compute; intuition discriminate.
Qed.

(** Without a [banscore] field the ban branch is not taken. *)
Lemma peer_action_without_banscore (p : peer) :
  p !! "banscore" = None ->
  dict_get p "banscore" (PInt 0) = PInt 0 /\
  forall a, Peers.peer_action p = Ok a -> is_ban a = false.
Proof.
  intros Hb.
  assert (Hget : dict_get p "banscore" (PInt 0) = PInt 0)
    by (unfold dict_get; now rewrite Hb).
  split; [exact Hget|].
  intros a. unfold Peers.peer_action. rewrite Hget.
  destruct (getitem p "addr"); simpl; [|discriminate].
  destruct (Peers.decode_services _); simpl; [|discriminate].
  destruct (negb _); intros H; inversion H; reflexivity.
Qed.

Lemma analyze_peers_no_banscore setban (peers : list peer) :
  List.Forall (fun p : peer => p !! "banscore" = None) peers ->
  forall argv, ~ In (Peers.EvRun argv) (fst (Peers.analyze_peers setban peers)).
Proof.
  induction 1 as [|p rest Hp _ IH]; intros argv; simpl; [tauto|].
  destruct (peer_action_without_banscore p Hp) as [_ Hact].
  destruct (Peers.peer_action p) as [a|e]; simpl; [|tauto].
  specialize (Hact a eq_refl).
  destruct (Peers.analyze_peers setban rest) as [evs r] eqn:Hrest. simpl in *.
  rewrite in_app_iff. intros [H|H]; [|exact (IH argv H)].
  destruct a; simpl in H.
  - contradiction.
  - destruct H as [H|[]]. discriminate.
  - discriminate.
Qed.

(** C10.  A peer record without a [banscore] field is treated as having
    banscore 0: the ban branch is never taken for it, and [analyze_peers]
    runs no [setban] command for a list of such peers. *)
Theorem missing_banscore_never_banned (p : peer) :
  p !! "banscore" = None ->
  dict_get p "banscore" (PInt 0) = PInt 0 /\
  (forall ip banscore, Peers.peer_action p <> Ok (Peers.RequestBan ip banscore)) /\
  (forall setban peers,
      List.Forall (fun q : peer => q !! "banscore" = None) peers ->
      forall argv, ~ In (Peers.EvRun argv) (fst (Peers.analyze_peers setban (p :: peers)))).
Proof.
  intros Hb. destruct (peer_action_without_banscore p Hb) as [Hget Hact].
  split; [exact Hget|]. split.
  - intros ip banscore H. apply Hact in H. discriminate.
  - intros setban peers Hall. apply analyze_peers_no_banscore.
    now constructor.
Qed.

Lemma missing_banscore_never_banned_witness :
  dict_get (delete "banscore" limited_peer) "banscore" (PInt 0) = PInt 0 /\
  Peers.peer_action (delete "banscore" limited_peer) = Ok Peers.NoAction.
Proof.
  split.
  - apply (missing_banscore_never_banned (delete "banscore" limited_peer)).
    vm_compute. reflexivity.
  - vm_compute. reflexivity.
Defined.

(** ** Malformed fields *)

Lemma of_hex_raises_value_error (s : string) (e : exn) :
  PyInt.of_hex s = Raise e -> e = ValueError.
Proof.
  unfold PyInt.of_hex.
  destruct (PyInt.strip_sign _) as [sg s1].
  destruct (PyInt.strip_prefix s1) as [|c s2] eqn:Hp.
  - simpl. congruence.
  - destruct (Ascii.eqb_spec c "_"%char) as [->|Hc].
    + congruence.
    + assert (Hgen : match PyInt.scan (String c s2) false 0 0 with
                     | Some (v, nd, rest) =>
                         match nd, PyInt.skip_spaces rest with
                         | S _, EmptyString => Ok (if sg then - v else v)
                         | _, _ => Raise ValueError
                         end
                     | None => Raise ValueError
                     end = Raise e -> e = ValueError).
      { destruct (PyInt.scan _ _ _ _) as [[[v nd] rest]|]; [|congruence].
        destruct nd; [congruence|].
        destruct (PyInt.skip_spaces rest); congruence. }
      destruct c as [[] [] [] [] [] [] [] []]; try exact Hgen; congruence.
Qed.

Lemma monitor_rows_raise utcoffset py_repr clock (peers : list peer) (p : peer) :
  In p peers ->
  (forall now, raises (PeersMonitor.build_row utcoffset py_repr now p)) ->
  forall i, raises (PeersMonitor.build_rows utcoffset py_repr clock i peers).
Proof.
  intros Hin Hp. induction peers as [|q rest IH]; intros i; [contradiction|].
  simpl. destruct Hin as [->|Hin].
  - specialize (Hp (clock i)).
    destruct (PeersMonitor.build_row _ _ _ p); simpl; [contradiction|exact I].
  - destruct (PeersMonitor.build_row _ _ _ q); simpl; [|exact I].
    specialize (IH Hin (S i)).
    destruct (PeersMonitor.build_rows _ _ _ _ rest); simpl; [contradiction|exact I].
Qed.

Lemma peers_rows_raise utcoffset clock (peers : list peer) (p : peer) :
  In p peers ->
  (forall now, raises (Peers.format_peer_data utcoffset now p)) ->
  forall i, raises (Peers.format_rows utcoffset clock i peers).
Proof.
  intros Hin Hp. induction peers as [|q rest IH]; intros i; [contradiction|].
  simpl. destruct Hin as [->|Hin].
  - specialize (Hp (clock i)).
    destruct (Peers.format_peer_data _ _ p); simpl; [contradiction|exact I].
  - destruct (Peers.format_peer_data _ _ q); simpl; [|exact I].
    specialize (IH Hin (S i)).
    destruct (Peers.format_rows _ _ _ rest); simpl; [contradiction|exact I].
Qed.

Section InvalidServices.

Variable s : string.
Hypothesis invalid : PyInt.of_hex s = Raise ValueError.
Variable p : peer.
Hypothesis services_of_p : p !! "services" = Some (PStr s).

Lemma monitor_decode_invalid :
  PeersMonitor.decode_services (dict_get p "services" (PStr "0")) = Raise ValueError.
Proof.
  unfold dict_get. rewrite services_of_p.
  unfold PeersMonitor.decode_services. simpl. now rewrite invalid.
Qed.

Lemma monitor_row_invalid utcoffset py_repr now :
  PeersMonitor.build_row utcoffset py_repr now p = Raise ValueError.
Proof. unfold PeersMonitor.build_row. now rewrite monitor_decode_invalid. Qed.

Lemma peers_row_invalid utcoffset now :
  raises (Peers.format_peer_data utcoffset now p).
Proof.
  unfold Peers.format_peer_data.
  destruct (getitem p "id"); simpl; [|exact I].
  destruct (getitem p "addr"); simpl; [|exact I].
  destruct (Peers.connection_duration _ _ _); simpl; [|exact I].
  unfold dict_get. rewrite services_of_p.
  unfold Peers.decode_services. simpl. rewrite invalid. exact I.
Qed.

End InvalidServices.

(** C4, as amended.  For every string that is not valid hexadecimal,
    [decode_services] raises [ValueError]: no tag list is produced and zero
    services are not substituted.  The exception leaves the row builder, so
    [build_peer_table] of peers_monitor.py raises for any list that holds
    such a peer, and a cycle of [display_real_time] of peers.py shows the
    error text instead of the table. *)
Theorem invalid_services_hex_raises (s : string) :
  PyInt.of_hex s = Raise ValueError ->
  PeersMonitor.decode_services (PStr s) = Raise ValueError /\
  Peers.decode_services (PStr s) = Raise ValueError /\
  forall (p : peer), p !! "services" = Some (PStr s) ->
    (forall utcoffset py_repr now,
        PeersMonitor.build_row utcoffset py_repr now p = Raise ValueError) /\
    (forall utcoffset py_repr clock peers, In p peers ->
        raises (PeersMonitor.build_peer_table utcoffset py_repr clock peers)) /\
    (forall utcoffset w c peers,
        Peers.fetch w c = Peers.Fetched peers -> In p peers ->
        exists e, Peers.redraw utcoffset w c =
                  [Peers.EvRun ["bitcoin-cli"; "getpeerinfo"];
                   Peers.EvAddStr 0 0 (Peers.ErrorText e)]).
Proof.
  intros Hs. split; [|split].
  - unfold PeersMonitor.decode_services. simpl. now rewrite Hs.
  - unfold Peers.decode_services. simpl. now rewrite Hs.
  - intros p Hp. split; [|split].
    + intros. now apply monitor_row_invalid with (s := s).
    + intros utcoffset py_repr clock peers Hin.
      unfold PeersMonitor.build_peer_table.
      assert (Hrow : forall now,
                 raises (PeersMonitor.build_row utcoffset py_repr now p))
        by (intros now; rewrite (monitor_row_invalid s Hs p Hp); exact I).
      pose proof (monitor_rows_raise utcoffset py_repr clock peers p Hin Hrow 0%nat) as H.
      destruct (PeersMonitor.build_rows _ _ _ _ _); simpl; [contradiction|exact I].
    + intros utcoffset w c peers Hf Hin. unfold Peers.redraw, Peers.attempt.
      rewrite Hf. simpl. unfold Peers.format_peer_info.
      pose proof (peers_rows_raise utcoffset (Peers.clock w c) peers p Hin
                    (peers_row_invalid s Hs p Hp utcoffset) 0%nat) as H.
      destruct (Peers.format_rows _ _ _ _) as [|e]; [contradiction|].
      now exists e.
Qed.

Lemma invalid_services_hex_raises_witness :
  PeersMonitor.decode_services (PStr "zz") = Raise ValueError.
Proof.
  apply (invalid_services_hex_raises "zz"). reflexivity.
Defined.

(** C4 as stated fails: the services field ["zz"] does not decode to the
    empty tag list, and the table of a list with such a peer is not built. *)
Lemma invalid_services_hex_not_defaulted :
  PeersMonitor.decode_services (PStr "zz") = Raise ValueError /\
  PeersMonitor.decode_services (PStr "zz") <> Ok "" /\
  Peers.decode_services (PStr "zz") = Raise ValueError /\
  PeersMonitor.build_peer_table utc no_repr (fun _ => 1700003661 * 1000000)
    [full_peer; <["services" := PStr "zz"]> limited_peer] = Raise ValueError.
Proof. repeat split; try discriminate; vm_compute; reflexivity. Qed.

(** ** Ping times *)

Lemma of_string_raises_value_error (s : string) (e : exn) :
  F64.of_string s = Raise e -> e = ValueError.
Proof.
  unfold F64.of_string, F64.parse_decimal, F64.parse_inf_or_nan.
  repeat match goal with
         | |- context [match ?x with _ => _ end] => destruct x
         end; congruence.
Qed.

Lemma format_pingtime_absent (p : peer) :
  p !! "pingtime" = None ->
  PeersMonitor.format_pingtime (dict_get p "pingtime" (PStr "N/A")) = Ok "N/A".
Proof. intros H. unfold dict_get. now rewrite H. Qed.

Lemma format_pingtime_unparsable (s : string) :
  F64.of_string s = Raise ValueError ->
  PeersMonitor.format_pingtime (PStr s) = Ok "N/A".
Proof.
  intros H. unfold PeersMonitor.format_pingtime. simpl.
  destruct (String.eqb s "N/A"); [reflexivity|]. now rewrite H.
Qed.

Lemma format_pingtime_float (x : F64.float) :
  PeersMonitor.format_pingtime (PFloat x) = Ok (F64.format_fixed 3 x).
Proof. reflexivity. Qed.

Example format_pingtime_examples :
  PeersMonitor.format_pingtime (PStr "0.125") = Ok "0.125" /\
  PeersMonitor.format_pingtime (PStr "oops") = Ok "N/A" /\
  PeersMonitor.format_pingtime (PStr "N/A") = Ok "N/A" /\
  PeersMonitor.format_pingtime (PInt 2) = Ok "2.000" /\
  PeersMonitor.format_pingtime (PStr "nan") = Ok "nan".
Proof. vm_compute. repeat split. Qed.

(** C8 at the failing input.  [format_pingtime(None)] raises [TypeError],
    which the handler for [ValueError] does not catch, in all three
    scripts; the row that holds such a ping time is not built. *)
Theorem format_pingtime_none_raises :
  PeersMonitor.format_pingtime PNone = Raise TypeError /\
  Peers.format_pingtime PNone = Raise TypeError /\
  PeersRich.format_pingtime PNone = Raise TypeError /\
  PeersMonitor.build_row utc no_repr (1700003661 * 1000000)
    (<["pingtime" := PNone]> limited_peer) = Raise TypeError.
Proof. repeat split; vm_compute; reflexivity. Qed.

(** ** The refresh loop of [display_real_time] *)

Section RefreshLoop.

Variable utcoffset : Z -> Z.
Variable w : Peers.world.

Lemma count_fetches_app (a b : list Peers.event) :
  count_fetches (a ++ b) = (count_fetches a + count_fetches b)%nat.
Proof. unfold count_fetches. now rewrite List.filter_app, List.length_app. Qed.

Lemma count_fetches_window (keys : list Z) : count_fetches (window keys) = 0%nat.
Proof. induction keys as [|k keys IH]; [reflexivity|exact IH]. Qed.

Lemma redraw_shape (c : nat) :
  exists rest,
    Peers.redraw utcoffset w c =
      Peers.EvRun ["bitcoin-cli"; "getpeerinfo"] :: rest /\
    count_fetches rest = 0%nat.
Proof.
  unfold Peers.redraw, Peers.attempt, Peers.addstr, Peers.get_peer_info.
  destruct (Peers.fetch w c) as [peers|rc|e]; cbn [bind];
    try destruct (Peers.format_peer_info _ _ _) as [table_data|e'];
    try destruct (Peers.tabulate w _);
    try destruct (Peers.fits w c Peers.Title);
    try destruct (Peers.fits w c (Peers.TableText _));
    eexists; split; reflexivity.
Qed.

Lemma count_fetches_head (c : nat) : count_fetches (cycle_head utcoffset w c) = 1%nat.
Proof.
  unfold cycle_head. destruct (redraw_shape c) as [rest [-> Hrest]].
  change (count_fetches (Peers.EvClear :: (Peers.EvRun ["bitcoin-cli"; "getpeerinfo"] :: rest)
                          ++ [Peers.EvRefresh]))
    with (S (count_fetches (rest ++ [Peers.EvRefresh]))).
  now rewrite count_fetches_app, Hrest.
Qed.



(** *** The wait window *)

(** The wait loop never starts a fetch, and it returns only after a check
    that read the quit key. *)
Lemma wait_events (c n j : nat) (buf : list Z) :
  exists keys,
    match Peers.wait w c n j buf with
    | (evs, Some _) =>
        evs = window keys /\ List.length keys = n /\ ~ In Peers.ord_q keys
    | (evs, None) =>
        evs = window keys ++ [Peers.EvGetCh Peers.ord_q] /\
        (List.length keys < n)%nat /\ ~ In Peers.ord_q keys
    end.
Proof.
  revert j buf. induction n as [|n IH]; intros j buf; simpl.
  - exists []. repeat split; auto.
  - destruct (Peers.getch buf) as [key buf1].
    destruct (Z.eqb_spec key Peers.ord_q) as [->|Hkey].
    + exists []. repeat split; auto. simpl. lia.
    + destruct (IH (S j) (buf1 ++ Peers.typed w c (S j))) as [keys Hkeys].
      destruct (Peers.wait w c n (S j) _) as [evs [buf'|]];
        exists (key :: keys); destruct Hkeys as [-> [Hlen Hq]];
        (split; [reflexivity|]); simpl; (split; [lia|]); intros [H|H]; auto.
Qed.


(** A pending quit key is read by the next check. *)
Lemma wait_quit_now (c n j : nat) (rest : list Z) :
  Peers.wait w c (S n) j (Peers.ord_q :: rest) = ([Peers.EvGetCh Peers.ord_q], None).
Proof. reflexivity. Qed.

(** With an empty buffer at check [j] and no key typed before slot [slot],
    the quit key typed in that slot is read by check number [slot]. *)
Lemma wait_quit_later (c n j slot : nat) (rest : list Z) :
  Peers.typed w c slot = Peers.ord_q :: rest ->
  (forall j', (j < j' < slot)%nat -> Peers.typed w c j' = []) ->
  (j < slot)%nat -> (slot < j + n)%nat ->
  Peers.wait w c n j [] =
  (window (List.repeat (-1) (slot - j)) ++ [Peers.EvGetCh Peers.ord_q], None).
Proof.
  intros Hslot. revert j. induction n as [|n IH]; intros j Hempty Hlt Hn; [lia|].
  replace (slot - j)%nat with (S (slot - S j)) by lia.
  cbn [Peers.wait Peers.getch]. change (-1 =? Peers.ord_q) with false. cbv iota.
  rewrite app_nil_l.
  destruct (Nat.eq_dec (S j) slot) as [Heq|Hne].
  - rewrite Heq, Hslot, Nat.sub_diag.
    destruct n as [|n]; [lia|]. rewrite wait_quit_now. reflexivity.
  - rewrite (Hempty (S j)) by lia.
    rewrite (IH (S j)) by (try lia; intros j' Hj'; apply Hempty; lia).
    reflexivity.
Qed.

(** *** Cycles *)

Lemma run_from_S (k c : nat) (buf : list Z) :
  Peers.run_from utcoffset w (S k) c buf =
  match Peers.wait w c polls 0 (buf ++ Peers.typed w c 0) with
  | (evs, None) => (cycle_head utcoffset w c ++ evs, Peers.Returned)
  | (evs, Some buf') =>
      let '(evs', st) := Peers.run_from utcoffset w k (S c) buf' in
      (cycle_head utcoffset w c ++ evs ++ evs', st)
  end.
Proof. reflexivity. Qed.

Lemma run_from_add (a b c : nat) (buf : list Z) :
  Peers.run_from utcoffset w (a + b) c buf =
  match Peers.run_from utcoffset w a c buf with
  | (tr, Peers.Looping buf') =>
      let '(tr', st) := Peers.run_from utcoffset w b (c + a) buf' in (tr ++ tr', st)
  | (tr, Peers.Returned) => (tr, Peers.Returned)
  end.
Proof.
  revert c buf. induction a as [|a IH]; intros c buf.
  - rewrite Nat.add_0_l, Nat.add_0_r. cbn [Peers.run_from].
    now destruct (Peers.run_from utcoffset w b c buf).
  - change (S a + b)%nat with (S (a + b)). rewrite !run_from_S.
    destruct (Peers.wait w c polls 0 _) as [evs [buf'|]]; [|reflexivity].
    rewrite IH. replace (c + S a)%nat with (S c + a)%nat by lia.
    destruct (Peers.run_from utcoffset w a (S c) buf') as [tr [|buf'']]; [reflexivity|].
    destruct (Peers.run_from utcoffset w b (S c + a) buf'') as [tr' st].
    now rewrite <- !app_assoc.
Qed.




End RefreshLoop.

Section RefreshLoopClaims.

Variable utcoffset : Z -> Z.
Variable w : Peers.world.

(** With no key pending and none typed, a window reads nothing. *)
Lemma wait_silent (c n j : nat) :
  (forall j', Peers.typed w c j' = []) ->
  Peers.wait w c n j [] = (window (List.repeat (-1) n), Some []).
Proof.
  intros Htyped. revert j. induction n as [|n IH]; intros j; [reflexivity|].
  cbn [Peers.wait Peers.getch]. change (-1 =? Peers.ord_q) with false. cbv iota.
  now rewrite app_nil_l, Htyped, IH.
Qed.

Lemma run_from_silent (k c : nat) :
  (forall c' j, (c <= c' < c + k)%nat -> Peers.typed w c' j = []) ->
  exists tr,
    Peers.run_from utcoffset w k c [] = (tr, Peers.Looping []) /\
    count_fetches tr = k.
Proof.
  revert c. induction k as [|k IH]; intros c Htyped.
  - now exists [].
  - rewrite run_from_S, app_nil_l, (Htyped c 0%nat) by lia.
    rewrite wait_silent by (intros j'; apply Htyped; lia).
    destruct (IH (S c)) as [tr [-> Hcount]]; [intros c' j Hc'; apply Htyped; lia|].
    eexists. split; [reflexivity|].
    rewrite !count_fetches_app, count_fetches_head, count_fetches_window, Hcount. lia.
Qed.



(** C6, as amended.  When the first key ever typed is the quit key and it
    arrives while cycle [c] is redrawn ([slot = 0]) or during one of the
    first 49 sleeps of its wait window ([slot] is the number of the check
    that follows the sleep), the function returns at that check: the last
    fetch is the one of cycle [c].  In every wait window each check is
    followed by a sleep of 100 ms, and a window that is not cancelled makes
    50 checks. *)
Theorem quit_before_last_check_returns (c slot : nat) (rest : list Z) :
  (forall c' j, (c' < c)%nat -> Peers.typed w c' j = []) ->
  (forall j, (j < slot)%nat -> Peers.typed w c j = []) ->
  Peers.typed w c slot = Peers.ord_q :: rest ->
  (slot < polls)%nat ->
  (forall cycles, (c < cycles)%nat ->
     exists pre,
       Peers.display_real_time utcoffset w cycles =
         (pre ++ cycle_head utcoffset w c ++
          window (List.repeat (-1) slot) ++ [Peers.EvGetCh Peers.ord_q],
          Peers.Returned) /\
       count_fetches pre = c /\
       count_fetches (fst (Peers.display_real_time utcoffset w cycles)) = S c) /\
  (forall c' n j buf,
     exists keys,
       match Peers.wait w c' n j buf with
       | (evs, Some _) =>
           evs = window keys /\ List.length keys = n /\ ~ In Peers.ord_q keys
       | (evs, None) =>
           evs = window keys ++ [Peers.EvGetCh Peers.ord_q] /\
           (List.length keys < n)%nat /\ ~ In Peers.ord_q keys
       end) /\
  polls = 50%nat.
Proof.
  intros Hbefore Hslot Hq Hlt. split; [|split; [apply wait_events|reflexivity]].
  intros cycles Hc.
  assert (Hrun : exists pre,
             Peers.display_real_time utcoffset w cycles =
               (pre ++ cycle_head utcoffset w c ++
                window (List.repeat (-1) slot) ++ [Peers.EvGetCh Peers.ord_q],
                Peers.Returned) /\
             count_fetches pre = c).
  { unfold Peers.display_real_time.
    replace cycles with (c + S (cycles - S c))%nat by lia.
    rewrite run_from_add.
    destruct (run_from_silent c 0) as [pre [-> Hpre]];
      [intros c' j Hc'; apply Hbefore; lia|].
    exists pre. split; [|exact Hpre].
    rewrite run_from_S, app_nil_l. simpl (0 + c)%nat.
    destruct slot as [|slot'].
    - rewrite Hq. change polls with (S 49). rewrite wait_quit_now. reflexivity.
    - rewrite (Hslot 0%nat) by lia.
      rewrite (wait_quit_later w c polls 0 (S slot') rest Hq) by (try lia; intros; apply Hslot; lia).
      rewrite Nat.sub_0_r. reflexivity. }
  destruct Hrun as [pre [Hrun Hpre]]. exists pre. split; [exact Hrun|]. split; [exact Hpre|].
  rewrite Hrun. cbn [fst].
  rewrite !count_fetches_app, count_fetches_head, count_fetches_window, Hpre.
  change (count_fetches [Peers.EvGetCh Peers.ord_q]) with 0%nat. lia.
Qed.

End RefreshLoopClaims.



Lemma quit_before_last_check_returns_witness :
  count_fetches (fst (Peers.display_real_time utc (quit_world 2 49) 5)) = 3%nat.
Proof.
  destruct (quit_before_last_check_returns utc (quit_world 2 49) 2 49 []) as [H _].
  - intros c' j Hc'. simpl.
    destruct c' as [|[|c']]; [reflexivity|reflexivity|lia].
  - intros j Hj. simpl.
    destruct (Nat.eqb_spec j 49); [lia|reflexivity].
  - reflexivity.
  - vm_compute. lia.
  - destruct (H 5%nat) as [pre [_ [_ Hc]]]; [lia|exact Hc].
Defined.

(** C6 as stated fails for the last sleep of the window: a quit key typed
    during the sleep that follows check 49 of cycle 0 is read by check 0 of
    cycle 1, after the fetch of cycle 1. *)
Lemma quit_during_last_sleep_fetches_again :
  Peers.typed (quit_world 0 50) 0 50 = [Peers.ord_q] /\
  snd (Peers.display_real_time utc (quit_world 0 50) 2) = Peers.Returned /\
  count_fetches (fst (Peers.display_real_time utc (quit_world 0 50) 2)) = 2%nat /\
  fst (Peers.display_real_time utc (quit_world 0 50) 2) =
    cycle_head utc (quit_world 0 50) 0 ++ window (List.repeat (-1) 50) ++
    cycle_head utc (quit_world 0 50) 1 ++ [Peers.EvGetCh Peers.ord_q].
Proof. repeat split; vm_compute; reflexivity. Qed.

(** ** Rounding to binary64 *)

Section FloatRounding.

Import F64.
Local Open Scope Q_scope.

Lemma pow2_pos k : 0 < pow2 k.
Proof. unfold pow2. apply Qpower_0_lt. reflexivity. Qed.

Lemma pow2_add a b : pow2 (a + b) == pow2 a * pow2 b.
Proof. unfold pow2. apply Qpower_plus. discriminate. Qed.

Lemma pow2_Z k : (0 <= k)%Z -> pow2 k == inject_Z (2 ^ k).
Proof. intros H. unfold pow2. symmetry. apply (Zpower_Qpower 2 k H). Qed.

Lemma pow2_le a b : (a <= b)%Z -> pow2 a <= pow2 b.
Proof. intros H. unfold pow2. apply Qpower_le_compat_l; [exact H|]. discriminate. Qed.

Lemma pow2_lt a b : (a < b)%Z -> pow2 a < pow2 b.
Proof. intros H. unfold pow2. apply Qpower_lt_compat_l; [exact H|]. reflexivity. Qed.

Lemma pow2_lt_inv a b : pow2 a < pow2 b -> (a < b)%Z.
Proof.
  intros H. destruct (Z_lt_le_dec a b) as [Hlt|Hle]; [exact Hlt|].
  apply pow2_le in Hle. apply Qlt_not_le in H. contradiction.
Qed.

Lemma pow2_succ k : pow2 (k + 1) == 2 * pow2 k.
Proof. rewrite pow2_add. change (pow2 1) with 2. ring. Qed.

Lemma pow2_opp k : pow2 (- k) == / pow2 k.
Proof. unfold pow2. apply Qpower_opp. Qed.

(** Nearest integer *)
Lemma rhe_bounds q :
  inject_Z (round_half_even q) - (1#2) <= q /\ q <= inject_Z (round_half_even q) + (1#2).
Proof.
  unfold round_half_even.
  pose proof (Qfloor_le q) as H1. pose proof (Qlt_floor q) as H2.
  rewrite inject_Z_plus in H2. change (inject_Z 1) with 1 in H2.
  destruct (Qcompare_spec (q - inject_Z (Qfloor q)) (1#2)) as [H|H|H];
    [destruct (Z.even (Qfloor q))| |];
    rewrite ?inject_Z_plus; change (inject_Z 1) with 1; split; lra.
Qed.

Lemma rhe_floor q : (Qfloor q <= round_half_even q <= Qfloor q + 1)%Z.
Proof.
  unfold round_half_even.
  destruct (Qcompare _ _); [destruct (Z.even _)| |]; lia.
Qed.

Lemma rhe_int q z : q == inject_Z z -> round_half_even q = z.
Proof.
  intros H. unfold round_half_even.
  rewrite (Qfloor_comp _ _ H), Qfloor_Z.
  destruct (Qcompare_spec (q - inject_Z z) (1#2)) as [H1|H1|H1]; try lra. reflexivity.
Qed.

Lemma rhe_le q z : q <= inject_Z z -> (round_half_even q <= z)%Z.
Proof.
  intros H. pose proof (rhe_floor q) as [_ Hf].
  pose proof (Qfloor_le q) as H1.
  destruct (Z.eq_dec (Qfloor q) z) as [Heq|Hne].
  - rewrite (rhe_int q z); [lia|]. rewrite <- Heq in *. lra.
  - assert (Qfloor q <= z)%Z.
    { apply Qfloor_resp_le in H. now rewrite Qfloor_Z in H. }
    lia.
Qed.

Lemma rhe_ge q z : inject_Z z <= q -> (z <= round_half_even q)%Z.
Proof.
  intros H. pose proof (rhe_floor q) as [Hf _].
  apply Qfloor_resp_le in H. rewrite Qfloor_Z in H. lia.
Qed.

Lemma Qnum_pos q : 0 < q -> (0 < Qnum q)%Z.
Proof. destruct q as [a b]. unfold Qlt. simpl. lia. Qed.

Lemma Q_as_div q : q * inject_Z (Z.pos (Qden q)) == inject_Z (Qnum q).
Proof. destruct q as [a b]. unfold Qeq, Qmult, inject_Z. simpl. lia. Qed.

Lemma log2_bounds_Q a :
  (0 < a)%Z -> pow2 (Z.log2 a) <= inject_Z a /\ inject_Z a < 2 * pow2 (Z.log2 a).
Proof.
  intros Ha. destruct (Z.log2_spec a Ha) as [H1 H2].
  pose proof (Z.log2_nonneg a) as Hn.
  rewrite <- pow2_succ, !pow2_Z by lia.
  rewrite <- Zle_Qle, <- Zlt_Qlt. replace (Z.log2 a + 1)%Z with (Z.succ (Z.log2 a)) by lia.
  split; assumption.
Qed.

Lemma ilog2_spec q :
  0 < q -> pow2 (ilog2 q) <= q /\ q < pow2 (ilog2 q + 1).
Proof.
  intros Hq. unfold ilog2.
  pose proof (Q_as_div q) as Hdiv.
  destruct (log2_bounds_Q (Qnum q) (Qnum_pos q Hq)) as [HA1 HA2].
  destruct (log2_bounds_Q (Z.pos (Qden q)) eq_refl) as [HB1 HB2].
  set (la := Z.log2 (Qnum q)) in *. set (lb := Z.log2 (Z.pos (Qden q))) in *.
  set (A := inject_Z (Qnum q)) in *. set (B := inject_Z (Z.pos (Qden q))) in *.
  assert (Hk : pow2 (la - lb) * pow2 lb == pow2 la).
  { rewrite <- pow2_add. now replace (la - lb + lb)%Z with la by lia. }
  pose proof (pow2_pos la) as PA. pose proof (pow2_pos lb) as PB.
  pose proof (pow2_pos (la - lb)) as PK.
  destruct (Qle_bool (pow2 (la - lb)) q) eqn:Hb.
  - apply Qle_bool_iff in Hb. split; [exact Hb|].
    rewrite pow2_succ.
    set (X := pow2 (la - lb)) in *. set (Pa := pow2 la) in *. set (Pb := pow2 lb) in *.
    clearbody X Pa Pb A B. nra.
  - assert (Hlt : q < pow2 (la - lb)).
    { apply Qnot_le_lt. intros H. apply Qle_bool_iff in H. congruence. }
    replace (la - lb - 1 + 1)%Z with (la - lb)%Z by lia. split; [|exact Hlt].
    assert (Hk1 : 2 * pow2 (la - lb - 1) == pow2 (la - lb)).
    { rewrite <- pow2_succ. now replace (la - lb - 1 + 1)%Z with (la - lb)%Z by lia. }
    pose proof (pow2_pos (la - lb - 1)) as PK1.
    set (X := pow2 (la - lb)) in *. set (Y := pow2 (la - lb - 1)) in *.
    set (Pa := pow2 la) in *. set (Pb := pow2 lb) in *.
    clearbody X Y Pa Pb A B. nra.
Qed.

Lemma scaled_bounds q :
  0 < q ->
  let e := Z.max (ilog2 q - 52) (-1074) in
  0 < q / pow2 e /\ q / pow2 e < inject_Z (2 ^ 53) /\
  ((-1074 <= ilog2 q - 52)%Z -> inject_Z (2 ^ 52) <= q / pow2 e).
Proof.
  intros Hq e. destruct (ilog2_spec q Hq) as [H1 H2].
  pose proof (pow2_pos e) as Pe.
  assert (Hy : q / pow2 e * pow2 e == q) by (field; lra).
  assert (H53 : pow2 (ilog2 q + 1) <= pow2 e * pow2 53)
    by (rewrite <- pow2_add; apply pow2_le; lia).
  rewrite <- !pow2_Z by lia.
  pose proof (pow2_pos 53) as P53. pose proof (pow2_pos 52) as P52.
  set (y := q / pow2 e) in *. set (P := pow2 e) in *.
  split; [|split].
  - clearbody y P. nra.
  - set (A := pow2 (ilog2 q + 1)) in *. set (B := pow2 53) in *.
    clearbody y P A B. nra.
  - intros Hn. assert (He : e = (ilog2 q - 52)%Z) by lia.
    assert (H52 : P * pow2 52 == pow2 (ilog2 q))
      by (unfold P; rewrite <- pow2_add; now replace (e + 52)%Z with (ilog2 q) by lia).
    set (A := pow2 (ilog2 q)) in *. set (B := pow2 52) in *.
    clearbody y P A B. nra.
Qed.

Lemma round_pos_grid s q :
  0 < q -> (ilog2 q <= 1022)%Z ->
  let e := Z.max (ilog2 q - 52) (-1074) in
  let m := round_half_even (q / pow2 e) in
  (0 <= m <= 2 ^ 53)%Z /\
  ((-1074 <= ilog2 q - 52)%Z -> (2 ^ 52 <= m)%Z) /\
  finite (round_pos s q) /\ sign_bit (round_pos s q) = s /\
  F2Q (round_pos s q) == sgn s * inject_Z m * pow2 e.
Proof.
  intros Hq Hov e m. destruct (scaled_bounds q Hq) as [Y0 [Y1 Y2]]. fold e in Y0, Y1, Y2.
  assert (Hm : (0 <= m <= 2 ^ 53)%Z).
  { split; [apply rhe_ge|apply rhe_le]; [change (inject_Z 0) with 0|]; lra. }
  split; [exact Hm|]. split.
  { intros Hn. apply rhe_ge. now apply Y2. }
  unfold round_pos. fold e. fold m.
  destruct (Z.eqb_spec m 0) as [H0|H0].
  { split; [exact I|]. split; [reflexivity|].
    rewrite H0. unfold F2Q. change (inject_Z 0) with 0. ring. }
  destruct (Z.eqb_spec m (2 ^ 53)) as [H53|H53].
  { destruct (Z.ltb_spec 971 (e + 1)); [lia|].
    split; [exact I|]. split; [reflexivity|].
    rewrite H53. unfold F2Q. rewrite pow2_succ. destruct s; unfold sgn.
    - change (inject_Z (Z.neg (Z.to_pos (2 ^ 52)))) with (- inject_Z (2 ^ 52)).
      change (inject_Z (2 ^ 53)) with (2 * inject_Z (2 ^ 52)). ring.
    - change (inject_Z (Z.pos (Z.to_pos (2 ^ 52)))) with (inject_Z (2 ^ 52)).
      change (inject_Z (2 ^ 53)) with (2 * inject_Z (2 ^ 52)). ring. }
  destruct (Z.ltb_spec 971 e); [lia|].
  split; [exact I|]. split; [reflexivity|].
  unfold F2Q. destruct s; unfold sgn.
  - replace (inject_Z (Z.neg (Z.to_pos m))) with (- inject_Z m).
    + ring.
    + destruct m; try lia. reflexivity.
  - replace (Z.pos (Z.to_pos m)) with m by lia. ring.
Qed.

Lemma pow2_le_inv a b : pow2 a <= pow2 b -> (a <= b)%Z.
Proof.
  intros H. destruct (Z_le_gt_dec a b) as [Hle|Hgt]; [exact Hle|].
  assert (Hlt : pow2 b < pow2 a) by (apply pow2_lt; lia).
  apply Qlt_not_le in Hlt. contradiction.
Qed.

Lemma pow2_split g e : (e <= g)%Z -> pow2 g == inject_Z (2 ^ (g - e)) * pow2 e.
Proof.
  intros H. rewrite <- pow2_Z by lia. rewrite <- pow2_add.
  now replace (g - e + e)%Z with g by lia.
Qed.

(** A value [M * 2^g] with [M <= 2^53] that lies on or above the binade of
    exponent [e] has an integral quotient by [2^e]. *)
Lemma scaled_integral q f M g :
  0 < q -> f == inject_Z M * pow2 g -> (M <= 2 ^ 53)%Z -> (-1074 <= g)%Z ->
  let e := Z.max (ilog2 q - 52) (-1074) in
  (e <= g)%Z \/ ((-1074 <= ilog2 q - 52)%Z /\ f <= pow2 (e + 52)).
Proof.
  intros Hq Hf HM Hg e.
  destruct (Z_le_gt_dec e g) as [Hle|Hgt]; [now left|right].
  split; [lia|].
  rewrite Hf. apply Qle_trans with (inject_Z (2 ^ 53) * pow2 g).
  - apply Qmult_le_compat_r; [now rewrite <- Zle_Qle|]. apply Qlt_le_weak, pow2_pos.
  - rewrite <- pow2_Z, <- pow2_add by lia. apply pow2_le. lia.
Qed.

Section RoundPos.

Variable s : bool.
Variable q : Q.
Hypothesis q_pos : 0 < q.
Hypothesis q_small : (ilog2 q <= 1022)%Z.

Let e := Z.max (ilog2 q - 52) (-1074).
Let m := round_half_even (q / pow2 e).

Lemma round_pos_finite : finite (round_pos s q) /\ sign_bit (round_pos s q) = s.
Proof. destruct (round_pos_grid s q q_pos q_small) as [_ [_ [H1 [H2 _]]]]. now split. Qed.

Lemma round_pos_value : F2Q (round_pos s q) == sgn s * (inject_Z m * pow2 e).
Proof.
  destruct (round_pos_grid s q q_pos q_small) as [_ [_ [_ [_ H]]]].
  fold e in H. fold m in H. rewrite H. ring.
Qed.

Lemma scaled_eq : q / pow2 e * pow2 e == q.
Proof. pose proof (pow2_pos e). field. lra. Qed.

(** Below [2^(e+52)] nothing but the lower end of the binade. *)
Lemma binade_low : (-1074 <= ilog2 q - 52)%Z -> pow2 (e + 52) <= q.
Proof.
  intros H. destruct (ilog2_spec q q_pos) as [H1 _].
  replace (e + 52)%Z with (ilog2 q) by (unfold e; lia). exact H1.
Qed.

Lemma grid_low : (-1074 <= ilog2 q - 52)%Z -> pow2 (e + 52) <= inject_Z m * pow2 e.
Proof.
  intros H. destruct (round_pos_grid s q q_pos q_small) as [_ [Hm _]].
  specialize (Hm H). fold e in Hm. fold m in Hm.
  rewrite Z.add_comm, pow2_add, pow2_Z by lia.
  apply Qmult_le_compat_r; [now rewrite <- Zle_Qle|]. apply Qlt_le_weak, pow2_pos.
Qed.

Lemma round_pos_upper f M g :
  f == inject_Z M * pow2 g -> (M <= 2 ^ 53)%Z -> (-1074 <= g)%Z ->
  q <= f -> inject_Z m * pow2 e <= f.
Proof.
  intros Hf HM Hg Hqf. pose proof (pow2_pos e) as Pe. pose proof scaled_eq as Hy.
  destruct (scaled_integral q f M g q_pos Hf HM Hg) as [Hle|[Hn Hlow]];
    [fold e in Hle|fold e in Hlow].
  - rewrite (pow2_split g e Hle) in Hf.
    assert (Hm : (m <= M * 2 ^ (g - e))%Z).
    { apply rhe_le. rewrite inject_Z_mult.
      set (y := q / pow2 e) in *. set (Z := inject_Z (2 ^ (g - e))) in *.
      set (P := pow2 e) in *. set (N := inject_Z M) in *.
      clearbody y Z P N. nra. }
    rewrite Zle_Qle, inject_Z_mult in Hm.
    set (Z := inject_Z (2 ^ (g - e))) in *. set (P := pow2 e) in *.
    set (N := inject_Z M) in *. set (mm := inject_Z m) in *.
    clearbody Z P N mm. nra.
  - pose proof (binade_low Hn) as Hb.
    assert (Hq : q == pow2 (e + 52)) by lra.
    assert (Hm : m = (2 ^ 52)%Z).
    { apply rhe_int. rewrite <- pow2_Z by lia.
      rewrite Z.add_comm, pow2_add in Hq.
      set (y := q / pow2 e) in *. set (P := pow2 e) in *. set (B := pow2 52) in *.
      clearbody y P B. nra. }
    rewrite Hm, <- pow2_Z, <- pow2_add by lia.
    rewrite Z.add_comm. lra.
Qed.

Lemma round_pos_lower f M g :
  f == inject_Z M * pow2 g -> (M <= 2 ^ 53)%Z -> (-1074 <= g)%Z ->
  f <= q -> f <= inject_Z m * pow2 e.
Proof.
  intros Hf HM Hg Hqf. pose proof (pow2_pos e) as Pe. pose proof scaled_eq as Hy.
  destruct (scaled_integral q f M g q_pos Hf HM Hg) as [Hle|[Hn Hlow]];
    [fold e in Hle|fold e in Hlow].
  - rewrite (pow2_split g e Hle) in Hf.
    assert (Hm : (M * 2 ^ (g - e) <= m)%Z).
    { apply rhe_ge. rewrite inject_Z_mult.
      set (y := q / pow2 e) in *. set (Z := inject_Z (2 ^ (g - e))) in *.
      set (P := pow2 e) in *. set (N := inject_Z M) in *.
      clearbody y Z P N. nra. }
    rewrite Zle_Qle, inject_Z_mult in Hm.
    set (Z := inject_Z (2 ^ (g - e))) in *. set (P := pow2 e) in *.
    set (N := inject_Z M) in *. set (mm := inject_Z m) in *.
    clearbody Z P N mm. nra.
  - pose proof (grid_low Hn). lra.
Qed.

Lemma round_pos_error K :
  q < pow2 K ->
  inject_Z m * pow2 e - q <= pow2 (Z.max (K - 54) (-1075)) /\
  q - inject_Z m * pow2 e <= pow2 (Z.max (K - 54) (-1075)).
Proof.
  intros HK. destruct (ilog2_spec q q_pos) as [H1 _].
  assert (Hlog : (ilog2 q < K)%Z) by (apply pow2_lt_inv; lra).
  assert (He : pow2 e <= 2 * pow2 (Z.max (K - 54) (-1075))).
  { rewrite <- pow2_succ. apply pow2_le. unfold e. lia. }
  destruct (rhe_bounds (q / pow2 e)) as [B1 B2]. fold m in B1, B2.
  pose proof (pow2_pos e) as Pe. pose proof scaled_eq as Hy.
  set (y := q / pow2 e) in *. set (P := pow2 e) in *.
  set (E := pow2 (Z.max (K - 54) (-1075))) in *. set (mm := inject_Z m) in *.
  clearbody y P E mm. split; nra.
Qed.

Lemma round_pos_on_grid :
  (0 <= m <= 2 ^ 53)%Z /\ (-1074 <= e)%Z /\ (ilog2 q <= 52 -> e <= 0)%Z.
Proof.
  destruct (round_pos_grid s q q_pos q_small) as [Hm _]. fold e in Hm. fold m in Hm.
  unfold e. repeat split; lia.
Qed.

End RoundPos.

(** ** Values of non-negative floats *)

Lemma val_nonneg x v : val x v -> 0 <= v.
Proof.
  intros [Hf [Hs Hv]]. rewrite <- Hv. destruct x as [s|s| |s m e]; try contradiction.
  - apply Qle_refl.
  - simpl in Hs. subst s. unfold F2Q. pose proof (pow2_pos e).
    assert (0 < inject_Z (Z.pos m)) by (rewrite <- (Zlt_Qlt 0); lia). nra.
Qed.

Lemma val_zero x v : val x v -> (is_zero x = true <-> v == 0).
Proof.
  intros [Hf [Hs Hv]]. rewrite <- Hv. destruct x as [s|s| |s m e]; try contradiction.
  - simpl. split; reflexivity.
  - simpl in Hs. subst s. unfold F2Q. pose proof (pow2_pos e).
    assert (0 < inject_Z (Z.pos m)) by (rewrite <- (Zlt_Qlt 0); lia).
    simpl. split; [discriminate|]. intros H1. nra.
Qed.

Lemma val_ext x v v' : val x v -> v == v' -> val x v'.
Proof. intros [Hf [Hs Hv]] H. repeat split; auto. now rewrite Hv. Qed.

Lemma repr_ext v v' : repr v -> v == v' -> repr v'.
Proof. intros [M [g [H1 H2]]] H. exists M, g. split; [now rewrite <- H|exact H2]. Qed.

Lemma repr_bound v : repr v -> 0 <= v /\ v <= inject_Z (2 ^ 53).
Proof.
  intros [M [g [Hv [HM Hg]]]]. rewrite Hv.
  pose proof (pow2_pos g) as Pg.
  assert (P1 : pow2 g <= 1) by (change 1 with (pow2 0); apply pow2_le; lia).
  destruct HM as [M0 M1]. rewrite Zle_Qle in M0, M1. change (inject_Z 0) with 0 in M0.
  set (N := inject_Z M) in *. set (P := pow2 g) in *. set (B := inject_Z (2 ^ 53)) in *.
  clearbody N P B. split; nra.
Qed.

Lemma repr_int z : (0 <= z <= 2 ^ 53)%Z -> repr (inject_Z z).
Proof.
  intros Hz. exists z, 0%Z. split; [|split; [exact Hz|lia]].
  change (pow2 0) with 1. ring.
Qed.

Lemma repr_sub_int v z : repr v -> (0 <= z)%Z -> inject_Z z <= v -> repr (v - inject_Z z).
Proof.
  intros [M [g [Hv [HM Hg]]]] Hz Hle.
  exists (M - z * 2 ^ (- g))%Z, g.
  assert (Hone : inject_Z (2 ^ (- g)) * pow2 g == 1).
  { rewrite <- pow2_Z, <- pow2_add by lia. now replace (- g + g)%Z with 0%Z by lia. }
  assert (Heq : v - inject_Z z == inject_Z (M - z * 2 ^ (- g)) * pow2 g).
  { unfold Z.sub. rewrite inject_Z_plus, inject_Z_opp, inject_Z_mult, Hv.
    set (N := inject_Z M) in *. set (P := pow2 g) in *. set (T := inject_Z (2 ^ (- g))) in *.
    set (zz := inject_Z z) in *. clearbody N P T zz.
    transitivity (N * P - zz * (T * P)); [rewrite Hone|]; ring. }
  split; [exact Heq|]. split; [|exact Hg].
  assert (Pp : (0 < 2 ^ (- g))%Z) by (apply Z.pow_pos_nonneg; lia).
  split; [|nia].
  (* non-negative: from v - z >= 0 *)
  assert (Hnn : 0 <= inject_Z (M - z * 2 ^ (- g)) * pow2 g) by (rewrite <- Heq; lra).
  pose proof (pow2_pos g) as Pg.
  destruct (Z_lt_le_dec (M - z * 2 ^ (- g)) 0) as [Hneg|Hok]; [|exact Hok].
  exfalso. rewrite Zlt_Qlt in Hneg. change (inject_Z 0) with 0 in Hneg.
  set (X := inject_Z (M - z * 2 ^ (- g))) in *. set (P := pow2 g) in *. clearbody X P. nra.
Qed.

Lemma ilog2_lt q K : 0 < q -> q < pow2 K -> (ilog2 q < K)%Z.
Proof.
  intros Hq HK. destruct (ilog2_spec q Hq) as [H1 _].
  apply pow2_lt_inv. lra.
Qed.

Lemma repr_small q : 0 < q -> repr q -> (ilog2 q <= 53)%Z.
Proof.
  intros Hq Hr. destruct (repr_bound q Hr) as [_ Hb].
  rewrite <- pow2_Z in Hb by lia.
  assert (ilog2 q < 54)%Z; [|lia].
  apply ilog2_lt; [exact Hq|].
  assert (pow2 53 < pow2 54) by (apply pow2_lt; lia). lra.
Qed.

(** *** Rounding of a positive rational, non-negative result *)

Section Rp.

Variable q : Q.
Hypothesis q_pos : 0 < q.

Lemma rp_val : (ilog2 q <= 1022)%Z -> val (round_pos false q) (F2Q (round_pos false q)).
Proof.
  intros Hs. destruct (round_pos_finite false q q_pos Hs) as [H1 H2].
  split; [exact H1|]. split; [exact H2|]. reflexivity.
Qed.

Lemma rp_upper f : repr f -> q <= f -> F2Q (round_pos false q) <= f.
Proof.
  intros [M [g [Hf [HM Hg]]]] Hle.
  assert (Hs : (ilog2 q <= 1022)%Z).
  { assert (ilog2 q <= 53)%Z; [|lia].
    assert (ilog2 q < 54)%Z; [|lia]. apply ilog2_lt; [exact q_pos|].
    assert (Hb : f <= inject_Z (2 ^ 53)) by (apply repr_bound; now exists M, g).
    rewrite <- pow2_Z in Hb by lia.
    assert (pow2 53 < pow2 54) by (apply pow2_lt; lia). lra. }
  rewrite (round_pos_value false q q_pos Hs). unfold sgn.
  pose proof (round_pos_upper q q_pos f M g Hf (proj2 HM) (proj1 Hg) Hle). lra.
Qed.

Lemma rp_lower f : (ilog2 q <= 1022)%Z -> repr f -> f <= q -> f <= F2Q (round_pos false q).
Proof.
  intros Hs [M [g [Hf [HM Hg]]]] Hle.
  rewrite (round_pos_value false q q_pos Hs). unfold sgn.
  pose proof (round_pos_lower false q q_pos Hs f M g Hf (proj2 HM) (proj1 Hg) Hle). lra.
Qed.

Lemma rp_exact : repr q -> val (round_pos false q) q.
Proof.
  intros Hr. pose proof (repr_small q q_pos Hr) as H53.
  assert (Hs : (ilog2 q <= 1022)%Z) by lia.
  destruct (rp_val Hs) as [H1 [H2 _]]. repeat split; auto.
  apply Qle_antisym; [apply rp_upper|apply rp_lower]; auto; apply Qle_refl.
Qed.

Lemma rp_error K :
  (K <= 1023)%Z -> q < pow2 K ->
  F2Q (round_pos false q) - q <= pow2 (Z.max (K - 54) (-1075)) /\
  q - F2Q (round_pos false q) <= pow2 (Z.max (K - 54) (-1075)).
Proof.
  intros HK Hlt. assert (Hs : (ilog2 q <= 1022)%Z).
  { pose proof (ilog2_lt q K q_pos Hlt). lia. }
  rewrite (round_pos_value false q q_pos Hs). unfold sgn.
  destruct (round_pos_error q q_pos K Hlt) as [E1 E2]. split; lra.
Qed.

Lemma rp_repr : q < pow2 53 -> repr (F2Q (round_pos false q)).
Proof.
  intros Hlt. pose proof (ilog2_lt q 53 q_pos Hlt) as Hl.
  assert (Hs : (ilog2 q <= 1022)%Z) by lia.
  destruct (round_pos_on_grid false q q_pos Hs) as [Hm [He1 He2]].
  eexists _, _. split; [|split; [exact Hm|split; [exact He1|apply He2; lia]]].
  rewrite (round_pos_value false q q_pos Hs). unfold sgn. ring.
Qed.

End Rp.

(** *** [RN] on non-negative rationals *)

Lemma RN_zero q : q == 0 -> RN q = S754_zero false.
Proof. intros H. unfold RN. now rewrite (proj1 (Qeq_alt q 0) H). Qed.

Lemma RN_pos q : 0 < q -> RN q = round_pos false q.
Proof. intros H. unfold RN. now rewrite (proj1 (Qgt_alt q 0) H). Qed.

Lemma RN_exact q : 0 <= q -> repr q -> val (RN q) q.
Proof.
  intros H0 Hr. destruct (Qle_lt_or_eq _ _ H0) as [Hpos|Hz].
  - rewrite (RN_pos q Hpos). now apply rp_exact.
  - rewrite (RN_zero q) by (now symmetry). repeat split. simpl. exact Hz.
Qed.

(** *** The operations on non-negative operands *)

Ltac not_finite :=
  match goal with
  | H : val ?x _ |- _ => solve [exfalso; exact (proj1 H)]
  end.

Lemma val_finite_not_inf x v : val x v -> is_inf x = false.
Proof. intros [Hf _]. now destruct x. Qed.

Lemma F2Q_neg x : F2Q (neg x) == - F2Q x.
Proof.
  destruct x as [s|s| |s m e]; try reflexivity.
  unfold neg, F2Q. destruct s; simpl negb; cbv iota.
  - change (inject_Z (Z.neg m)) with (- inject_Z (Z.pos m)). ring.
  - change (inject_Z (Z.neg m)) with (- inject_Z (Z.pos m)). ring.
Qed.

Lemma of_int_val n :
  (0 <= n <= 2 ^ 53)%Z ->
  exists x, of_int n = Ok x /\ val x (inject_Z n).
Proof.
  intros Hn. unfold of_int.
  assert (Hv : val (RN (inject_Z n)) (inject_Z n)).
  { apply RN_exact; [|now apply repr_int].
    change 0 with (inject_Z 0). rewrite <- Zle_Qle. lia. }
  rewrite (val_finite_not_inf _ _ Hv). now eexists.
Qed.

Lemma sub_val x y vx vy :
  val x vx -> val y vy -> vy <= vx -> repr (vx - vy) -> val (sub x y) (vx - vy).
Proof.
  intros Hx Hy Hle Hr.
  pose proof (val_nonneg _ _ Hy) as Hy0.
  assert (Hrn : val (RN (F2Q x + F2Q (neg y))) (vx - vy)).
  { destruct Hx as [_ [_ Hvx]], Hy as [_ [_ Hvy]].
    assert (Heq : F2Q x + F2Q (neg y) == vx - vy) by (rewrite F2Q_neg, Hvx, Hvy; ring).
    apply val_ext with (F2Q x + F2Q (neg y)); [|exact Heq].
    apply RN_exact; [lra|]. apply repr_ext with (vx - vy); [exact Hr|now symmetry]. }
  destruct x as [sx|sx| |sx mx ex], y as [sy|sy| |sy my ey];
    try not_finite.
  - destruct Hx as [_ [Hsx Hvx]], Hy as [_ [_ Hvy]]. simpl in Hsx. subst sx.
    repeat split. unfold sub, neg, add. simpl. simpl in Hvx, Hvy. lra.
  - exfalso. destruct Hx as [_ [_ Hvx]]. simpl in Hvx.
    pose proof (proj1 (val_zero _ _ Hy)) as Hz.
    destruct (Qle_lt_or_eq _ _ Hy0) as [Hpos|Heq]; [lra|].
    assert (vy == 0) by (now symmetry).
    destruct Hy as [_ [Hsy Hvy]]. simpl in Hsy. subst sy. unfold F2Q in Hvy.
    pose proof (pow2_pos ey).
    assert (0 < inject_Z (Z.pos my)) by (rewrite <- (Zlt_Qlt 0); lia). nra.
  - exact Hrn.
  - exact Hrn.
Qed.

Lemma div_pos x y vx vy :
  val x vx -> val y vy -> 0 < vy -> 0 < vx ->
  div x y = round_pos false (Qabs (F2Q x / F2Q y)) /\
  Qabs (F2Q x / F2Q y) == vx / vy.
Proof.
  intros Hx Hy Hy0 Hx0.
  assert (Hq : Qabs (F2Q x / F2Q y) == vx / vy).
  { destruct Hx as [_ [_ Hvx]], Hy as [_ [_ Hvy]]. rewrite Hvx, Hvy.
    apply Qabs_pos. apply Qlt_le_weak. apply Qlt_shift_div_l; lra. }
  split; [|exact Hq].
  destruct x as [sx|sx| |sx mx ex], y as [sy|sy| |sy my ey];
    try not_finite.
  - destruct Hx as [_ [_ Hvx]]. simpl in Hvx. lra.
  - destruct Hx as [_ [_ Hvx]]. simpl in Hvx. lra.
  - destruct Hy as [_ [_ Hvy]]. simpl in Hvy. lra.
  - destruct Hx as [_ [Hsx _]], Hy as [_ [Hsy _]]. simpl in Hsx, Hsy. subst.
    reflexivity.
Qed.

Lemma div_zero x y vy :
  val x 0 -> val y vy -> 0 < vy -> val (div x y) 0.
Proof.
  intros Hx Hy Hy0.
  destruct x as [sx|sx| |sx mx ex], y as [sy|sy| |sy my ey];
    try not_finite.
  - destruct Hy as [_ [_ Hvy]]. simpl in Hvy. lra.
  - destruct Hx as [_ [Hsx _]], Hy as [_ [Hsy _]]. simpl in Hsx, Hsy. subst.
    repeat split.
  - destruct Hy as [_ [_ Hvy]]. simpl in Hvy. lra.
  - exfalso. pose proof (proj2 (val_zero _ _ Hx) (Qeq_refl 0)). discriminate.
Qed.

Lemma div_exact x y vx vy :
  val x vx -> val y vy -> 0 < vy -> repr (vx / vy) -> val (div x y) (vx / vy).
Proof.
  intros Hx Hy Hy0 Hr. pose proof (val_nonneg _ _ Hx) as Hx0.
  destruct (Qle_lt_or_eq _ _ Hx0) as [Hpos|Hz].
  - destruct (div_pos x y vx vy Hx Hy Hy0 Hpos) as [-> Hq].
    apply val_ext with (Qabs (F2Q x / F2Q y)); [|exact Hq].
    apply rp_exact.
    + rewrite Hq. apply Qlt_shift_div_l; lra.
    + apply repr_ext with (vx / vy); [exact Hr|now symmetry].
  - apply val_ext with 0.
    + apply div_zero with vy; auto. apply val_ext with vx; [exact Hx|now symmetry].
    + rewrite <- Hz. field. lra.
Qed.

Lemma fmod_val x y vx vy :
  val x vx -> val y vy -> 0 < vy ->
  repr (vx - inject_Z (Qfloor (vx / vy)) * vy) ->
  val (fmod x y) (vx - inject_Z (Qfloor (vx / vy)) * vy).
Proof.
  intros Hx Hy Hy0 Hr. pose proof (val_nonneg _ _ Hx) as Hx0.
  destruct x as [sx|sx| |sx mx ex], y as [sy|sy| |sy my ey];
    try not_finite.
  - destruct Hy as [_ [_ Hvy]]. simpl in Hvy. lra.
  - destruct Hx as [_ [Hsx Hvx]]. simpl in Hsx, Hvx. subst sx.
    split; [exact I|]. split; [reflexivity|].
    change (0 == vx - inject_Z (Qfloor (vx / vy)) * vy).
    assert (Hq : vx / vy == 0) by (rewrite <- Hvx; field; lra).
    rewrite (Qfloor_comp _ _ Hq). change (Qfloor 0) with 0%Z.
    change (inject_Z 0) with 0. lra.
  - destruct Hy as [_ [_ Hvy]]. simpl in Hvy. lra.
  - unfold fmod.
    set (qx := Qabs (F2Q (S754_finite sx mx ex))).
    set (qy := Qabs (F2Q (S754_finite sy my ey))).
    assert (Hqx : qx == vx).
    { destruct Hx as [_ [_ Hvx]]. unfold qx. rewrite Hvx. now apply Qabs_pos. }
    assert (Hqy : qy == vy).
    { destruct Hy as [_ [_ Hvy]]. unfold qy. rewrite Hvy. apply Qabs_pos. lra. }
    assert (Hdiv : qx / qy == vx / vy) by (now rewrite Hqx, Hqy).
    assert (Hrem : qx - inject_Z (Qfloor (qx / qy)) * qy ==
                   vx - inject_Z (Qfloor (vx / vy)) * vy).
    { now rewrite (Qfloor_comp _ _ Hdiv), Hqx, Hqy. }
    destruct Hx as [_ [Hsx _]]. simpl in Hsx. subst sx. simpl sign_bit.
    assert (Hge : 0 <= qx - inject_Z (Qfloor (qx / qy)) * qy).
    { rewrite Hrem. apply (repr_bound _ Hr). }
    destruct (Qcompare_spec (qx - inject_Z (Qfloor (qx / qy)) * qy) 0) as [H|H|H].
    + repeat split. simpl. rewrite <- Hrem, H. reflexivity.
    + lra.
    + apply val_ext with (qx - inject_Z (Qfloor (qx / qy)) * qy); [|exact Hrem].
      apply rp_exact; [exact H|].
      apply repr_ext with (vx - inject_Z (Qfloor (vx / vy)) * vy); [exact Hr|now symmetry].
Qed.

Lemma floor_val x vx :
  val x vx -> vx <= inject_Z (2 ^ 53) -> val (floor x) (inject_Z (Qfloor vx)).
Proof.
  intros Hx Hb. pose proof (val_nonneg _ _ Hx) as Hx0.
  assert (Hfl : (0 <= Qfloor vx <= 2 ^ 53)%Z).
  { split.
    - apply Qfloor_resp_le in Hx0. exact Hx0.
    - apply Qfloor_resp_le in Hb. now rewrite Qfloor_Z in Hb. }
  destruct x as [sx|sx| |sx mx ex]; try not_finite.
  - destruct Hx as [_ [Hsx Hvx]]. repeat split; [exact Hsx|].
    simpl in *. rewrite <- (Qfloor_comp _ _ Hvx). reflexivity.
  - unfold floor. destruct Hx as [_ [Hsx Hvx]]. simpl in Hsx. subst sx.
    rewrite (Qfloor_comp _ _ Hvx).
    destruct (Z.eqb_spec (Qfloor vx) 0) as [H0|H0].
    + rewrite H0. repeat split.
    + apply RN_exact; [|now apply repr_int].
      change 0 with (inject_Z 0). rewrite <- Zle_Qle. lia.
Qed.

Lemma to_int_val x vx : val x vx -> to_int x = Ok (Qfloor vx).
Proof.
  intros Hx. pose proof (val_nonneg _ _ Hx) as Hx0.
  destruct Hx as [Hf [Hs Hv]]. rewrite <- (Qfloor_comp _ _ Hv).
  rewrite <- Hv in Hx0.
  assert (Hq : Z.quot (Qnum (F2Q x)) (Z.pos (Qden (F2Q x))) = Qfloor (F2Q x)).
  { destruct (F2Q x) as [a b]. simpl. unfold Qle in Hx0. simpl in Hx0.
    apply Z.quot_div_nonneg; lia. }
  destruct x; try contradiction; unfold to_int; now rewrite Hq.
Qed.

Lemma cmp_val x y vx vy : val x vx -> val y vy -> cmp x y = Some (vx ?= vy).
Proof.
  intros [Hfx [_ Hvx]] [Hfy [_ Hvy]].
  rewrite <- (Qcompare_comp _ _ Hvx _ _ Hvy).
  destruct x, y; try contradiction; reflexivity.
Qed.

Lemma le_int_val x vx n : val x vx -> le_int x n = Qle_bool vx (inject_Z n).
Proof.
  intros [Hf [_ Hv]].
  assert (H : Qle_bool (F2Q x) (inject_Z n) = Qle_bool vx (inject_Z n)).
  { destruct (Qle_bool vx (inject_Z n)) eqn:Hb.
    - apply Qle_bool_iff. apply Qle_bool_iff in Hb. now rewrite Hv.
    - destruct (Qle_bool (F2Q x) (inject_Z n)) eqn:Hb'; [|reflexivity].
      apply Qle_bool_iff in Hb'. rewrite Hv in Hb'. apply Qle_bool_iff in Hb'. congruence. }
  destruct x; try contradiction; exact H.
Qed.

Lemma round_pos_sign s q : sign_bit (round_pos s q) = s.
Proof.
  unfold round_pos.
  destruct (_ =? 0)%Z; [reflexivity|].
  destruct (_ =? 2 ^ 53)%Z; destruct (971 <? _)%Z; reflexivity.
Qed.

Lemma div_sign x y vx vy :
  val x vx -> val y vy -> 0 < vy -> sign_bit (div x y) = false.
Proof.
  intros Hx Hy Hy0. pose proof (val_nonneg _ _ Hx) as Hx0.
  destruct (Qle_lt_or_eq _ _ Hx0) as [Hpos|Hz].
  - destruct (div_pos x y vx vy Hx Hy Hy0 Hpos) as [-> _]. apply round_pos_sign.
  - assert (Hx' : val x 0) by (apply val_ext with vx; [exact Hx|now symmetry]).
    now destruct (div_zero x y vy Hx' Hy Hy0) as [_ [H _]].
Qed.

Lemma val_zero_false : val (S754_zero false) 0.
Proof. repeat split. Qed.

Lemma val_half : val half (1 # 2).
Proof. repeat split. Qed.

Lemma ltb_val x y vx vy :
  val x vx -> val y vy -> vy <= vx -> ltb x y = false.
Proof.
  intros Hx Hy Hle. unfold ltb. rewrite (cmp_val x y vx vy Hx Hy).
  destruct (Qcompare_spec vx vy); try reflexivity. lra.
Qed.

Lemma floor_div_bounds v n :
  0 <= v -> (0 < n)%Z ->
  (0 <= Qfloor (v / inject_Z n))%Z /\
  inject_Z (Qfloor (v / inject_Z n) * n) <= v /\
  v < inject_Z (Qfloor (v / inject_Z n) * n) + inject_Z n.
Proof.
  intros Hv Hn.
  assert (HN : 0 < inject_Z n) by (change 0 with (inject_Z 0); rewrite <- Zlt_Qlt; lia).
  assert (Hq : v / inject_Z n * inject_Z n == v) by (field; lra).
  pose proof (Qfloor_le (v / inject_Z n)) as H1.
  pose proof (Qlt_floor (v / inject_Z n)) as H2.
  rewrite inject_Z_plus in H2. change (inject_Z 1) with 1 in H2.
  rewrite inject_Z_mult.
  assert (H0 : 0 <= v / inject_Z n) by (apply Qle_shift_div_l; lra).
  split.
  - apply Qfloor_resp_le in H0. exact H0.
  - set (y := v / inject_Z n) in *. set (N := inject_Z n) in *.
    set (F := inject_Z (Qfloor y)) in *. clearbody y N F. split; nra.
Qed.

Lemma divmod_val x vx n :
  val x vx -> repr vx -> (0 < n <= 2 ^ 53)%Z ->
  exists h r,
    DateTime.divmod_int x n = Ok (h, r) /\
    val h (inject_Z (Qfloor (vx / inject_Z n))) /\
    val r (vx - inject_Z (Qfloor (vx / inject_Z n) * n)) /\
    repr (vx - inject_Z (Qfloor (vx / inject_Z n) * n)).
Proof.
  intros Hx Hr Hn. pose proof (val_nonneg _ _ Hx) as Hx0.
  destruct (floor_div_bounds vx n Hx0 (proj1 Hn)) as [H0 [H1 H2]].
  destruct (repr_bound vx Hr) as [_ Hb].
  set (H := Qfloor (vx / inject_Z n)) in *.
  assert (HN : 0 < inject_Z n) by (change 0 with (inject_Z 0); rewrite <- Zlt_Qlt; lia).
  assert (HHn : (0 <= H * n <= 2 ^ 53)%Z).
  { split; [nia|]. rewrite Zle_Qle. lra. }
  assert (HH : (0 <= H <= 2 ^ 53)%Z) by nia.
  assert (HHnQ : 0 <= inject_Z (H * n))
    by (change 0 with (inject_Z 0); rewrite <- Zle_Qle; lia).
  assert (HHQ : 0 <= inject_Z H)
    by (change 0 with (inject_Z 0); rewrite <- Zle_Qle; lia).
  assert (Hrr : repr (vx - inject_Z (H * n))) by (apply repr_sub_int; auto; try lia).
  assert (Hrv : vx - inject_Z H * inject_Z n == vx - inject_Z (H * n))
    by (rewrite inject_Z_mult; ring).
  destruct (of_int_val n) as [w [Hw Hvw]]; [lia|].
  unfold DateTime.divmod_int. rewrite Hw. cbn [bind]. unfold divmod.
  assert (Hwz : is_zero w = false).
  { destruct (is_zero w) eqn:E; [|reflexivity].
    apply (val_zero _ _ Hvw) in E. lra. }
  rewrite Hwz.
  (* the remainder *)
  assert (Hmd : val (fmod x w) (vx - inject_Z (H * n))).
  { apply val_ext with (vx - inject_Z H * inject_Z n); [|exact Hrv].
    apply fmod_val; auto. }
  set (md0 := fmod x w) in *.
  (* the quotient *)
  assert (Hsb : val (sub x md0) (inject_Z (H * n))).
  { apply val_ext with (vx - (vx - inject_Z (H * n))); [|ring].
    apply sub_val; auto; [lra|].
    apply repr_ext with (inject_Z (H * n)); [now apply repr_int|ring]. }
  assert (Hdv : val (div (sub x md0) w) (inject_Z H)).
  { apply val_ext with (inject_Z (H * n) / inject_Z n).
    - apply div_exact; auto.
      apply repr_ext with (inject_Z H); [now apply repr_int|].
      rewrite inject_Z_mult. field. lra.
    - rewrite inject_Z_mult. field. lra. }
  set (dv0 := div (sub x md0) w) in *.
  assert (Hlt1 : ltb w (S754_zero false) = false)
    by (apply (ltb_val _ _ _ _ Hvw val_zero_false); lra).
  assert (Hlt2 : ltb md0 (S754_zero false) = false)
    by (apply (ltb_val _ _ _ _ Hmd val_zero_false); lra).
  rewrite Hlt1, Hlt2. cbn [Bool.eqb negb].
  assert (Hws : sign_bit w = false) by (now destruct Hvw as [_ [Hs _]]).
  rewrite Hws.
  assert (Hmd' : val (if truthy md0 then md0 else S754_zero false)
                     (vx - inject_Z (H * n))).
  { unfold truthy. destruct (is_zero md0) eqn:E; [|exact Hmd].
    apply (val_zero _ _ Hmd) in E. repeat split. simpl. now symmetry. }
  replace (if truthy md0 then (md0, dv0) else (S754_zero false, dv0))
    with (if truthy md0 then md0 else S754_zero false, dv0)
    by (now destruct (truthy md0)).
  cbv iota beta.
  set (md := if truthy md0 then md0 else S754_zero false) in *.
  (* the snap to an integer *)
  assert (Hfd : val (if truthy dv0
                     then (let fl := floor dv0 in
                           if ltb half (sub dv0 fl) then add fl one else fl)
                     else S754_zero (sign_bit (div x w)))
                    (inject_Z H)).
  { unfold truthy. destruct (is_zero dv0) eqn:E; cbn [negb].
    - apply (val_zero _ _ Hdv) in E.
      rewrite (div_sign x w vx (inject_Z n) Hx Hvw HN).
      repeat split. simpl. now symmetry.
    - assert (Hfl : val (floor dv0) (inject_Z H)).
      { apply val_ext with (inject_Z (Qfloor (inject_Z H))).
        - apply floor_val; [exact Hdv|]. rewrite <- Zle_Qle. lia.
        - now rewrite Qfloor_Z. }
      cbv zeta.
      assert (Hs0 : val (sub dv0 (floor dv0)) 0).
      { apply val_ext with (inject_Z H - inject_Z H); [|ring].
        apply sub_val; auto; [lra|].
        apply repr_ext with (inject_Z 0); [apply repr_int; lia|]. ring. }
      assert (Hl : ltb half (sub dv0 (floor dv0)) = false)
        by (apply (ltb_val _ _ _ _ val_half Hs0); lra).
      rewrite Hl. exact Hfl. }
  eexists _, _. split; [reflexivity|]. split; [exact Hfd|]. split; [exact Hmd'|exact Hrr].
Qed.

(** ** Elapsed time *)

Lemma Qfloor_unique q z :
  inject_Z z <= q -> q < inject_Z z + 1 -> Qfloor q = z.
Proof.
  intros H1 H2.
  pose proof (Qfloor_le q) as F1. pose proof (Qlt_floor q) as F2.
  rewrite inject_Z_plus in F2. change (inject_Z 1) with 1 in F2.
  assert (A : (Qfloor q < z + 1)%Z).
  { rewrite Zlt_Qlt, inject_Z_plus. change (inject_Z 1) with 1. lra. }
  assert (B : (z < Qfloor q + 1)%Z).
  { rewrite Zlt_Qlt, inject_Z_plus. change (inject_Z 1) with 1. lra. }
  lia.
Qed.

Lemma inject_Z_nonneg z : (0 <= z)%Z -> 0 <= inject_Z z.
Proof. intros H. change 0 with (inject_Z 0). now rewrite <- Zle_Qle. Qed.

Lemma inject_Z_pos z : (0 < z)%Z -> 0 < inject_Z z.
Proof. intros H. change 0 with (inject_Z 0). now rewrite <- Zlt_Qlt. Qed.

Lemma pow2_m20 : pow2 (-20) == 1 # 1048576.
Proof. reflexivity. Qed.

Lemma pow2_m23 : pow2 (-23) == 1 # 8388608.
Proof. reflexivity. Qed.

Lemma pow2_m37 : pow2 (-37) == 1 # 137438953472.
Proof. reflexivity. Qed.

Lemma pow2_m39 : pow2 (-39) == 1 # 549755813888.
Proof. reflexivity. Qed.

(** The exact quotient [us / 10^6] lies between the whole seconds and the
    next second less one microsecond. *)
Lemma seconds_bounds us :
  (0 <= us)%Z ->
  inject_Z (us / 1000000) <= inject_Z us / 1000000 /\
  inject_Z us / 1000000 <= inject_Z (us / 1000000) + 1 - (1 # 1000000).
Proof.
  intros Hus.
  pose proof (Z.div_mod us 1000000 ltac:(lia)) as Hdm.
  pose proof (Z.mod_pos_bound us 1000000 ltac:(lia)) as Hmod.
  assert (Hq : inject_Z us ==
               inject_Z (us / 1000000) * 1000000 + inject_Z (us mod 1000000)).
  { rewrite Hdm at 1. rewrite inject_Z_plus, inject_Z_mult. ring. }
  assert (M0 : 0 <= inject_Z (us mod 1000000)) by (apply inject_Z_nonneg; lia).
  assert (M1 : inject_Z (us mod 1000000) <= 999999).
  { change 999999 with (inject_Z 999999). rewrite <- Zle_Qle. lia. }
  set (k := inject_Z (us / 1000000)) in *. set (r := inject_Z (us mod 1000000)) in *.
  set (u := inject_Z us) in *. clearbody k r u.
  split.
  - apply Qle_shift_div_l; lra.
  - apply Qle_shift_div_r; lra.
Qed.

Lemma total_seconds_val us :
  (0 <= us < 2 ^ 31 * 1000000)%Z ->
  exists T,
    DateTime.total_seconds us = Ok T /\
    val T (F2Q T) /\ repr (F2Q T) /\
    inject_Z (us / 1000000) <= F2Q T /\
    F2Q T <= inject_Z (us / 1000000) + 1 - pow2 (-20) /\
    F2Q T - inject_Z us / 1000000 <= pow2 (-23) /\
    inject_Z us / 1000000 - F2Q T <= pow2 (-23) /\
    (forall f, repr f -> inject_Z us / 1000000 <= f -> F2Q T <= f) /\
    (forall f, repr f -> f <= inject_Z us / 1000000 -> f <= F2Q T).
Proof.
  intros Hus. destruct (seconds_bounds us (proj1 Hus)) as [B1 B2].
  assert (Hk : (0 <= us / 1000000 < 2 ^ 31)%Z).
  { split; [apply Z.div_pos; lia|apply Z.div_lt_upper_bound; lia]. }
  assert (Hkq : inject_Z (us / 1000000) <= inject_Z (2 ^ 31 - 1))
    by (rewrite <- Zle_Qle; lia).
  assert (Hk0 : 0 <= inject_Z (us / 1000000)) by (apply inject_Z_nonneg; lia).
  assert (Hrk : repr (inject_Z (us / 1000000))) by (apply repr_int; lia).
  assert (Hrk1 : repr (inject_Z (us / 1000000) + 1 - pow2 (-20))).
  { exists ((us / 1000000 + 1) * 2 ^ 20 - 1)%Z, (-20)%Z. split; [|split; lia].
    unfold Z.sub. rewrite inject_Z_plus, inject_Z_mult, inject_Z_plus, pow2_m20.
    change (inject_Z (2 ^ 20)) with 1048576. change (inject_Z (-(1))) with (-1).
    change (inject_Z 1) with 1. field. }
  unfold DateTime.total_seconds, int_truediv.
  change (1000000 =? 0)%Z with false. cbv iota.
  destruct (Z.eqb_spec us 0) as [H0|H0].
  - subst us. exists (S754_zero false). change (0 / 1000000)%Z with 0%Z.
    change (inject_Z 0) with 0. change (F2Q (S754_zero false)) with 0.
    rewrite pow2_m20, pow2_m23.
    split; [reflexivity|]. split; [repeat split|]. split; [apply (repr_int 0); lia|].
    split; [lra|]. split; [lra|]. split; [unfold Qdiv; lra|].
    split; [unfold Qdiv; lra|]. split.
    + intros f Hf _. apply (repr_bound f Hf).
    + intros f Hf Hle. unfold Qdiv in Hle. lra.
  - set (q := inject_Z us / inject_Z 1000000).
    assert (Hqe : q == inject_Z us / 1000000) by reflexivity.
    assert (Hq0 : 0 < q).
    { rewrite Hqe. apply Qlt_shift_div_l; [reflexivity|].
      assert (0 < inject_Z us) by (apply inject_Z_pos; lia). lra. }
    assert (Hq31 : q < pow2 31).
    { rewrite Hqe. change (pow2 31) with (inject_Z (2 ^ 31)).
      assert (inject_Z (2 ^ 31 - 1) + 1 - (1 # 1000000) < inject_Z (2 ^ 31)) by reflexivity.
      set (qq := inject_Z us / 1000000) in *. clearbody qq. lra. }
    assert (Hq53 : q < pow2 53).
    { assert (pow2 31 < pow2 53) by (apply pow2_lt; lia). lra. }
    pose proof (ilog2_lt q 31 Hq0 Hq31) as Hlog.
    rewrite (RN_pos q Hq0).
    assert (Hv : val (round_pos false q) (F2Q (round_pos false q)))
      by (apply rp_val; [exact Hq0|lia]).
    rewrite (val_finite_not_inf _ _ Hv).
    exists (round_pos false q). split; [reflexivity|]. split; [exact Hv|].
    split; [now apply rp_repr|].
    destruct (rp_error q Hq0 31 ltac:(lia) Hq31) as [E1 E2].
    change (Z.max (31 - 54) (-1075)) with (-23)%Z in E1, E2.
    rewrite <- Hqe. rewrite <- Hqe in B1, B2.
    split; [apply (rp_lower q Hq0 _ ltac:(lia) Hrk); lra|].
    split; [apply (rp_upper q Hq0 _ Hrk1); rewrite pow2_m20; lra|].
    split; [exact E1|]. split; [exact E2|]. split.
    + intros f Hf Hle. now apply rp_upper.
    + intros f Hf Hle. apply rp_lower; auto. lia.
Qed.

Lemma floor_div_int T k n :
  inject_Z k <= T -> T < inject_Z k + 1 -> (0 < n)%Z ->
  Qfloor (T / inject_Z n) = (k / n)%Z /\
  T - inject_Z (k / n * n) == T - inject_Z k + inject_Z (k mod n).
Proof.
  intros H1 H2 Hn.
  pose proof (Z.div_mod k n ltac:(lia)) as Hdm.
  pose proof (Z.mod_pos_bound k n Hn) as Hmod.
  assert (HN : 0 < inject_Z n) by (now apply inject_Z_pos).
  assert (Hk : inject_Z k == inject_Z (k / n) * inject_Z n + inject_Z (k mod n)).
  { rewrite Hdm at 1. rewrite inject_Z_plus, inject_Z_mult. ring. }
  assert (M0 : 0 <= inject_Z (k mod n)) by (apply inject_Z_nonneg; lia).
  assert (M1 : inject_Z (k mod n) + 1 <= inject_Z n).
  { change 1 with (inject_Z 1). rewrite <- inject_Z_plus, <- Zle_Qle. lia. }
  split.
  - apply Qfloor_unique.
    + apply Qle_shift_div_l; [exact HN|].
      set (a := inject_Z (k / n)) in *. set (b := inject_Z (k mod n)) in *.
      set (N := inject_Z n) in *. set (K := inject_Z k) in *. clearbody a b N K. nra.
    + apply Qlt_shift_div_r; [exact HN|].
      set (a := inject_Z (k / n)) in *. set (b := inject_Z (k mod n)) in *.
      set (N := inject_Z n) in *. set (K := inject_Z k) in *. clearbody a b N K. nra.
  - rewrite inject_Z_mult.
    set (a := inject_Z (k / n)) in *. set (b := inject_Z (k mod n)) in *.
    set (N := inject_Z n) in *. set (K := inject_Z k) in *. clearbody a b N K. lra.
Qed.

(** The three integers printed by [hms] for a float within one second above
    the whole number [k]. *)
Lemma hms_of_seconds T k :
  val T (F2Q T) -> repr (F2Q T) -> (0 <= k)%Z ->
  inject_Z k <= F2Q T -> F2Q T < inject_Z k + 1 ->
  exists hours rem minutes seconds,
    DateTime.divmod_int T 3600 = Ok (hours, rem) /\
    DateTime.divmod_int rem 60 = Ok (minutes, seconds) /\
    DateTime.hms hours minutes seconds =
      Ok (Str.of_int_02 (k / 3600) +:+ ":" +:+ Str.of_int_02 (k mod 3600 / 60) +:+ ":" +:+
          Str.of_int_02 (k mod 60)).
Proof.
  intros HT Hr Hk0 H1 H2.
  destruct (divmod_val T (F2Q T) 3600 HT Hr ltac:(lia)) as [hours [rem [E1 [Vh [Vr Rr]]]]].
  destruct (floor_div_int (F2Q T) k 3600 H1 H2 ltac:(lia)) as [F1 G1].
  rewrite F1 in Vh, Vr, Rr.
  set (rv := F2Q T - inject_Z (k / 3600 * 3600)) in *.
  assert (Hrv1 : inject_Z (k mod 3600) <= rv) by (rewrite G1; lra).
  assert (Hrv2 : rv < inject_Z (k mod 3600) + 1) by (rewrite G1; lra).
  destruct (divmod_val rem rv 60 Vr Rr ltac:(lia)) as [minutes [seconds [E2 [Vm [Vs Rs]]]]].
  destruct (floor_div_int rv (k mod 3600) 60 Hrv1 Hrv2 ltac:(lia)) as [F2 G2].
  rewrite F2 in Vm, Vs, Rs.
  set (sv := rv - inject_Z (k mod 3600 / 60 * 60)) in *.
  assert (Hmm : ((k mod 3600) mod 60 = k mod 60)%Z).
  { pose proof (Z.div_mod k 3600 ltac:(lia)) as D.
    rewrite D at 2. replace (3600 * (k / 3600) + k mod 3600)%Z
      with (k mod 3600 + (60 * (k / 3600)) * 60)%Z by lia.
    now rewrite Z.mod_add by lia. }
  rewrite Hmm in G2.
  assert (Hs : Qfloor sv = (k mod 60)%Z).
  { apply Qfloor_unique; rewrite G2; lra. }
  exists hours, rem, minutes, seconds. split; [exact E1|]. split; [exact E2|].
  unfold DateTime.hms.
  rewrite (to_int_val _ _ Vh), (to_int_val _ _ Vm), (to_int_val _ _ Vs).
  cbn [bind]. now rewrite !Qfloor_Z, Hs.
Qed.

Lemma days_val T us :
  (0 <= us < 2 ^ 31 * 1000000)%Z ->
  val T (F2Q T) ->
  F2Q T <= inject_Z (us / 1000000) + 1 - pow2 (-20) ->
  (forall f, repr f -> inject_Z us / 1000000 <= f -> F2Q T <= f) ->
  (forall f, repr f -> f <= inject_Z us / 1000000 -> f <= F2Q T) ->
  exists days,
    DateTime.div_int T 86400 = Ok days /\ val days (F2Q days) /\
    ((us <= 86400 * 1000000)%Z -> le_int days 1 = true) /\
    ((86400 * 1000000 < us)%Z ->
     le_int days 1 = false /\
     F2Q days - F2Q T / 86400 <= pow2 (-39) /\
     F2Q T / 86400 - F2Q days <= pow2 (-39)).
Proof.
  intros Hus HT Hup Hle Hge.
  destruct (of_int_val 86400) as [w [Hw Hvw]]; [lia|].
  unfold DateTime.div_int. rewrite Hw. cbn [bind].
  assert (Hwz : is_zero w = false).
  { destruct (is_zero w) eqn:E; [|reflexivity].
    apply (val_zero _ _ Hvw) in E. change (inject_Z 86400) with 86400 in E. lra. }
  rewrite Hwz. exists (div T w). split; [reflexivity|].
  pose proof (val_nonneg _ _ HT) as HT0.
  assert (Hk : (0 <= us / 1000000 < 2 ^ 31)%Z).
  { split; [apply Z.div_pos; lia|apply Z.div_lt_upper_bound; lia]. }
  assert (HT31 : F2Q T < inject_Z (2 ^ 31)).
  { assert (inject_Z (us / 1000000) <= inject_Z (2 ^ 31 - 1)) by (rewrite <- Zle_Qle; lia).
    assert (inject_Z (2 ^ 31 - 1) + 1 == inject_Z (2 ^ 31)) by reflexivity.
    pose proof (pow2_pos (-20)). lra. }
  change (inject_Z 86400) with 86400 in Hvw.
  destruct (Qle_lt_or_eq _ _ HT0) as [Hpos|Hz].
  - destruct (div_pos T w (F2Q T) 86400 HT Hvw ltac:(lra) Hpos) as [Hd Hq].
    set (Q := Qabs (F2Q T / F2Q w)) in *.
    assert (HQ0 : 0 < Q) by (rewrite Hq; apply Qlt_shift_div_l; lra).
    assert (HQ15 : Q < pow2 15).
    { rewrite Hq. change (pow2 15) with 32768. apply Qlt_shift_div_r; [lra|].
      change (inject_Z (2 ^ 31)) with 2147483648 in HT31. lra. }
    pose proof (ilog2_lt Q 15 HQ0 HQ15) as Hlog.
    assert (Hv : val (div T w) (F2Q (div T w)))
      by (rewrite Hd; apply rp_val; [exact HQ0|lia]).
    split; [exact Hv|]. rewrite (le_int_val _ _ 1 Hv). rewrite Hd. split.
    + intros Hsmall. apply Qle_bool_iff.
      assert (HT86 : F2Q T <= inject_Z 86400).
      { apply Hle; [apply repr_int; lia|].
        apply Qle_shift_div_r; [reflexivity|].
        change (inject_Z 86400 * 1000000) with (inject_Z (86400 * 1000000)).
        rewrite <- Zle_Qle. exact Hsmall. }
      change (inject_Z 86400) with 86400 in HT86.
      apply (rp_upper Q HQ0 (inject_Z 1)); [apply repr_int; lia|].
      rewrite Hq. change (inject_Z 1) with 1. apply Qle_shift_div_r; lra.
    + intros Hbig.
      assert (Hf1 : 86400 + pow2 (-20) <= F2Q T).
      { apply Hge.
        - exists (86400 * 2 ^ 20 + 1)%Z, (-20)%Z. split; [|split; lia].
          rewrite pow2_m20. reflexivity.
        - rewrite pow2_m20. apply Qle_shift_div_l; [reflexivity|].
          assert (inject_Z (86400 * 1000000 + 1) <= inject_Z us) by (rewrite <- Zle_Qle; lia).
          change (inject_Z (86400 * 1000000 + 1)) with 86400000001 in H. lra. }
      assert (Hf2 : 1 + pow2 (-37) <= F2Q (round_pos false Q)).
      { apply (rp_lower Q HQ0 _ ltac:(lia)).
        - exists (2 ^ 37 + 1)%Z, (-37)%Z. split; [|split; lia].
          rewrite pow2_m37. reflexivity.
        - rewrite Hq. rewrite pow2_m37. rewrite pow2_m20 in Hf1.
          apply Qle_shift_div_l; lra. }
      split.
      * destruct (Qle_bool (F2Q (round_pos false Q)) (inject_Z 1)) eqn:E; [|reflexivity].
        apply Qle_bool_iff in E. change (inject_Z 1) with 1 in E.
        rewrite pow2_m37 in Hf2. lra.
      * destruct (rp_error Q HQ0 15 ltac:(lia) HQ15) as [E1 E2].
        change (Z.max (15 - 54) (-1075)) with (-39)%Z in E1, E2.
        assert (Hq' : F2Q T / 86400 == Q) by (now symmetry).
        rewrite Hq'. now split.
  - assert (HT' : val T 0) by (apply val_ext with (F2Q T); [exact HT|now symmetry]).
    pose proof (div_zero T w 86400 HT' Hvw ltac:(lra)) as Hv.
    split; [apply val_ext with 0; [exact Hv|]; now destruct Hv as [_ [_ ->]]|].
    rewrite (le_int_val _ _ 1 Hv). split.
    + intros _. reflexivity.
    + intros Hbig. exfalso.
      assert (inject_Z 86400 <= F2Q T).
      { apply Hge; [apply repr_int; lia|].
        apply Qle_shift_div_l; [reflexivity|].
        change (inject_Z 86400 * 1000000) with (inject_Z (86400 * 1000000)).
        rewrite <- Zle_Qle. lia. }
      change (inject_Z 86400) with 86400 in H. lra.
Qed.

Lemma rhe_comp q q' : q == q' -> round_half_even q = round_half_even q'.
Proof.
  intros H. unfold round_half_even. rewrite (Qfloor_comp _ _ H).
  assert (Hc : (q - inject_Z (Qfloor q') ?= 1 # 2) = (q' - inject_Z (Qfloor q') ?= 1 # 2)).
  { apply Qcompare_comp; [now rewrite H|reflexivity]. }
  now rewrite Hc.
Qed.

Lemma pad_one_digit d :
  (0 <= d < 10)%Z -> Str.pad_left "0" 1 (Str.of_nonneg d) = Str.of_nonneg d.
Proof.
  intros Hd.
  assert (H : (d = 0 \/ d = 1 \/ d = 2 \/ d = 3 \/ d = 4 \/ d = 5 \/ d = 6 \/
               d = 7 \/ d = 8 \/ d = 9)%Z) by lia.
  repeat (destruct H as [->|H]; [reflexivity|]). subst. reflexivity.
Qed.

Lemma format_days days :
  val days (F2Q days) ->
  let t := round_half_even (F2Q days * 10) in
  (0 <= t)%Z /\
  format_fixed 1 days = Str.of_nonneg (t / 10) +:+ "." +:+ Str.of_nonneg (t mod 10).
Proof.
  intros Hv t. pose proof (val_nonneg _ _ Hv) as H0.
  assert (Ht : (0 <= t)%Z) by (apply rhe_ge; change (inject_Z 0) with 0; lra).
  split; [exact Ht|].
  assert (Habs : Qabs (F2Q days) * inject_Z (10 ^ Z.of_nat 1) == F2Q days * 10).
  { rewrite (Qabs_pos _ H0). reflexivity. }
  destruct Hv as [Hf [Hs _]].
  destruct days as [s|s| |s m e]; try contradiction; simpl in Hs; subst s;
    unfold format_fixed; cbn [sign_bit]; rewrite (rhe_comp _ _ Habs); fold t;
    change (10 ^ Z.of_nat 1)%Z with 10%Z;
    rewrite pad_one_digit by (apply Z.mod_pos_bound; lia); reflexivity.
Qed.

Lemma tenths_bound (T dq : Q) (us t : Z) :
  T - inject_Z us / 1000000 <= pow2 (-23) ->
  inject_Z us / 1000000 - T <= pow2 (-23) ->
  dq - T / 86400 <= pow2 (-39) ->
  T / 86400 - dq <= pow2 (-39) ->
  t = round_half_even (dq * 10) ->
  (2 * Z.abs (t * 8640000000 - us) <= 8640000000)%Z.
Proof.
  intros A1 A2 B1 B2 ->.
  destruct (rhe_bounds (dq * 10)) as [R1 R2].
  set (t := round_half_even (dq * 10)) in *.
  rewrite pow2_m23 in A1, A2. rewrite pow2_m39 in B1, B2.
  unfold Qdiv in *.
  change (/ 1000000) with (1 # 1000000) in *. change (/ 86400) with (1 # 86400) in *.
  assert (U : 2 * (inject_Z t * 8640000000 - inject_Z us) < 8640000001 /\
              2 * (inject_Z us - inject_Z t * 8640000000) < 8640000001).
  { set (tq := inject_Z t) in *. set (u := inject_Z us) in *. clearbody tq u.
    split; lra. }
  destruct U as [U1 U2].
  assert (V1 : (2 * (t * 8640000000 - us) < 8640000001)%Z).
  { rewrite Zlt_Qlt. rewrite inject_Z_mult. unfold Z.sub.
    rewrite inject_Z_plus, inject_Z_opp, inject_Z_mult.
    change (inject_Z 2) with 2. change (inject_Z 8640000000) with 8640000000.
    change (inject_Z 8640000001) with 8640000001. lra. }
  assert (V2 : (2 * (us - t * 8640000000) < 8640000001)%Z).
  { rewrite Zlt_Qlt. rewrite inject_Z_mult. unfold Z.sub.
    rewrite inject_Z_plus, inject_Z_opp, inject_Z_mult.
    change (inject_Z 2) with 2. change (inject_Z 8640000000) with 8640000000.
    change (inject_Z 8640000001) with 8640000001. lra. }
  lia.
Qed.

End FloatRounding.

(** ** Connection durations *)

Section Durations.

Import F64.

Lemma string_app_assoc (s t u : string) : (s +:+ t) +:+ u = s +:+ t +:+ u.
Proof.
  induction s as [|c s IH]; [reflexivity|].
  change (String c ((s +:+ t) +:+ u) = String c (s +:+ t +:+ u)). now rewrite IH.
Qed.

Lemma of_int_02_two_digits n : 0 <= n < 100 -> Str.of_int_02 n = two_digits n.
Proof.
  intros Hn. rewrite <- (Z2Nat.id n) by lia.
  assert (Hk : (Z.to_nat n < 100)%nat) by lia.
  generalize dependent (Z.to_nat n). clear n Hn. intros k.
  do 100 (destruct k as [|k]; [reflexivity|]). lia.
Qed.

(** A time from a day before the epoch to a day before the end of the year
    9999 has a local time on an ordinary clock. *)
Lemma localtime_ordinary (utcoffset : Z -> Z) (t : Z) :
  ordinary_clock utcoffset ->
  -86400 <= t <= 253402300799 - 86400 ->
  DateTime.localtime utcoffset t = Ok (t + utcoffset t).
Proof.
  intros Hclock Ht. pose proof (Hclock t) as Ho.
  unfold DateTime.localtime, DateTime.tm_min, DateTime.tm_max, DateTime.min_us,
    DateTime.max_us.
  repeat match goal with
         | |- context [?a <? ?b] => destruct (Z.ltb_spec a b); [lia|]
         end.
  reflexivity.
Qed.

Section ConnectionDuration.

Variable utcoffset : Z -> Z.
Variables now conntime : Z.

Let connected := (conntime + utcoffset conntime) * 1000000.
Let elapsed := now - connected.

Hypothesis clock_is_ordinary : ordinary_clock utcoffset.
Hypothesis connected_in_range : 0 <= conntime <= 253402300799 - 3 * 86400.

Lemma fromtimestamp_int :
  DateTime.fromtimestamp utcoffset (PInt conntime) = Ok connected.
Proof.
  unfold DateTime.fromtimestamp, DateTime.fromtimestamp_with, DateTime.from_seconds.
  destruct (Z.ltb_spec conntime DateTime.time_t_min) as [H|_];
    [unfold DateTime.time_t_min in H; lia|].
  destruct (Z.ltb_spec DateTime.time_t_max conntime) as [H|_];
    [unfold DateTime.time_t_max in H; lia|].
  cbn [orb]. rewrite (localtime_ordinary utcoffset conntime) by (auto; lia).
  cbn [bind]. unfold DateTime.probe_fold, DateTime.max_fold_seconds.
  rewrite (localtime_ordinary utcoffset (conntime - 24 * 3600)) by (auto; lia).
  cbn [bind].
  pose proof (clock_is_ordinary conntime) as H1.
  pose proof (clock_is_ordinary (conntime - 24 * 3600)) as H2.
  match goal with |- context [?a <? 0] => destruct (Z.ltb_spec a 0) end.
  - rewrite localtime_ordinary by (auto; lia). cbn [bind]. unfold connected.
    f_equal. lia.
  - cbn [bind]. unfold connected. f_equal. lia.
Qed.

(** Whole hours, minutes and seconds, for both renderings. *)
Lemma hms_rendering :
  0 <= elapsed < 2 ^ 31 * 1000000 ->
  exists T hours rem minutes seconds,
    DateTime.total_seconds elapsed = Ok T /\
    DateTime.divmod_int T 3600 = Ok (hours, rem) /\
    DateTime.divmod_int rem 60 = Ok (minutes, seconds) /\
    DateTime.hms hours minutes seconds =
      Ok (Str.of_int_02 (elapsed / 1000000 / 3600) +:+ ":" +:+
          two_digits (elapsed / 1000000 mod 3600 / 60) +:+ ":" +:+
          two_digits (elapsed / 1000000 mod 60)) /\
    exists days,
      DateTime.div_int T 86400 = Ok days /\
      (elapsed <= 86400 * 1000000 -> F64.le_int days 1 = true) /\
      (86400 * 1000000 < elapsed ->
       F64.le_int days 1 = false /\
       exists tenths,
         F64.format_fixed 1 days =
           Str.of_nonneg (tenths / 10) +:+ "." +:+ Str.of_nonneg (tenths mod 10) /\
         0 <= tenths /\
         2 * Z.abs (tenths * 8640000000 - elapsed) <= 8640000000).
Proof.
  intros He.
  destruct (total_seconds_val elapsed He)
    as [T [ET [VT [RT [L1 [L2 [A1 [A2 [Hup Hlo]]]]]]]]].
  assert (Hk : 0 <= elapsed / 1000000) by (apply Z.div_pos; lia).
  assert (L2' : (F2Q T < inject_Z (elapsed / 1000000) + 1)%Q).
  { pose proof (pow2_pos (-20)). lra. }
  destruct (hms_of_seconds T (elapsed / 1000000) VT RT Hk L1 L2')
    as [hours [rem [minutes [seconds [E1 [E2 E3]]]]]].
  destruct (days_val T elapsed He VT L2 Hup Hlo) as [days [ED [VD [D1 D2]]]].
  exists T, hours, rem, minutes, seconds.
  split; [exact ET|]. split; [exact E1|]. split; [exact E2|]. split.
  - rewrite E3.
    rewrite (of_int_02_two_digits (elapsed / 1000000 mod 3600 / 60)).
    + rewrite (of_int_02_two_digits (elapsed / 1000000 mod 60)); [reflexivity|].
      pose proof (Z.mod_pos_bound (elapsed / 1000000) 60 ltac:(lia)). lia.
    + pose proof (Z.mod_pos_bound (elapsed / 1000000) 3600 ltac:(lia)).
      split; [apply Z.div_pos; lia|apply Z.div_lt_upper_bound; lia].
  - exists days. split; [exact ED|]. split; [exact D1|].
    intros Hbig. destruct (D2 Hbig) as [Hle [B1 B2]]. split; [exact Hle|].
    destruct (format_days days VD) as [Ht Hfmt].
    exists (F64.round_half_even (F2Q days * 10)).
    split; [exact Hfmt|]. split; [exact Ht|].
    now apply (tenths_bound (F2Q T) (F2Q days)).
Qed.

Lemma monitor_duration_hms :
  0 <= elapsed <= 86400 * 1000000 ->
  PeersMonitor.connection_duration utcoffset now (PInt conntime) =
  Ok (hms_text (elapsed / 1000000)).
Proof.
  intros He.
  destruct hms_rendering as [T [hours [rem [minutes [seconds
    [ET [E1 [E2 [E3 [days [ED [D1 _]]]]]]]]]]]]; [lia|].
  unfold PeersMonitor.connection_duration.
  rewrite fromtimestamp_int. cbn [bind]. fold elapsed.
  rewrite ET. cbn [bind]. rewrite E1. cbn [bind]. rewrite E2. cbn [bind].
  rewrite ED. cbn [bind]. rewrite (D1 (proj2 He)). rewrite E3.
  unfold hms_text. rewrite of_int_02_two_digits; [reflexivity|].
  split; [apply Z.div_pos; [apply Z.div_pos|]; lia|].
  apply Z.div_lt_upper_bound; [lia|]. apply Z.div_lt_upper_bound; lia.
Qed.

Lemma monitor_duration_days :
  86400 * 1000000 < elapsed < 2 ^ 31 * 1000000 ->
  exists tenths,
    PeersMonitor.connection_duration utcoffset now (PInt conntime) =
      Ok (Str.of_nonneg (tenths / 10) +:+ "." +:+ Str.of_nonneg (tenths mod 10) +:+ " days") /\
    0 <= tenths /\
    2 * Z.abs (tenths * 8640000000 - elapsed) <= 8640000000.
Proof.
  intros He.
  destruct hms_rendering as [T [hours [rem [minutes [seconds
    [ET [E1 [E2 [E3 [days [ED [_ D2]]]]]]]]]]]]; [lia|].
  destruct (D2 (proj1 He)) as [Hle [tenths [Hfmt [Ht Hb]]]].
  exists tenths. split; [|split; assumption].
  unfold PeersMonitor.connection_duration.
  rewrite fromtimestamp_int. cbn [bind]. fold elapsed.
  rewrite ET. cbn [bind]. rewrite E1. cbn [bind]. rewrite E2. cbn [bind].
  rewrite ED. cbn [bind]. rewrite Hle, Hfmt.
  f_equal. rewrite !string_app_assoc. reflexivity.
Qed.

Lemma peers_duration_hms :
  0 <= elapsed < 2 ^ 31 * 1000000 ->
  Peers.connection_duration utcoffset now (PInt conntime) =
    Ok (Str.of_int_02 (elapsed / 1000000 / 3600) +:+ ":" +:+
        two_digits (elapsed / 1000000 mod 3600 / 60) +:+ ":" +:+
        two_digits (elapsed / 1000000 mod 60)) /\
  PeersRich.connection_duration utcoffset now (PInt conntime) =
    Peers.connection_duration utcoffset now (PInt conntime).
Proof.
  intros He. split; [|reflexivity].
  destruct hms_rendering as [T [hours [rem [minutes [seconds
    [ET [E1 [E2 [E3 _]]]]]]]]]; [lia|].
  unfold Peers.connection_duration.
  rewrite fromtimestamp_int. cbn [bind]. fold elapsed.
  rewrite ET. cbn [bind]. rewrite E1. cbn [bind]. rewrite E2. cbn [bind].
  exact E3.
Qed.

End ConnectionDuration.

End Durations.

(** C7, as amended.  Let [conntime] be a connection time from the epoch to
    three days before the end of the year 9999 and [t] the POSIX time of
    the call, in microseconds, on a clock that is less than a day away from
    UTC and has the same offset from UTC at both instants, and let
    [elapsed = t - conntime] be not negative and below [2^31] seconds.
    [connection_duration] of peers_monitor.py renders it as zero-padded
    [HH:MM:SS] with whole seconds when it is at most 24 hours, and as the
    day count with one decimal (a nearest tenth of the exact quotient)
    followed by [" days"] when it exceeds 24 hours: 90000 seconds render as
    ["1.0 days"] and zero as ["00:00:00"].  [connection_duration] of
    peers.py and peers_rich.py renders hours, minutes and seconds whatever
    the elapsed time.  No variant clamps a negative elapsed time. *)
Theorem connection_duration_renders (utcoffset : Z -> Z) (t conntime : Z) :
  let elapsed := t - conntime * 1000000 in
  let now := DateTime.now utcoffset t in
  ordinary_clock utcoffset ->
  0 <= conntime <= 253402300799 - 3 * 86400 ->
  utcoffset (t / 1000000) = utcoffset conntime ->
  0 <= elapsed < 2 ^ 31 * 1000000 ->
  (elapsed <= 86400 * 1000000 ->
   PeersMonitor.connection_duration utcoffset now (PInt conntime) =
   Ok (hms_text (elapsed / 1000000))) /\
  (86400 * 1000000 < elapsed ->
   exists tenths,
     PeersMonitor.connection_duration utcoffset now (PInt conntime) =
       Ok (Str.of_nonneg (tenths / 10) +:+ "." +:+ Str.of_nonneg (tenths mod 10) +:+
           " days") /\
     0 <= tenths /\
     2 * Z.abs (tenths * 8640000000 - elapsed) <= 8640000000) /\
  (elapsed = 90000 * 1000000 ->
   PeersMonitor.connection_duration utcoffset now (PInt conntime) = Ok "1.0 days") /\
  (elapsed = 0 ->
   PeersMonitor.connection_duration utcoffset now (PInt conntime) = Ok "00:00:00") /\
  Peers.connection_duration utcoffset now (PInt conntime) =
    Ok (Str.of_int_02 (elapsed / 1000000 / 3600) +:+ ":" +:+
        two_digits (elapsed / 1000000 mod 3600 / 60) +:+ ":" +:+
        two_digits (elapsed / 1000000 mod 60)) /\
  PeersRich.connection_duration utcoffset now (PInt conntime) =
    Peers.connection_duration utcoffset now (PInt conntime).
Proof.
  intros elapsed now Hclock Hrange Hoff He.
  assert (Hel : now - (conntime + utcoffset conntime) * 1000000 = elapsed)
    by (unfold now, DateTime.now, elapsed; rewrite Hoff; lia).
  pose proof (monitor_duration_hms utcoffset now conntime Hclock Hrange) as Hhms.
  pose proof (monitor_duration_days utcoffset now conntime Hclock Hrange) as Hdays.
  pose proof (peers_duration_hms utcoffset now conntime Hclock Hrange) as Hpeers.
  rewrite Hel in Hhms, Hdays, Hpeers.
  destruct (Hpeers He) as [Hp Hr].
  split; [intros H; apply Hhms; lia|].
  split; [intros H; apply Hdays; lia|].
  split; [|split; [|split; [exact Hp|exact Hr]]].
  - intros H. destruct Hdays as [tenths [Hd [Ht Hb]]]; [lia|].
    rewrite Hd. assert (tenths = 10) as -> by lia. reflexivity.
  - intros H. rewrite Hhms by lia. now rewrite H.
Qed.

Lemma connection_duration_renders_witness :
  PeersMonitor.connection_duration berlin_2023
    (DateTime.now berlin_2023 (1700003661 * 1000000)) (PInt 1700000000) =
  Ok (hms_text 3661).
Proof.
  destruct (connection_duration_renders berlin_2023 (1700003661 * 1000000) 1700000000)
    as [H _].
  - intros t. unfold berlin_2023. destruct (t <? 1698541200); lia.
  - lia.
  - reflexivity.
  - lia.
  - apply H. lia.
Defined.

Example connection_duration_examples :
  hms_text 3661 = "01:01:01" /\
  PeersMonitor.connection_duration utc (1700090000 * 1000000) (PInt 1700000000) =
    Ok "1.0 days" /\
  PeersMonitor.connection_duration utc (1700086400 * 1000000) (PInt 1700000000) =
    Ok "24:00:00" /\
  PeersMonitor.connection_duration utc (1700086400 * 1000000 + 1) (PInt 1700000000) =
    Ok "1.0 days" /\
  PeersMonitor.connection_duration utc (1700090720 * 1000000) (PInt 1700000000) =
    Ok "1.1 days".
Proof. repeat split; vm_compute; reflexivity. Qed.

(** C7 as stated fails: a connection time one second in the future is not
    clamped to zero but rendered with a negative hour field, and the variant
    of peers.py and peers_rich.py renders 25 hours as hours, not as days.
    Nor is the duration the time elapsed when the offset of local time
    changes in between: a connection made ten minutes before the end of
    summer time is shown, twenty minutes later, with a negative duration,
    and at the same local time of the next day as 24 hours old when 25
    have passed. *)
Lemma connection_duration_not_clamped :
  PeersMonitor.connection_duration utc (DateTime.now utc (1699999999 * 1000000))
    (PInt 1700000000) = Ok "-1:59:59" /\
  Peers.connection_duration utc (DateTime.now utc (1699999999 * 1000000))
    (PInt 1700000000) = Ok "-1:59:59" /\
  Peers.connection_duration utc (DateTime.now utc (1700090000 * 1000000))
    (PInt 1700000000) = Ok "25:00:00" /\
  PeersRich.connection_duration utc (DateTime.now utc (1700090000 * 1000000))
    (PInt 1700000000) = Ok "25:00:00" /\
  PeersMonitor.connection_duration berlin_2023
    (DateTime.now berlin_2023 ((1698540600 + 1200) * 1000000)) (PInt 1698540600) =
    Ok "-1:20:00" /\
  Peers.connection_duration berlin_2023
    (DateTime.now berlin_2023 ((1698540600 + 1200) * 1000000)) (PInt 1698540600) =
    Ok "-1:20:00" /\
  PeersMonitor.connection_duration berlin_2023
    (DateTime.now berlin_2023 ((1698540600 + 90000) * 1000000)) (PInt 1698540600) =
    Ok "24:00:00".
Proof. repeat split; vm_compute; reflexivity. Qed.

(** * Further properties of the scripts *)

(** ** Hexadecimal text of the service flags *)

Lemma hex_digit_cases (d : Z) :
  0 <= d < 16 ->
  PyInt.hex_value (hex_digit d) = Some d /\
  Ascii.eqb (hex_digit d) PyInt.underscore = false /\
  PyInt.is_space (hex_digit d) = false /\
  PyInt.strip_sign (String (hex_digit d) "") = (false, String (hex_digit d) "") /\
  hex_digit d <> "x"%char /\ hex_digit d <> "X"%char /\
  hex_digit d <> "+"%char /\ hex_digit d <> "-"%char.
Proof.
  intros Hd.
  assert (Hc : d = 0 \/ d = 1 \/ d = 2 \/ d = 3 \/ d = 4 \/ d = 5 \/ d = 6 \/ d = 7 \/
               d = 8 \/ d = 9 \/ d = 10 \/ d = 11 \/ d = 12 \/ d = 13 \/ d = 14 \/
               d = 15) by lia.
  repeat (destruct Hc as [->|Hc]; [repeat split; discriminate|]).
  subst d. repeat split; discriminate.
Qed.

Lemma scan_hex_fixed (w : nat) (n : Z) (rest : string) (nd : nat) (acc : Z) :
  0 <= n ->
  PyInt.scan (hex_fixed w n +:+ rest) false nd acc =
  PyInt.scan rest false (nd + w) (acc * 16 ^ Z.of_nat w + n mod 16 ^ Z.of_nat w).
Proof.
  revert n rest. induction w as [|w IH]; intros n rest Hn.
  - simpl hex_fixed. rewrite Nat.add_0_r. simpl Z.of_nat.
    rewrite Z.pow_0_r, Z.mod_1_r. f_equal. lia.
  - cbn [hex_fixed]. rewrite string_app_assoc.
    rewrite IH by (apply Z.div_pos; lia).
    change (String (hex_digit (n mod 16)) "" +:+ rest)
      with (String (hex_digit (n mod 16)) rest).
    cbn [PyInt.scan].
    destruct (hex_digit_cases (n mod 16)) as [Hv [Hu _]];
      [apply Z.mod_pos_bound; lia|].
    rewrite Hu, Hv. f_equal; [lia|].
    rewrite Nat2Z.inj_succ, Z.pow_succ_r by lia.
    rewrite (Z.rem_mul_r n 16 (16 ^ Z.of_nat w)) by lia. ring.
Qed.

Lemma hex_fixed_head (w : nat) (n : Z) :
  0 <= n ->
  exists d tail, 0 <= d < 16 /\ hex_fixed (S w) n = String (hex_digit d) tail /\
    (tail = "" \/ exists d' tail', 0 <= d' < 16 /\ tail = String (hex_digit d') tail').
Proof.
  revert n. induction w as [|w IH]; intros n Hn.
  - exists (n mod 16), "". split; [apply Z.mod_pos_bound; lia|]. split; [reflexivity|now left].
  - destruct (IH (n / 16)) as [d [tail [Hd [Heq Htail]]]]; [apply Z.div_pos; lia|].
    exists d, (tail +:+ String (hex_digit (n mod 16)) "").
    split; [exact Hd|]. split.
    + change (hex_fixed (S (S w)) n)
        with (hex_fixed (S w) (n / 16) +:+ String (hex_digit (n mod 16)) "").
      rewrite Heq. reflexivity.
    + right. destruct Htail as [->|[d' [tail' [Hd' ->]]]].
      * exists (n mod 16), "". split; [apply Z.mod_pos_bound; lia|reflexivity].
      * exists d', (tail' +:+ String (hex_digit (n mod 16)) "").
        split; [exact Hd'|reflexivity].
Qed.

Lemma of_hex_hex_fixed (w : nat) (n : Z) :
  (0 < w)%nat -> 0 <= n < 16 ^ Z.of_nat w ->
  PyInt.of_hex (hex_fixed w n) = Ok n.
Proof.
  intros Hw Hn. destruct w as [|w]; [lia|].
  destruct (hex_fixed_head w n) as [d [tail [Hd [Heq Htail]]]]; [lia|].
  pose proof (scan_hex_fixed (S w) n "" 0 0 (proj1 Hn)) as Hscan.
  assert (Happ : forall s, s +:+ "" = s)
    by (induction s as [|c s IHs]; [reflexivity|
        change (String c (s +:+ "") = String c s); now rewrite IHs]).
  rewrite Happ in Hscan. rewrite Z.mod_small in Hscan by lia.
  unfold PyInt.of_hex. rewrite Heq in *.
  destruct (hex_digit_cases d Hd) as [Hv [Hu [Hsp [Hsign [Hx [HX [Hplus Hminus]]]]]]].
  cbn [PyInt.skip_spaces]. rewrite Hsp.
  assert (Hs1 : PyInt.strip_sign (String (hex_digit d) tail) =
                (false, String (hex_digit d) tail)).
  { revert Hsign. unfold PyInt.strip_sign.
    destruct (hex_digit d) as [[] [] [] [] [] [] [] []]; congruence. }
  rewrite Hs1.
  assert (Hs2 : PyInt.strip_prefix (String (hex_digit d) tail) =
                String (hex_digit d) tail).
  { destruct Htail as [->|[d' [tail' [Hd' ->]]]].
    - unfold PyInt.strip_prefix.
      destruct (hex_digit d) as [[] [] [] [] [] [] [] []]; reflexivity.
    - destruct (hex_digit_cases d' Hd') as [_ [_ [_ [_ [Hx' [HX' _]]]]]].
      unfold PyInt.strip_prefix.
      destruct (hex_digit d) as [[] [] [] [] [] [] [] []]; try reflexivity.
      destruct (hex_digit d') as [[] [] [] [] [] [] [] []]; try reflexivity;
        congruence. }
  rewrite Hs2.
  assert (Hnu : forall A (a b : A),
             match String (hex_digit d) tail with
             | String "_" _ => a
             | _ => b
             end = b).
  { intros A a b. revert Hu. unfold PyInt.underscore.
    destruct (hex_digit d) as [[] [] [] [] [] [] [] []]; simpl; congruence. }
  rewrite Hnu, Hscan. simpl. f_equal; lia.
Qed.

(** X1.  The service flags as [getpeerinfo] prints them, a fixed number of
    hexadecimal digits, are read back exactly: [int(s, 16)] gives the flags
    word, and [decode_services] of each script returns the tags of the
    bits set in it. *)
Theorem decode_services_reads_hex_rendering (width : nat) (n : Z) :
  (0 < width)%nat -> 0 <= n < 16 ^ Z.of_nat width ->
  PyInt.of_hex (hex_fixed width n) = Ok n /\
  PeersMonitor.decode_services (PStr (hex_fixed width n)) =
    Ok (Str.join ", " (PeersMonitor.services_list n)) /\
  PeersRich2.decode_services (PStr (hex_fixed width n)) =
    Ok (Str.join ", " (PeersMonitor.services_list n)) /\
  PeersRich.decode_services (PStr (hex_fixed width n)) =
    Ok (Str.join ", " (PeersRich.services_list n)) /\
  Peers.decode_services (PStr (hex_fixed width n)) =
    Ok (Str.join ", " (Peers.services_list n)).
Proof.
  intros Hw Hn. pose proof (of_hex_hex_fixed width n Hw Hn) as H.
  split; [exact H|].
  unfold PeersRich2.decode_services, PeersMonitor.decode_services,
    PeersRich.decode_services, Peers.decode_services, PyInt.int16.
  rewrite H. repeat split.
Qed.

Lemma decode_services_reads_hex_rendering_witness :
  PeersMonitor.decode_services (PStr (hex_fixed 16 1033)) =
  Ok (Str.join ", " (PeersMonitor.services_list 1033)).
Proof.
  apply (decode_services_reads_hex_rendering 16 1033); [lia|].
  vm_compute. split; [discriminate|reflexivity].
Defined.

Example hex_fixed_examples :
  hex_fixed 16 1033 = "0000000000000409" /\
  hex_fixed 16 0 = "0000000000000000" /\
  hex_fixed 4 0xbeef = "beef".
Proof. repeat split. Qed.

Lemma land_single_bit (m k : Z) :
  0 <= k -> (Z.land m (Z.shiftl 1 k) =? 0) = negb (Z.testbit m k).
Proof.
  intros Hk. rewrite Z.shiftl_1_l.
  destruct (Z.testbit m k) eqn:Hb; simpl.
  - apply Z.eqb_neq. intros H0.
    assert (H : Z.testbit (Z.land m (2 ^ k)) k = true)
      by (rewrite Z.land_spec, Hb, Z.pow2_bits_true by lia; reflexivity).
    rewrite H0, Z.bits_0 in H. discriminate.
  - apply Z.eqb_eq, Z.bits_inj'. intros n Hn.
    rewrite Z.land_spec, Z.bits_0, Z.pow2_bits_eqb by lia.
    destruct (Z.eqb_spec k n) as [->|Hne]; [now rewrite Hb|apply andb_false_r].
Qed.

Lemma flag_as_bits (m : Z) :
  (Z.land m (Z.shiftl 1 0) =? 0) && (Z.land m (Z.shiftl 1 10) =? 0) = no_network_bits m.
Proof. unfold no_network_bits. now rewrite !land_single_bit by lia. Qed.

(** ** Which rows are highlighted *)

Ltac step_bind H :=
  match type of H with
  | bind ?x _ = Ok _ =>
      let v := fresh "v" in let E := fresh "E" in
      destruct x as [v|] eqn:E; [cbn [bind] in H|discriminate H]
  end.

(** X2.  A row built by [build_peer_table] (peers_monitor.py,
    peers_rich2.py, peers_rich.py) comes from a services field that is
    hexadecimal text, and it is highlighted exactly when neither bit 0
    (NETWORK) nor bit 10 (NETWORK_LIMITED) of the flags is set; a peer
    without a services field is highlighted. *)
Theorem highlighted_iff_no_network_bits (utcoffset : Z -> Z) (py_repr : pyval -> string)
    (now : Z) (p : peer) (r : row) :
  PeersMonitor.build_row utcoffset py_repr now p = Ok r \/
  PeersRich2.build_row utcoffset py_repr now p = Ok r \/
  PeersRich.build_row utcoffset py_repr now p = Ok r ->
  exists s m,
    dict_get p "services" (PStr "0") = PStr s /\
    PyInt.of_hex s = Ok m /\
    highlighted r = no_network_bits m /\
    (p !! "services" = None -> highlighted r = true).
Proof.
  intros H.
  assert (Hdec : exists s m,
             dict_get p "services" (PStr "0") = PStr s /\ PyInt.of_hex s = Ok m /\
             highlighted r =
               (Z.land m (Z.shiftl 1 0) =? 0) && (Z.land m (Z.shiftl 1 10) =? 0)).
  { destruct H as [H|[H|H]].
    - unfold PeersMonitor.build_row, PeersMonitor.decode_services, PyInt.int16 in H.
      destruct (dict_get p "services" (PStr "0")) as [| | | |s| |]; try discriminate H.
      destruct (PyInt.of_hex s) as [m|] eqn:Hm; [|discriminate H].
      exists s, m. split; [reflexivity|]. split; [exact Hm|].
      cbn [bind] in H. rewrite <- monitor_flag_behaviour.
      repeat step_bind H. inversion H. reflexivity.
    - unfold PeersRich2.build_row, PeersRich2.decode_services,
        PeersMonitor.decode_services, PyInt.int16 in H.
      destruct (dict_get p "services" (PStr "0")) as [| | | |s| |]; try discriminate H.
      destruct (PyInt.of_hex s) as [m|] eqn:Hm; [|discriminate H].
      exists s, m. split; [reflexivity|]. split; [exact Hm|].
      cbn [bind] in H. rewrite <- monitor_flag_behaviour.
      repeat step_bind H. inversion H. reflexivity.
    - unfold PeersRich.build_row, PeersRich.decode_services, PyInt.int16 in H.
      destruct (dict_get p "services" (PStr "0")) as [| | | |s| |]; try discriminate H.
      destruct (PyInt.of_hex s) as [m|] eqn:Hm; [|discriminate H].
      exists s, m. split; [reflexivity|]. split; [exact Hm|].
      cbn [bind] in H. rewrite <- rich_flag_behaviour.
      repeat step_bind H. inversion H. reflexivity. }
  destruct Hdec as [s [m [Hs [Hm Hflag]]]].
  exists s, m. split; [exact Hs|]. split; [exact Hm|].
  rewrite flag_as_bits in Hflag. split; [exact Hflag|].
  intros Hnone. unfold dict_get in Hs. rewrite Hnone in Hs.
  inversion Hs; subst s. vm_compute in Hm. inversion Hm; subst m.
  rewrite Hflag. reflexivity.
Qed.

Lemma highlighted_iff_no_network_bits_witness :
  exists s m,
    dict_get limited_peer "services" (PStr "0") = PStr s /\
    PyInt.of_hex s = Ok m /\
    false = no_network_bits m /\
    (limited_peer !! "services" = None -> false = true).
Proof.
  apply (highlighted_iff_no_network_bits utc no_repr (1700003661 * 1000000) limited_peer
           (mk_row ["7"; "01:01:01"; "W, N_L"; "/Satoshi:25.0.0/"; "70016";
                    "1.00 MB"; "2.50 MB"; "0.125"; ""; "Yes"] false)).
  left. vm_compute. reflexivity.
Defined.

Ltac key_present :=
  match goal with
  | E : getitem ?p ?k = Ok _ |- is_Some (?p !! ?k) =>
      unfold getitem in E; destruct (p !! k); [eauto|discriminate E]
  end.

(** ** The fields a row cannot do without *)

(** X3.  A row is built only for a peer record that holds every field
    the script reads without a default: [id], [bytessent], [bytesrecv],
    [inbound] and [relaytxes] in peers_monitor.py; also [subver] and
    [version] in peers_rich2.py; also [addr], [synced_headers] and
    [synced_blocks] in peers_rich.py and peers.py; and these with
    [services] and [conntime] in peerinfo2.py. *)
Theorem rows_need_their_fields (utcoffset : Z -> Z) (py_repr : pyval -> string)
    (now : Z) (p : peer) :
  (forall r, PeersMonitor.build_row utcoffset py_repr now p = Ok r ->
     Forall (fun k => is_Some (p !! k))
       ["id"; "bytessent"; "bytesrecv"; "inbound"; "relaytxes"]) /\
  (forall r, PeersRich2.build_row utcoffset py_repr now p = Ok r ->
     Forall (fun k => is_Some (p !! k))
       ["id"; "subver"; "version"; "bytessent"; "bytesrecv"; "inbound"; "relaytxes"]) /\
  (forall r, PeersRich.build_row utcoffset py_repr now p = Ok r ->
     Forall (fun k => is_Some (p !! k))
       ["id"; "addr"; "subver"; "version"; "bytessent"; "bytesrecv"; "inbound";
        "synced_headers"; "synced_blocks"; "relaytxes"]) /\
  (forall cells, Peers.format_peer_data utcoffset now p = Ok cells ->
     Forall (fun k => is_Some (p !! k))
       ["id"; "addr"; "subver"; "version"; "bytessent"; "bytesrecv"; "inbound";
        "synced_headers"; "synced_blocks"; "relaytxes"]) /\
  (forall cells, PeerInfo2.format_peer p = Ok cells ->
     Forall (fun k => is_Some (p !! k))
       ["services"; "id"; "addr"; "conntime"; "subver"; "version"; "bytessent";
        "bytesrecv"; "inbound"; "synced_headers"; "synced_blocks"; "relaytxes"]).
Proof.
  repeat split; intros r H.
  - unfold PeersMonitor.build_row in H. repeat step_bind H.
    repeat (constructor; [key_present|]). constructor.
  - unfold PeersRich2.build_row in H. repeat step_bind H.
    repeat (constructor; [key_present|]). constructor.
  - unfold PeersRich.build_row in H. repeat step_bind H.
    repeat (constructor; [key_present|]). constructor.
  - unfold Peers.format_peer_data in H. repeat step_bind H.
    repeat (constructor; [key_present|]). constructor.
  - unfold PeerInfo2.format_peer in H. repeat step_bind H.
    repeat (constructor; [key_present|]). constructor.
Qed.

Lemma rows_need_their_fields_witness :
  Forall (fun k => is_Some (limited_peer !! k))
    ["id"; "bytessent"; "bytesrecv"; "inbound"; "relaytxes"].
Proof.
  destruct (rows_need_their_fields utc no_repr (1700003661 * 1000000) limited_peer)
    as [H _].
  apply (H (mk_row ["7"; "01:01:01"; "W, N_L"; "/Satoshi:25.0.0/"; "70016";
                    "1.00 MB"; "2.50 MB"; "0.125"; ""; "Yes"] false)).
  vm_compute. reflexivity.
Defined.

(** ** Truncation: length and idempotence *)

Lemma take_take (n : nat) (s t : string) :
  (n <= String.length s)%nat -> Str.take n (Str.take n s +:+ t) = Str.take n s.
Proof.
  revert n. induction s as [|c s IH]; intros [|n] H; simpl in *; try reflexivity.
  - lia.
  - f_equal. apply IH. lia.
Qed.

(** X4.  For a width [N] that is not negative, the result of
    [truncate_with_ellipsis] has at most [N + 3] characters, truncating it
    again changes nothing, and a string of [N + 1] or [N + 2] characters
    comes out longer than it went in. *)
Theorem truncate_bounded_and_idempotent (s : string) (N : Z) :
  0 <= N ->
  Str.len (PeersMonitor.truncate_with_ellipsis s N) <= N + 3 /\
  PeersMonitor.truncate_with_ellipsis (PeersMonitor.truncate_with_ellipsis s N) N =
    PeersMonitor.truncate_with_ellipsis s N /\
  (N < Str.len s <= N + 2 ->
   Str.len s < Str.len (PeersMonitor.truncate_with_ellipsis s N)) /\
  PeersRich2.truncate_with_ellipsis s N = PeersMonitor.truncate_with_ellipsis s N.
Proof.
  intros HN.
  destruct (Z.le_gt_cases (Str.len s) N) as [Hs|Hs].
  - rewrite !(truncate_short s N Hs).
    repeat split; try lia. exact (truncate_short s N Hs).
  - destruct (truncate_long s N HN Hs) as [Heq Hlen].
    split; [lia|]. split; [|split; [lia|reflexivity]].
    rewrite Heq at 2.
    destruct (truncate_long (PeersMonitor.truncate_with_ellipsis s N) N HN) as [Heq2 _];
      [lia|].
    rewrite Heq2. rewrite Heq at 1.
    rewrite take_take; [reflexivity|]. unfold Str.len in Hs. lia.
Qed.

Lemma truncate_bounded_and_idempotent_witness :
  Str.len (PeersMonitor.truncate_with_ellipsis "/Satoshi:25.0.0(very long comment)/" 20) <= 20 + 3.
Proof.
  apply (truncate_bounded_and_idempotent "/Satoshi:25.0.0(very long comment)/" 20).
  lia.
Defined.

(** ** Ping times given as text *)

(** X5.  [format_pingtime] never raises on a string: it returns ["N/A"]
    for the text ["N/A"] and for any text that [float] rejects, and the
    number with three decimals otherwise; the four scripts agree. *)
Theorem format_pingtime_total_on_strings (s : string) :
  exists out,
    PeersMonitor.format_pingtime (PStr s) = Ok out /\
    PeersRich.format_pingtime (PStr s) = Ok out /\
    PeersRich2.format_pingtime (PStr s) = Ok out /\
    Peers.format_pingtime (PStr s) = Ok out /\
    (s = "N/A" -> out = "N/A") /\
    (F64.of_string s = Raise ValueError -> out = "N/A") /\
    (forall x, s <> "N/A" -> F64.of_string s = Ok x -> out = F64.format_fixed 3 x).
Proof.
  unfold PeersRich2.format_pingtime, PeersMonitor.format_pingtime,
    PeersRich.format_pingtime, Peers.format_pingtime. simpl.
  destruct (String.eqb_spec s "N/A") as [->|Hne].
  - exists "N/A". repeat split; try reflexivity. intros x H. contradiction.
  - destruct (F64.of_string s) as [x|e] eqn:Hx.
    + exists (F64.format_fixed 3 x). repeat split; congruence.
    + apply of_string_raises_value_error in Hx. subst e.
      exists "N/A". repeat split; congruence.
Qed.

(** ** The address handed to [setban] *)

Lemma contains_colon_cons (a : ascii) (s : string) :
  Str.contains ":" (String a s) = Ascii.eqb a ":" || Str.contains ":" s.
Proof.
  cbn [Str.contains Str.is_prefix].
  now rewrite andb_true_r, Ascii.eqb_sym.
Qed.

Lemma before_first_split (s : string) :
  exists rest,
    s = Str.before_first ":" s +:+ rest /\
    Str.contains ":" (Str.before_first ":" s) = false /\
    (rest = "" \/ exists r, rest = String ":" r) /\
    (Str.contains ":" s = false -> Str.before_first ":" s = s).
Proof.
  induction s as [|a s [rest [Heq [Hno [Hrest Hid]]]]].
  - exists "". repeat split; auto.
  - cbn [Str.before_first]. rewrite contains_colon_cons.
    destruct (Ascii.eqb_spec a ":") as [->|Ha].
    + exists (String ":" s). repeat split; eauto. discriminate.
    + exists rest. split; [|split; [|split]].
      * change (String a s = String a (Str.before_first ":" s +:+ rest)).
        now rewrite <- Heq.
      * rewrite contains_colon_cons.
        destruct (Ascii.eqb_spec a ":"); [contradiction|exact Hno].
      * exact Hrest.
      * simpl. intros H. now rewrite Hid.
Qed.

(** X6.  [ban_peer] bans the part of the address before its first colon:
    that part has no colon, the address is this part followed by nothing
    or by a colon and the rest, and the only command run is
    [bitcoin-cli setban <part> add].  An address without a colon is
    passed whole. *)
Theorem ban_target_stops_at_first_colon (setban : string -> Peers.run_outcome)
    (addr : string) :
  (exists rest,
      addr = Peers.ban_target addr +:+ rest /\
      Str.contains ":" (Peers.ban_target addr) = false /\
      (rest = "" \/ exists r, rest = String ":" r) /\
      (Str.contains ":" addr = false -> Peers.ban_target addr = addr)) /\
  (forall argv, In (Peers.EvRun argv) (Peers.ban_peer setban (PStr addr)) ->
      argv = ["bitcoin-cli"; "setban"; Peers.ban_target addr; "add"]) /\
  In (Peers.EvRun ["bitcoin-cli"; "setban"; Peers.ban_target addr; "add"])
     (Peers.ban_peer setban (PStr addr)).
Proof.
  split; [apply before_first_split|]. split.
  - intros argv. unfold Peers.ban_peer.
    destruct (setban _); simpl; intros [H|[H|[]]]; congruence.
  - unfold Peers.ban_peer. destruct (setban _); simpl; auto.
Qed.

(** ** [analyze_peers] over a list *)

(** X7.  [analyze_peers] treats the peers one after the other: the
    events of a list are those of its first part followed by those of the
    rest, and an exception in the first part ends the analysis with the
    events produced so far. *)
Theorem analyze_peers_in_order (setban : string -> Peers.run_outcome)
    (before after : list peer) :
  Peers.analyze_peers setban (before ++ after) =
  match Peers.analyze_peers setban before with
  | (evs, Ok _) =>
      let '(evs', r) := Peers.analyze_peers setban after in (evs ++ evs', r)
  | (evs, Raise e) => (evs, Raise e)
  end.
Proof.
  induction before as [|p before IH]; simpl.
  - now destruct (Peers.analyze_peers setban after).
  - destruct (Peers.peer_action p) as [a|e]; [|reflexivity].
    rewrite IH.
    destruct (Peers.analyze_peers setban before) as [evs [[]|e]].
    + destruct (Peers.analyze_peers setban after) as [evs' r].
      now rewrite app_assoc.
    + reflexivity.
Qed.

(** X8.  The services of a peer are decoded before its banscore is
    looked at: a peer whose services field is not hexadecimal makes
    [analyze_peers] raise [ValueError] whatever its banscore, no command
    is run for it, and the peers after it are not examined. *)
Theorem undecodable_services_stop_analysis (setban : string -> Peers.run_outcome)
    (p : peer) (ip : pyval) (s : string) (rest : list peer) :
  p !! "addr" = Some ip ->
  p !! "services" = Some (PStr s) ->
  PyInt.of_hex s = Raise ValueError ->
  Peers.peer_action p = Raise ValueError /\
  Peers.analyze_peers setban (p :: rest) = ([], Raise ValueError).
Proof.
  intros Ha Hs Hbad.
  assert (Hact : Peers.peer_action p = Raise ValueError).
  { unfold Peers.peer_action, getitem, dict_get, Peers.decode_services.
    rewrite Ha, Hs. simpl. now rewrite Hbad. }
  split; [exact Hact|]. simpl. now rewrite Hact.
Qed.

Lemma undecodable_services_stop_analysis_witness :
  Peers.analyze_peers (fun _ => Peers.Completed 0 "")
    [<["services" := PStr "zz"]> (<["banscore" := PInt 1000]> limited_peer);
     <["banscore" := PInt 1000]> limited_peer] = ([], Raise ValueError).
Proof.
  apply (undecodable_services_stop_analysis (fun _ => Peers.Completed 0 "")
           (<["services" := PStr "zz"]> (<["banscore" := PInt 1000]> limited_peer))
           (PStr "203.0.113.5:8333") "zz"
           [<["banscore" := PInt 1000]> limited_peer]);
    vm_compute; reflexivity.
Defined.

(** ** How many peers are banned and warned about *)


Lemma count_cons {A : Type} (f : A -> bool) (x : A) (l : list A) :
  count f (x :: l) = ((if f x then 1 else 0) + count f l)%nat.
Proof. unfold count. simpl. now destruct (f x). Qed.

Lemma count_app {A : Type} (f : A -> bool) (a b : list A) :
  count f (a ++ b) = (count f a + count f b)%nat.
Proof. unfold count. now rewrite List.filter_app, List.length_app. Qed.

Lemma readable_action (p : peer) :
  readable p = true ->
  exists a n m,
    addr_field p = Some a /\ banscore_field p = Some n /\ services_field p = Some m /\
    Peers.peer_action p =
    Ok (if 100 <? n then Peers.RequestBan (PStr a) (PInt n)
        else if no_network_bits m then Peers.Warn (PStr a) else Peers.NoAction).
Proof.
  unfold readable, addr_field, banscore_field, services_field.
  destruct (p !! "addr") as [[| | | |a| |]|] eqn:Ha; try discriminate.
  destruct (dict_get p "banscore" (PInt 0)) as [| |n| | | |] eqn:Hb; try discriminate.
  destruct (dict_get p "services" (PStr "0")) as [| | | |s| |] eqn:Hs; try discriminate.
  destruct (PyInt.of_hex s) as [m|] eqn:Hm; try discriminate.
  intros _. exists a, n, m. repeat split.
  rewrite (peer_action_cases p (PStr a) s m n Ha Hs Hm Hb).
  unfold Peers.NODE_NETWORK, Peers.NODE_NETWORK_LIMITED.
  now rewrite (flag_as_bits m).
Qed.

(** X9.  On peer records of the usual form (address text, integer
    banscore or none, hexadecimal services or none) [analyze_peers]
    returns normally, runs [setban] once for each peer whose banscore
    exceeds 100, and prints the warning once for each other peer that has
    neither the NETWORK nor the NETWORK_LIMITED bit. *)
Theorem analyze_peers_counts (setban : string -> Peers.run_outcome) (peers : list peer) :
  forallb readable peers = true ->
  exists tr,
    Peers.analyze_peers setban peers = (tr, Ok tt) /\
    count is_setban tr = count over_threshold peers /\
    count is_warning tr =
      count (fun p => negb (over_threshold p) && lacks_network p) peers.
Proof.
  induction peers as [|p peers IH]; intros Hall.
  - exists []. repeat split.
  - simpl in Hall. apply andb_prop in Hall as [Hp Hall].
    destruct (IH Hall) as [tr [Htr [Hban Hwarn]]].
    destruct (readable_action p Hp) as [a [n [m [Ha [Hn [Hm Hact]]]]]].
    cbn [Peers.analyze_peers]. rewrite Hact, Htr.
    eexists. split; [reflexivity|].
    assert (Ho : over_threshold p = (100 <? n))
      by (unfold over_threshold; now rewrite Hn).
    assert (Hl : lacks_network p = no_network_bits m)
      by (unfold lacks_network; now rewrite Hm).
    rewrite !count_app, !count_cons, Ho, Hl, Hban, Hwarn.
    destruct (100 <? n); cbn [Peers.perform negb andb].
    + unfold Peers.ban_peer.
      destruct (setban _) as [rc err|e]; [destruct (rc =? 0)|]; split; reflexivity.
    + destruct (no_network_bits m); split; reflexivity.
Qed.

Lemma analyze_peers_counts_witness :
  exists tr,
    Peers.analyze_peers (fun _ => Peers.Completed 0 "")
      [limited_peer; <["banscore" := PInt 101]> limited_peer;
       delete "services" limited_peer] = (tr, Ok tt) /\
    count is_setban tr = 1%nat /\ count is_warning tr = 1%nat.
Proof.
  destruct (analyze_peers_counts (fun _ => Peers.Completed 0 "")
              [limited_peer; <["banscore" := PInt 101]> limited_peer;
               delete "services" limited_peer]) as [tr [Htr [Hb Hw]]].
  - vm_compute. reflexivity.
  - exists tr. split; [exact Htr|].
    split; [rewrite Hb|rewrite Hw]; vm_compute; reflexivity.
Defined.

(** ** Keys typed ahead of the quit key *)

Section TypeAhead.

Variable utcoffset : Z -> Z.
Variable w : Peers.world.

Lemma count_naps_app (a b : list Peers.event) :
  count_naps (a ++ b) = (count_naps a + count_naps b)%nat.
Proof. unfold count_naps. now rewrite List.filter_app, List.length_app. Qed.

Lemma count_naps_window (keys : list Z) : count_naps (window keys) = List.length keys.
Proof.
  induction keys as [|k keys IH]; [reflexivity|].
  change (count_naps (window (k :: keys))) with (S (count_naps (window keys))).
  now rewrite IH.
Qed.

Lemma count_naps_head (c : nat) : count_naps (cycle_head utcoffset w c) = 0%nat.
Proof.
  unfold cycle_head, Peers.redraw, Peers.attempt, Peers.addstr, Peers.get_peer_info.
  destruct (Peers.fetch w c) as [peers|rc|e]; cbn [bind];
    try destruct (Peers.format_peer_info _ _ _) as [table_data|e'];
    try destruct (Peers.tabulate w _);
    try destruct (Peers.fits w c Peers.Title);
    try destruct (Peers.fits w c (Peers.TableText _));
    reflexivity.
Qed.

(** A window whose queue starts with as many keys other than the quit key
    as it has checks reads exactly these, one per check. *)
Lemma wait_consumes (c n j : nat) (pre tail : list Z) :
  ~ In Peers.ord_q pre -> List.length pre = n ->
  exists extra,
    Peers.wait w c n j (pre ++ tail) = (window pre, Some (tail ++ extra)).
Proof.
  revert n j tail. induction pre as [|k pre IH]; intros n j tail Hq Hlen.
  - subst n. exists []. simpl. now rewrite app_nil_r.
  - destruct n as [|n]; [discriminate|]. simpl in Hlen.
    cbn [Peers.wait Peers.getch app].
    destruct (Z.eqb_spec k Peers.ord_q) as [->|Hk]; [exfalso; apply Hq; now left|].
    rewrite <- app_assoc.
    destruct (IH n (S j) (tail ++ Peers.typed w c (S j))) as [extra Hw];
      [intros H; apply Hq; now right|lia|].
    rewrite Hw. exists (Peers.typed w c (S j) ++ extra).
    now rewrite <- app_assoc.
Qed.

(** The quit key behind fewer keys than the window has checks is read in
    this window, after one sleep for each key before it. *)
Lemma wait_reaches_quit (c n j : nat) (pre rest : list Z) :
  ~ In Peers.ord_q pre -> (List.length pre < n)%nat ->
  Peers.wait w c n j (pre ++ Peers.ord_q :: rest) =
  (window pre ++ [Peers.EvGetCh Peers.ord_q], None).
Proof.
  revert n j rest. induction pre as [|k pre IH]; intros n j rest Hq Hlen.
  - destruct n as [|n]; [simpl in Hlen; lia|]. reflexivity.
  - destruct n as [|n]; [simpl in Hlen; lia|]. simpl in Hlen.
    cbn [Peers.wait Peers.getch app].
    destruct (Z.eqb_spec k Peers.ord_q) as [->|Hk]; [exfalso; apply Hq; now left|].
    rewrite <- app_assoc. cbn [app].
    rewrite IH; [reflexivity|intros H; apply Hq; now right|lia].
Qed.

Lemma run_from_type_ahead (m c : nat) (buf pre rest : list Z) :
  buf ++ Peers.typed w c 0 = pre ++ Peers.ord_q :: rest ->
  ~ In Peers.ord_q pre ->
  (m * polls <= List.length pre < S m * polls)%nat ->
  forall k, exists tr,
    Peers.run_from utcoffset w (S m + k) c buf =
      (tr ++ [Peers.EvGetCh Peers.ord_q], Peers.Returned) /\
    count_fetches tr = S m /\ count_naps tr = List.length pre.
Proof.
  revert c buf pre rest. induction m as [|m IH]; intros c buf pre rest Hbuf Hq Hlen k.
  - change (1 + k)%nat with (S k). rewrite run_from_S, Hbuf.
    rewrite wait_reaches_quit by (auto; lia).
    exists (cycle_head utcoffset w c ++ window pre). split; [now rewrite <- app_assoc|].
    split.
    + now rewrite count_fetches_app, count_fetches_head, count_fetches_window.
    + now rewrite count_naps_app, count_naps_head, count_naps_window.
  - change (S (S m) + k)%nat with (S (S m + k)). rewrite run_from_S, Hbuf.
    assert (Hp : polls = 50%nat) by reflexivity.
    pose proof (List.firstn_skipn polls pre) as Hsplit.
    assert (Hl1 : List.length (List.firstn polls pre) = polls)
      by (rewrite List.length_firstn; lia).
    assert (Hl2 : List.length (List.skipn polls pre) = (List.length pre - polls)%nat)
      by apply List.length_skipn.
    assert (Hq1 : ~ In Peers.ord_q (List.firstn polls pre))
      by (intros H; apply Hq; rewrite <- Hsplit; apply in_or_app; now left).
    assert (Hq2 : ~ In Peers.ord_q (List.skipn polls pre))
      by (intros H; apply Hq; rewrite <- Hsplit; apply in_or_app; now right).
    set (pre1 := List.firstn polls pre) in *.
    set (pre2 := List.skipn polls pre) in *.
    rewrite <- Hsplit, <- app_assoc.
    destruct (wait_consumes c polls 0 pre1 (pre2 ++ Peers.ord_q :: rest) Hq1 Hl1)
      as [extra Hw].
    rewrite Hw.
    destruct (IH (S c) ((pre2 ++ Peers.ord_q :: rest) ++ extra) pre2
                (rest ++ extra ++ Peers.typed w (S c) 0)) with (k := k)
      as [tr [Hrun [Hf Hn]]].
    + now rewrite <- !app_assoc.
    + exact Hq2.
    + lia.
    + rewrite Hrun.
      exists (cycle_head utcoffset w c ++ window pre1 ++ tr).
      split; [now rewrite <- !app_assoc|]. split.
      * rewrite !count_fetches_app, count_fetches_head, count_fetches_window, Hf. lia.
      * rewrite !count_naps_app, count_naps_head, count_naps_window, Hn, Hl1, Hl2.
        rewrite <- Hsplit, List.length_app, Hl1, Hl2. lia.
Qed.

End TypeAhead.

(** X10.  Keys typed before the quit key are read one per check and
    otherwise ignored: when the quit key is typed behind [n] other keys
    while a cycle is drawn, [display_real_time] returns after [n] more
    sleeps of 100 ms, which takes [n / 50] further refresh cycles and
    their fetches. *)
Theorem quit_waits_behind_typed_keys (utcoffset : Z -> Z) (w : Peers.world)
    (c : nat) (pre rest : list Z) :
  (forall c' j, (c' < c)%nat -> Peers.typed w c' j = []) ->
  Peers.typed w c 0 = pre ++ Peers.ord_q :: rest ->
  ~ In Peers.ord_q pre ->
  forall cycles, (c + List.length pre / polls < cycles)%nat ->
    exists before after,
      Peers.display_real_time utcoffset w cycles =
        (before ++ after ++ [Peers.EvGetCh Peers.ord_q], Peers.Returned) /\
      count_fetches before = c /\
      count_fetches after = S (List.length pre / polls) /\
      count_naps after = List.length pre.
Proof.
  intros Hbefore Htyped Hq cycles Hc.
  unfold Peers.display_real_time.
  set (m := (List.length pre / polls)%nat) in *.
  replace cycles with (c + (S m + (cycles - c - S m)))%nat by lia.
  rewrite run_from_add.
  destruct (run_from_silent utcoffset w c 0) as [before [-> Hcount]];
    [intros c' j Hc'; apply Hbefore; lia|].
  rewrite Nat.add_0_l.
  assert (Hp : polls = 50%nat) by reflexivity.
  assert (Hm : (m * polls <= List.length pre < S m * polls)%nat).
  { unfold m. rewrite Hp.
    pose proof (Nat.div_mod_eq (List.length pre) 50).
    pose proof (Nat.mod_upper_bound (List.length pre) 50). lia. }
  destruct (run_from_type_ahead utcoffset w m c [] pre rest Htyped Hq Hm
              (cycles - c - S m)%nat) as [after [Hrun [Hf Hn]]].
  rewrite Hrun. exists before, after. repeat split; assumption.
Qed.

Lemma quit_waits_behind_typed_keys_witness :
  exists before after,
    Peers.display_real_time utc type_ahead_world 1 =
      (before ++ after ++ [Peers.EvGetCh Peers.ord_q], Peers.Returned) /\
    count_fetches before = 0%nat /\
    count_fetches after = S (List.length [120; 121] / polls) /\
    count_naps after = List.length [120; 121].
Proof.
  apply (quit_waits_behind_typed_keys utc type_ahead_world 0 [120; 121] []).
  - intros c' j Hc'. lia.
  - reflexivity.
  - vm_compute. intuition discriminate.
  - vm_compute. lia.
Defined.

(** ** The screen loop of the scripts built on [rich] *)

Section ScreenLoopFacts.

Variable get_peer_info : run_result -> result (list peer).
Variable build_peer_table : (nat -> Z) -> list peer -> result table.
Variable period : Z.
Variable w : feed.

Let loop := screen_loop get_peer_info build_peer_table period w.
Let shown := frame get_peer_info build_peer_table w.

Lemma screen_loop_add (a b c : nat) :
  loop (a + b)%nat c =
  match loop a c with
  | (tr, Running) => let '(tr', x) := loop b (c + a)%nat in (tr ++ tr', x)
  | other => other
  end.
Proof.
  unfold loop. revert c. induction a as [|a IH]; intros c.
  - rewrite Nat.add_0_l, Nat.add_0_r. cbn [screen_loop app].
    now destruct (screen_loop _ _ _ w b c).
  - change (S a + b)%nat with (S (a + b)). cbn [screen_loop].
    destruct (interrupt w c) as [[| |]|];
      destruct (get_peer_info (ran w c)) as [peers|e]; try reflexivity;
      destruct (build_peer_table (readings w c) peers) as [t|e]; try reflexivity.
    rewrite IH. replace (c + S a)%nat with (S c + a)%nat by lia.
    destruct (screen_loop _ _ _ w a (S c)) as [tr [| |]]; try reflexivity.
    now destruct (screen_loop _ _ _ w b (S c + a)%nat).
Qed.

(** While nothing fails and no interrupt arrives the loop goes on. *)
Lemma screen_loop_steady (k c : nat) :
  (forall c', (c <= c' < c + k)%nat ->
     interrupt w c' = None /\ exists t, shown c' = Ok t) ->
  exists tr,
    loop k c = (tr, Running) /\
    count is_update tr = k /\ count is_print tr = 0%nat /\
    tr = flat_map (fun c' => match shown c' with
                             | Ok t => full_cycle period t
                             | Raise _ => []
                             end) (seq c k).
Proof.
  unfold loop, shown, frame. revert c. induction k as [|k IH]; intros c Hok.
  - exists []. repeat split.
  - destruct (Hok c) as [Hi [t Ht]]; [lia|].
    destruct (IH (S c)) as [tr [Hrun [Hu [Hp Htr]]]];
      [intros c' Hc'; apply Hok; lia|].
    cbn [screen_loop seq flat_map]. rewrite Hi, Ht.
    destruct (get_peer_info (ran w c)) as [peers|e]; [|discriminate Ht].
    cbn [bind] in Ht |- *. rewrite Ht, Hrun.
    eexists. split; [reflexivity|]. rewrite <- Htr.
    repeat split; unfold count in *; simpl; lia.
Qed.

(** One cycle, when no interrupt has arrived before it. *)
Lemma screen_loop_crash_now (k c : nat) (e : exn) :
  interrupt w c = None -> shown c = Raise e ->
  loop (S k) c = ([ScRun ["bitcoin-cli"; "getpeerinfo"]], Crashed e).
Proof.
  unfold loop, shown, frame. intros Hi He. cbn [screen_loop]. rewrite Hi.
  destruct (get_peer_info (ran w c)) as [peers|e']; cbn [bind] in He.
  - now rewrite He.
  - now inversion He.
Qed.

Lemma screen_loop_interrupt_now (k c : nat) (ph : phase) :
  interrupt w c = Some ph ->
  (ph = InFetch \/ exists t, shown c = Ok t) ->
  exists tr,
    loop (S k) c = (tr ++ [ScPrint "[bold red]Exiting...[/bold red]"], Exited) /\
    count is_update tr = (match ph with InSleep => 1 | _ => 0 end)%nat /\
    count is_print tr = 0%nat.
Proof.
  unfold loop, shown, frame. intros Hi Hok. cbn [screen_loop]. rewrite Hi.
  destruct ph.
  - exists [ScRun ["bitcoin-cli"; "getpeerinfo"]]. repeat split.
  - destruct Hok as [Hok|[t Ht]]; [discriminate|].
    destruct (get_peer_info (ran w c)) as [peers|e]; [|discriminate Ht].
    exists [ScRun ["bitcoin-cli"; "getpeerinfo"]]. repeat split.
  - destruct Hok as [Hok|[t Ht]]; [discriminate|].
    destruct (get_peer_info (ran w c)) as [peers|e]; [|discriminate Ht].
    cbn [bind] in Ht. rewrite Ht.
    exists [ScRun ["bitcoin-cli"; "getpeerinfo"]; ScUpdate t; ScSleep period].
    repeat split.
Qed.

(** X12.  In the loops of the scripts built on [rich], the first cycle
    whose fetch or table construction raises ends the program with that
    exception: the cycles before it each updated the screen, the failing
    one does not, and the farewell message is not printed. *)
Theorem screen_loop_dies_on_first_failure (c : nat) (e : exn) :
  (forall c', (c' < c)%nat -> interrupt w c' = None /\ exists t, shown c' = Ok t) ->
  interrupt w c = None -> shown c = Raise e ->
  forall cycles, (c < cycles)%nat ->
    exists tr,
      loop cycles 0 = (tr ++ [ScRun ["bitcoin-cli"; "getpeerinfo"]], Crashed e) /\
      count is_update tr = c /\ count is_print tr = 0%nat.
Proof.
  intros Hok Hi He cycles Hc.
  replace cycles with (c + S (cycles - S c))%nat by lia.
  rewrite screen_loop_add.
  destruct (screen_loop_steady c 0) as [tr [Hrun [Hu [Hp _]]]];
    [intros c' Hc'; apply Hok; lia|].
  rewrite Hrun, Nat.add_0_l, (screen_loop_crash_now _ c e Hi He).
  exists tr. repeat split; assumption.
Qed.

(** X13.  In the loops of the scripts built on [rich], a keyboard
    interrupt ends the program normally: the farewell message is the last
    thing printed, and the screen was updated once per completed cycle,
    and once more when the interrupt arrives during the sleep. *)
Theorem screen_loop_leaves_on_interrupt (c : nat) (ph : phase) :
  (forall c', (c' < c)%nat -> interrupt w c' = None /\ exists t, shown c' = Ok t) ->
  interrupt w c = Some ph ->
  (ph = InFetch \/ exists t, shown c = Ok t) ->
  forall cycles, (c < cycles)%nat ->
    exists tr,
      loop cycles 0 = (tr ++ [ScPrint "[bold red]Exiting...[/bold red]"], Exited) /\
      count is_update tr = (c + match ph with InSleep => 1 | _ => 0 end)%nat /\
      count is_print tr = 0%nat.
Proof.
  intros Hok Hi Hph cycles Hc.
  replace cycles with (c + S (cycles - S c))%nat by lia.
  rewrite screen_loop_add.
  destruct (screen_loop_steady c 0) as [tr [Hrun [Hu [Hp _]]]];
    [intros c' Hc'; apply Hok; lia|].
  rewrite Hrun, Nat.add_0_l.
  destruct (screen_loop_interrupt_now (cycles - S c) c ph Hi Hph) as [tr' [Hrun' [Hu' Hp']]].
  rewrite Hrun'. exists (tr ++ tr'). split; [now rewrite <- app_assoc|].
  unfold count in *. rewrite !List.filter_app, !List.length_app. lia.
Qed.

End ScreenLoopFacts.

(** X11.  As long as no interrupt arrives and every fetch and table
    construction succeeds, the loops of peers_monitor.py, peers_rich.py and
    peers_rich2.py repeat the same three steps (run [bitcoin-cli
    getpeerinfo], show the table, sleep) with a sleep of 15, 5 and 10
    seconds. *)
Theorem screen_loops_refresh_periodically (utcoffset : Z -> Z) (py_repr : pyval -> string)
    (json_loads : string -> result (list peer)) (w : feed) (k : nat) :
  (forall c, (c < k)%nat -> interrupt w c = None) ->
  ((forall c, (c < k)%nat -> exists t,
       frame (PeersMonitor.get_peer_info json_loads)
             (PeersMonitor.build_peer_table utcoffset py_repr) w c = Ok t) ->
   PeersMonitor.main utcoffset py_repr json_loads w k =
     (flat_map (fun c =>
        match frame (PeersMonitor.get_peer_info json_loads)
                    (PeersMonitor.build_peer_table utcoffset py_repr) w c with
        | Ok t => full_cycle 15 t
        | Raise _ => []
        end) (seq 0 k), Running)) /\
  ((forall c, (c < k)%nat -> exists t,
       frame (PeersRich.get_peer_info json_loads)
             (PeersRich.build_peer_table utcoffset py_repr) w c = Ok t) ->
   PeersRich.main utcoffset py_repr json_loads w k =
     (flat_map (fun c =>
        match frame (PeersRich.get_peer_info json_loads)
                    (PeersRich.build_peer_table utcoffset py_repr) w c with
        | Ok t => full_cycle 5 t
        | Raise _ => []
        end) (seq 0 k), Running)) /\
  ((forall c, (c < k)%nat -> exists t,
       frame (PeersRich2.get_peer_info json_loads)
             (PeersRich2.build_peer_table utcoffset py_repr) w c = Ok t) ->
   PeersRich2.main utcoffset py_repr json_loads w k =
     (flat_map (fun c =>
        match frame (PeersRich2.get_peer_info json_loads)
                    (PeersRich2.build_peer_table utcoffset py_repr) w c with
        | Ok t => full_cycle 10 t
        | Raise _ => []
        end) (seq 0 k), Running)).
Proof.
  intros Hi.
  repeat split; intros Hok;
    match goal with
    | |- ?main _ _ _ _ _ = _ => unfold main
    end;
    match goal with
    | |- screen_loop ?g ?b ?p _ _ _ = _ =>
        destruct (screen_loop_steady g b p w k 0) as [tr [Hrun [_ [_ Htr]]]];
          [intros c Hc; split; [apply Hi; lia|apply Hok; lia]|];
          rewrite Hrun, Htr; reflexivity
    end.
Qed.

Lemma screen_loops_refresh_periodically_witness :
  PeersMonitor.main utc no_repr loads_empty_array quiet_feed 2 =
  (full_cycle 15 (mk_table (add_columns PeersMonitor.headers PeersMonitor.right_align) []) ++
   full_cycle 15 (mk_table (add_columns PeersMonitor.headers PeersMonitor.right_align) []),
   Running).
Proof.
  destruct (screen_loops_refresh_periodically utc no_repr loads_empty_array quiet_feed 2)
    as [H _].
  - intros c Hc. reflexivity.
  - rewrite H; [reflexivity|].
    intros c Hc. eexists. reflexivity.
Defined.

Lemma screen_loop_dies_on_first_failure_witness :
  exists tr,
    PeersMonitor.main utc no_repr loads_empty_array failing_feed 3 =
      (tr ++ [ScRun ["bitcoin-cli"; "getpeerinfo"]], Crashed JSONDecodeError) /\
    count is_update tr = 1%nat /\ count is_print tr = 0%nat.
Proof.
  apply (screen_loop_dies_on_first_failure
           (PeersMonitor.get_peer_info loads_empty_array)
           (PeersMonitor.build_peer_table utc no_repr) 15 failing_feed 1 JSONDecodeError).
  - intros c' Hc'. assert (c' = 0%nat) as -> by lia.
    split; [reflexivity|]. eexists. reflexivity.
  - reflexivity.
  - reflexivity.
  - lia.
Defined.

Lemma screen_loop_leaves_on_interrupt_witness :
  exists tr,
    PeersMonitor.main utc no_repr loads_empty_array interrupted_feed 3 =
      (tr ++ [ScPrint "[bold red]Exiting...[/bold red]"], Exited) /\
    count is_update tr = (1 + 1)%nat /\ count is_print tr = 0%nat.
Proof.
  apply (screen_loop_leaves_on_interrupt
           (PeersMonitor.get_peer_info loads_empty_array)
           (PeersMonitor.build_peer_table utc no_repr) 15 interrupted_feed 1 InSleep).
  - intros c' Hc'. assert (c' = 0%nat) as -> by lia.
    split; [reflexivity|]. eexists. reflexivity.
  - reflexivity.
  - right. eexists. reflexivity.
  - lia.
Defined.

(** ** [peerinfo2.py] against the other scripts *)

Lemma peerinfo2_rows_raise (peers : list peer) (p : peer) :
  In p peers -> raises (PeerInfo2.format_peer p) ->
  raises (PeerInfo2.format_peer_info peers).
Proof.
  intros Hin Hp. induction peers as [|q rest IH]; [contradiction|].
  simpl. destruct Hin as [->|Hin].
  - destruct (PeerInfo2.format_peer p); simpl; [contradiction|exact I].
  - destruct (PeerInfo2.format_peer q); simpl; [|exact I].
    specialize (IH Hin).
    destruct (PeerInfo2.format_peer_info rest); simpl; [contradiction|exact I].
Qed.

(** X14.  No services value is accepted both by [translate_services] of
    peerinfo2.py, which needs an integer, and by [decode_services] of the
    other scripts, which needs text.  A list that holds a peer whose
    services field is text makes [format_peer_info] of peerinfo2.py raise,
    and [main] then prints nothing. *)
Theorem services_text_breaks_peerinfo2 (py_repr : pyval -> string) (v : pyval) :
  (forall tags, PeerInfo2.translate_value v = Ok tags ->
     PeersMonitor.decode_services v = Raise TypeError /\
     PeersRich.decode_services v = Raise TypeError /\
     PeersRich2.decode_services v = Raise TypeError /\
     Peers.decode_services v = Raise TypeError) /\
  (forall text,
     PeersMonitor.decode_services v = Ok text \/ PeersRich.decode_services v = Ok text \/
     PeersRich2.decode_services v = Ok text \/ Peers.decode_services v = Ok text ->
     PeerInfo2.translate_value v = Raise TypeError /\
     forall (p : peer), p !! "services" = Some v ->
       PeerInfo2.format_peer p = Raise TypeError /\
       forall peers returncode stderr, In p peers ->
         raises (PeerInfo2.format_peer_info peers) /\
         (returncode = 0 ->
          fst (PeerInfo2.main py_repr (PeerInfo2.Completed returncode (Ok peers) stderr)) = [] /\
          raises (snd (PeerInfo2.main py_repr
                         (PeerInfo2.Completed returncode (Ok peers) stderr))))).
Proof.
  split.
  - intros tags H. destruct v; try discriminate H; repeat split.
  - intros text H.
    assert (Hv : exists s, v = PStr s).
    { destruct v as [| | | |s| |];
        try (destruct H as [H|[H|[H|H]]]; discriminate H).
      now exists s. }
    destruct Hv as [s ->]. split; [reflexivity|].
    intros p Hp.
    assert (Hrow : PeerInfo2.format_peer p = Raise TypeError).
    { unfold PeerInfo2.format_peer, getitem. now rewrite Hp. }
    split; [exact Hrow|].
    intros peers rc stderr Hin.
    assert (Hall : raises (PeerInfo2.format_peer_info peers)).
    { apply (peerinfo2_rows_raise peers p Hin). now rewrite Hrow. }
    split; [exact Hall|].
    intros ->. unfold PeerInfo2.main, PeerInfo2.get_peer_info. simpl.
    destruct peers as [|q rest]; [contradiction|].
    destruct (PeerInfo2.format_peer_info (q :: rest)); [contradiction|].
    split; [reflexivity|exact I].
Qed.

Lemma services_text_breaks_peerinfo2_witness :
  PeerInfo2.translate_value (PStr "0000000000000409") = Raise TypeError /\
  PeersMonitor.decode_services (PInt 1033) = Raise TypeError.
Proof.
  destruct (services_text_breaks_peerinfo2 no_repr (PStr "0000000000000409")) as [_ H1].
  destruct (services_text_breaks_peerinfo2 no_repr (PInt 1033)) as [H2 _].
  split.
  - apply (H1 "N, W, N_L"). left. vm_compute. reflexivity.
  - apply (H2 ["NODE_NETWORK"; "NODE_WITNESS"]). vm_compute. reflexivity.
Defined.

(** ** What [main] of [peerinfo2.py] prints *)

Lemma peerinfo2_rows_length (peers : list peer) (table_data : list (list pyval)) :
  PeerInfo2.format_peer_info peers = Ok table_data ->
  List.length table_data = List.length peers /\
  Forall (fun row => List.length row = List.length PeerInfo2.headers) table_data.
Proof.
  revert table_data. induction peers as [|p rest IH]; intros td H.
  - inversion H. split; [reflexivity|constructor].
  - simpl in H.
    destruct (PeerInfo2.format_peer p) as [r|] eqn:Hr; [|discriminate H].
    destruct (PeerInfo2.format_peer_info rest) as [rs|]; [|discriminate H].
    inversion H; subst. destruct (IH rs eq_refl) as [Hlen Hall].
    split; [simpl; now rewrite Hlen|]. constructor; [|exact Hall].
    clear -Hr. unfold PeerInfo2.format_peer in Hr.
    repeat match type of Hr with
           | bind ?x _ = Ok _ => destruct x; [cbn [bind] in Hr|discriminate Hr]
           end.
    inversion Hr. reflexivity.
Qed.

(** X15.  [main] of peerinfo2.py prints the error line alone when
    [bitcoin-cli] exits with a status other than 0, nothing for an empty
    list of peers, nothing when an exception is raised, and otherwise the
    header line, the line of 150 dashes and one line per peer. *)
Theorem peerinfo2_prints_all_or_nothing (py_repr : pyval -> string)
    (returncode : Z) (loaded : result (list peer)) (stderr : string) :
  let o := PeerInfo2.Completed returncode loaded stderr in
  (returncode <> 0 ->
   PeerInfo2.main py_repr o = (["Error executing bitcoin-cli: " +:+ stderr], Ok tt)) /\
  (returncode = 0 -> loaded = Ok [] -> PeerInfo2.main py_repr o = ([], Ok tt)) /\
  (returncode = 0 -> forall out e, PeerInfo2.main py_repr o = (out, Raise e) -> out = []) /\
  (returncode = 0 -> forall peers out,
     loaded = Ok peers -> peers <> [] ->
     PeerInfo2.main py_repr o = (out, Ok tt) ->
     exists table_data,
       PeerInfo2.format_peer_info peers = Ok table_data /\
       out = Str.join " | " PeerInfo2.headers :: Str.repeat "-" 150 ::
             map (fun row => Str.join " | " (map (PeerInfo2.py_str py_repr) row)) table_data /\
       List.length out = (2 + List.length peers)%nat).
Proof.
  intros o. unfold o, PeerInfo2.main, PeerInfo2.get_peer_info.
  split; [|split; [|split]].
  - intros Hrc. destruct (Z.eqb_spec returncode 0); [contradiction|reflexivity].
  - intros -> ->. reflexivity.
  - intros -> out e. simpl.
    destruct loaded as [[|p rest]|e']; try discriminate.
    + destruct (PeerInfo2.format_peer_info (p :: rest)); [discriminate|].
      intros H. now inversion H.
    + intros H. now inversion H.
  - intros -> peers out -> Hne. simpl.
    destruct peers as [|p rest]; [contradiction|].
    destruct (PeerInfo2.format_peer_info (p :: rest)) as [td|] eqn:Htd; [|discriminate].
    intros H. inversion H; subst. exists td.
    split; [reflexivity|]. split; [reflexivity|].
    destruct (peerinfo2_rows_length _ _ Htd) as [Hlen _].
    cbn [app PeerInfo2.print_table List.length]. rewrite List.length_map, Hlen. reflexivity.
Qed.

Lemma peerinfo2_prints_all_or_nothing_witness :
  PeerInfo2.main no_repr (PeerInfo2.Completed 1 (Raise JSONDecodeError) "refused") =
  (["Error executing bitcoin-cli: refused"], Ok tt).
Proof.
  apply (peerinfo2_prints_all_or_nothing no_repr 1 (Raise JSONDecodeError) "refused").
  discriminate.
Defined.

(** ** The shape of the tables *)

Ltac row_length H :=
  repeat match type of H with
         | bind ?x _ = Ok _ => destruct x; [cbn [bind] in H|discriminate H]
         end;
  inversion H; reflexivity.

Lemma monitor_rows_shape utcoffset py_repr clock (peers : list peer) i (rs : list row) :
  PeersMonitor.build_rows utcoffset py_repr clock i peers = Ok rs ->
  Forall2 (fun p r => exists j, PeersMonitor.build_row utcoffset py_repr (clock j) p = Ok r)
          peers rs /\
  Forall (fun r => List.length (cells r) = 10%nat) rs.
Proof.
  revert i rs. induction peers as [|p rest IH]; intros i rs H.
  - inversion H. split; constructor.
  - simpl in H.
    destruct (PeersMonitor.build_row utcoffset py_repr (clock i) p) as [r|] eqn:Hr;
      [|discriminate H].
    destruct (PeersMonitor.build_rows utcoffset py_repr clock (S i) rest) as [rs'|] eqn:Hrs;
      [|discriminate H].
    inversion H; subst. destruct (IH _ _ Hrs) as [H2 Hall].
    split; constructor; eauto.
    clear -Hr. unfold PeersMonitor.build_row in Hr. row_length Hr.
Qed.

Lemma rich2_rows_shape utcoffset py_repr clock (peers : list peer) i (rs : list row) :
  PeersRich2.build_rows utcoffset py_repr clock i peers = Ok rs ->
  Forall2 (fun p r => exists j, PeersRich2.build_row utcoffset py_repr (clock j) p = Ok r)
          peers rs /\
  Forall (fun r => List.length (cells r) = 10%nat) rs.
Proof.
  revert i rs. induction peers as [|p rest IH]; intros i rs H.
  - inversion H. split; constructor.
  - simpl in H.
    destruct (PeersRich2.build_row utcoffset py_repr (clock i) p) as [r|] eqn:Hr;
      [|discriminate H].
    destruct (PeersRich2.build_rows utcoffset py_repr clock (S i) rest) as [rs'|] eqn:Hrs;
      [|discriminate H].
    inversion H; subst. destruct (IH _ _ Hrs) as [H2 Hall].
    split; constructor; eauto.
    clear -Hr. unfold PeersRich2.build_row in Hr. row_length Hr.
Qed.

Lemma rich_rows_shape utcoffset py_repr clock (peers : list peer) i (rs : list row) :
  PeersRich.build_rows utcoffset py_repr clock i peers = Ok rs ->
  Forall2 (fun p r => exists j, PeersRich.build_row utcoffset py_repr (clock j) p = Ok r)
          peers rs /\
  Forall (fun r => List.length (cells r) = 14%nat) rs.
Proof.
  revert i rs. induction peers as [|p rest IH]; intros i rs H.
  - inversion H. split; constructor.
  - simpl in H.
    destruct (PeersRich.build_row utcoffset py_repr (clock i) p) as [r|] eqn:Hr;
      [|discriminate H].
    destruct (PeersRich.build_rows utcoffset py_repr clock (S i) rest) as [rs'|] eqn:Hrs;
      [|discriminate H].
    inversion H; subst. destruct (IH _ _ Hrs) as [H2 Hall].
    split; constructor; eauto.
    clear -Hr. unfold PeersRich.build_row in Hr. row_length Hr.
Qed.

Lemma peers_rows_shape utcoffset clock (peers : list peer) i (rs : list (list pyval)) :
  Peers.format_rows utcoffset clock i peers = Ok rs ->
  Forall2 (fun p r => exists j, Peers.format_peer_data utcoffset (clock j) p = Ok r)
          peers rs /\
  Forall (fun r => List.length r = 14%nat) rs.
Proof.
  revert i rs. induction peers as [|p rest IH]; intros i rs H.
  - inversion H. split; constructor.
  - simpl in H.
    destruct (Peers.format_peer_data utcoffset (clock i) p) as [r|] eqn:Hr;
      [|discriminate H].
    destruct (Peers.format_rows utcoffset clock (S i) rest) as [rs'|] eqn:Hrs;
      [|discriminate H].
    inversion H; subst. destruct (IH _ _ Hrs) as [H2 Hall].
    split; constructor; eauto.
    clear -Hr. unfold Peers.format_peer_data in Hr. row_length Hr.
Qed.

(** X16.  A table that is built has one row for each peer, in the order
    of the peers, and every row has as many cells as the table has
    columns (10 in peers_monitor.py and peers_rich2.py, 14 in
    peers_rich.py); [format_peer_info] of peers.py likewise returns one
    list of 14 cells for each peer. *)
Theorem tables_have_one_full_row_per_peer (utcoffset : Z -> Z) (py_repr : pyval -> string)
    (clock : nat -> Z) (peers : list peer) :
  (forall t, PeersMonitor.build_peer_table utcoffset py_repr clock peers = Ok t ->
     map fst (columns t) = PeersMonitor.headers /\
     Forall2 (fun p r => exists j,
                PeersMonitor.build_row utcoffset py_repr (clock j) p = Ok r)
             peers (rows t) /\
     Forall (fun r => List.length (cells r) = List.length (columns t)) (rows t)) /\
  (forall t, PeersRich2.build_peer_table utcoffset py_repr clock peers = Ok t ->
     map fst (columns t) = PeersRich2.headers /\
     Forall2 (fun p r => exists j,
                PeersRich2.build_row utcoffset py_repr (clock j) p = Ok r)
             peers (rows t) /\
     Forall (fun r => List.length (cells r) = List.length (columns t)) (rows t)) /\
  (forall t, PeersRich.build_peer_table utcoffset py_repr clock peers = Ok t ->
     map fst (columns t) = PeersRich.headers /\
     Forall2 (fun p r => exists j,
                PeersRich.build_row utcoffset py_repr (clock j) p = Ok r)
             peers (rows t) /\
     Forall (fun r => List.length (cells r) = List.length (columns t)) (rows t)) /\
  (forall table_data, Peers.format_peer_info utcoffset clock peers = Ok table_data ->
     Forall2 (fun p r => exists j,
                Peers.format_peer_data utcoffset (clock j) p = Ok r)
             peers table_data /\
     Forall (fun r => List.length r = 14%nat) table_data).
Proof.
  split; [|split; [|split]].
  - intros t H. unfold PeersMonitor.build_peer_table in H.
    destruct (PeersMonitor.build_rows utcoffset py_repr clock 0 peers) as [rs|] eqn:Hrs;
      [|discriminate H].
    inversion H; subst. destruct (monitor_rows_shape _ _ _ _ _ _ Hrs) as [H2 Hall].
    split; [reflexivity|]. split; [exact H2|exact Hall].
  - intros t H. unfold PeersRich2.build_peer_table in H.
    destruct (PeersRich2.build_rows utcoffset py_repr clock 0 peers) as [rs|] eqn:Hrs;
      [|discriminate H].
    inversion H; subst. destruct (rich2_rows_shape _ _ _ _ _ _ Hrs) as [H2 Hall].
    split; [reflexivity|]. split; [exact H2|exact Hall].
  - intros t H. unfold PeersRich.build_peer_table in H.
    destruct (PeersRich.build_rows utcoffset py_repr clock 0 peers) as [rs|] eqn:Hrs;
      [|discriminate H].
    inversion H; subst. destruct (rich_rows_shape _ _ _ _ _ _ Hrs) as [H2 Hall].
    split; [reflexivity|]. split; [exact H2|exact Hall].
  - intros td H. exact (peers_rows_shape _ _ _ _ _ H).
Qed.

Lemma tables_have_one_full_row_per_peer_witness :
  Forall (fun r => List.length (cells r) = 10%nat)
    [mk_row ["7"; "01:01:01"; "W, N_L"; "/Satoshi:25.0.0/"; "70016";
             "1.00 MB"; "2.50 MB"; "0.125"; ""; "Yes"] false].
Proof.
  destruct (tables_have_one_full_row_per_peer utc no_repr
              (fun _ => 1700003661 * 1000000) [limited_peer]) as [H _].
  apply (H (mk_table (add_columns PeersMonitor.headers PeersMonitor.right_align)
              [mk_row ["7"; "01:01:01"; "W, N_L"; "/Satoshi:25.0.0/"; "70016";
                       "1.00 MB"; "2.50 MB"; "0.125"; ""; "Yes"] false])).
  vm_compute. reflexivity.
Defined.

(** ** [peers_rich.py] shows what [peers.py] tabulates *)

(** X17.  peers_rich.py shows what peers.py tabulates: whenever
    [build_peer_table] of peers_rich.py builds a row for a peer,
    [format_peer_data] of peers.py succeeds on it and the cells of the row
    are the [str] of its values, but for an address or a version string
    that is [None], which is an empty cell; conversely, when
    [format_peer_data] succeeds and the address and the version string of
    the peer are text or [None], the row is built.  Any other address or
    version string is refused by [add_row]. *)
Theorem rich_row_is_text_of_peers_row (utcoffset : Z -> Z) (py_repr : pyval -> string)
    (now : Z) (p : peer) :
  (forall r, PeersRich.build_row utcoffset py_repr now p = Ok r ->
     exists data, Peers.format_peer_data utcoffset now p = Ok data /\
                  cells r = imap (rich_cell py_repr) data) /\
  (forall data addr subver,
     Peers.format_peer_data utcoffset now p = Ok data ->
     p !! "addr" = Some addr -> p !! "subver" = Some subver ->
     (text_or_none addr -> text_or_none subver ->
      exists r, PeersRich.build_row utcoffset py_repr now p = Ok r /\
                cells r = imap (rich_cell py_repr) data) /\
     (~ (text_or_none addr /\ text_or_none subver) ->
      PeersRich.build_row utcoffset py_repr now p = Raise NotRenderableError)).
Proof.
  split.
  - intros r H. unfold PeersRich.build_row in H. repeat step_bind H.
    unfold Peers.format_peer_data.
    change Peers.connection_duration with PeersRich.connection_duration.
    change Peers.decode_services with PeersRich.decode_services.
    change Peers.format_pingtime with PeersRich.format_pingtime.
    repeat match goal with
           | E : ?x = Ok _ |- context [bind ?x _] => rewrite E; cbn [bind]
           end.
    eexists. split; [reflexivity|].
    inversion H; subst r. cbn [cells imap rich_cell compose Nat.eqb orb].
    destruct v1, v3; try discriminate; simpl in *;
    repeat match goal with
           | E : Ok _ = Ok _ |- _ => inversion E; clear E; subst
           end;
    repeat match goal with
           | |- context [if Py.truthy ?x then _ else _] => destruct (Py.truthy x)
           end; reflexivity.
  - intros data addr subver H Ha Hs. unfold Peers.format_peer_data in H.
    repeat step_bind H.
    unfold PeersRich.build_row.
    change PeersRich.connection_duration with Peers.connection_duration.
    change PeersRich.decode_services with Peers.decode_services.
    change PeersRich.format_pingtime with Peers.format_pingtime.
    repeat match goal with
           | E : ?x = Ok _ |- context [bind ?x _] => rewrite E; cbn [bind]
           end.
    assert (Haddr : getitem p "addr" = Ok addr) by (unfold getitem; now rewrite Ha).
    assert (Hsub : getitem p "subver" = Ok subver) by (unfold getitem; now rewrite Hs).
    repeat match goal with
           | E : getitem p "addr" = Ok ?v |- _ =>
               assert_fails (constr_eq v addr);
               assert (v = addr) by congruence; subst v
           | E : getitem p "subver" = Ok ?v |- _ =>
               assert_fails (constr_eq v subver);
               assert (v = subver) by congruence; subst v
           end.
    inversion H; subst data.
    split.
    + intros [->|[a ->]] [->|[b ->]]; cbn [PeersRich.add_row_cell bind];
        (eexists; split; [reflexivity|]);
        cbn [cells imap rich_cell compose Nat.eqb orb];
        repeat match goal with
               | |- context [if Py.truthy ?x then _ else _] => destruct (Py.truthy x)
               end; reflexivity.
    + intros Hno. unfold text_or_none in Hno.
      destruct addr; try (exfalso; apply Hno; split; eauto; fail);
        destruct subver; try reflexivity; exfalso; apply Hno; split; eauto.
Qed.

Lemma rich_row_is_text_of_peers_row_witness :
  exists data,
    Peers.format_peer_data utc (1700003661 * 1000000) limited_peer = Ok data /\
    cells (mk_row ["7"; "203.0.113.5:8333"; "01:01:01"; "N_W, N_N_L"; "/Satoshi:25.0.0/";
                   "70016"; "1.00 MB"; "2.50 MB"; "0.125"; "Outbound"; "800000";
                   "800000"; "0"; "Yes"] false) =
    imap (rich_cell no_repr) data.
Proof.
  destruct (rich_row_is_text_of_peers_row utc no_repr (1700003661 * 1000000) limited_peer)
    as [H _].
  apply H. vm_compute. reflexivity.
Defined.

(** ** The megabyte cells *)

Section Megabytes.

Import F64.

Lemma pad_two_digits (k : Z) :
  0 <= k < 100 -> Str.pad_left "0" 2 (Str.of_nonneg k) = two_digits k.
Proof.
  intros Hk. rewrite <- (of_int_02_two_digits k Hk).
  unfold Str.of_int_02. destruct (Z.ltb_spec k 0); [lia|reflexivity].
Qed.

Lemma bytes_quotient_val (n : Z) :
  0 <= n < 2 ^ 53 ->
  exists x, Py.truediv_int (PInt n) 1048576 = Ok x /\
            val x (inject_Z n / inject_Z 1048576)%Q.
Proof.
  intros Hn. unfold Py.truediv_int, int_truediv.
  change (1048576 =? 0) with false. cbv iota.
  destruct (Z.eqb_spec n 0) as [->|Hne].
  - exists (S754_zero false). split; [reflexivity|].
    repeat split.
  - assert (Hq : (0 <= inject_Z n / inject_Z 1048576)%Q).
    { apply Qle_shift_div_l; [reflexivity|]. rewrite Qmult_0_l.
      change 0%Q with (inject_Z 0). rewrite <- Zle_Qle. lia. }
    assert (Hr : repr (inject_Z n / inject_Z 1048576)%Q).
    { exists n, (-20). split; [|lia].
      unfold Qdiv. apply Qmult_comp; reflexivity. }
    pose proof (RN_exact _ Hq Hr) as Hv.
    destruct Hv as [Hfin Hrest].
    destruct (RN (inject_Z n / inject_Z 1048576)) eqn:HRN; try contradiction;
      (eexists; split; [reflexivity|]); split; try exact I; exact Hrest.
Qed.

(** X18.  For a byte count below [2^53] the division by 1 048 576 is
    exact in binary64, so that the cell [f"{n / 1_048_576:.2f} MB"] shows
    the count of mebibytes rounded once, to the nearest hundredth (ties to
    even): it is at most half a hundredth away from the exact quotient. *)
Theorem megabytes_cell_is_exact (n : Z) :
  0 <= n < 2 ^ 53 ->
  exists x t,
    Py.truediv_int (PInt n) 1048576 = Ok x /\
    (F2Q x == inject_Z n / inject_Z 1048576)%Q /\
    t = round_half_even (inject_Z (100 * n) / inject_Z 1048576) /\
    Py.megabytes x =
      Str.of_nonneg (t / 100) +:+ "." +:+ two_digits (t mod 100) +:+ " MB" /\
    0 <= t /\ 2 * Z.abs (t * 1048576 - 100 * n) <= 1048576.
Proof.
  intros Hn.
  pose proof (bytes_quotient_val n Hn) as Hval.
  destruct Hval as [x [Hx [Hfin [Hsign Hq]]]].
  set (t := round_half_even (inject_Z (100 * n) / inject_Z 1048576)).
  assert (Ht : t = round_half_even (Qabs (F2Q x) * inject_Z 100)).
  { unfold t. apply rhe_comp. rewrite Hq.
    rewrite Qabs_pos.
    - rewrite inject_Z_mult. field.
    - apply Qle_shift_div_l; [reflexivity|]. rewrite Qmult_0_l.
      change 0%Q with (inject_Z 0). rewrite <- Zle_Qle. lia. }
  pose proof (rhe_bounds (inject_Z (100 * n) / inject_Z 1048576)) as [Hlo Hhi].
  fold t in Hlo, Hhi.
  set (q := (inject_Z (100 * n) / inject_Z 1048576)%Q) in *.
  assert (Hq100 : (q * 1048576 == inject_Z (100 * n))%Q) by (unfold q; field).
  assert (Hlo' : (inject_Z (2 * t * 1048576 - 1048576) <= inject_Z (2 * (100 * n)))%Q).
  { unfold Z.sub. rewrite !inject_Z_plus, inject_Z_opp, !inject_Z_mult.
    rewrite inject_Z_mult in Hq100.
    change (inject_Z 2) with 2%Q. change (inject_Z 1048576) with 1048576%Q in *.
    change (inject_Z 100) with 100%Q in *. lra. }
  assert (Hhi' : (inject_Z (2 * (100 * n)) <= inject_Z (2 * t * 1048576 + 1048576))%Q).
  { rewrite !inject_Z_plus, !inject_Z_mult.
    rewrite inject_Z_mult in Hq100.
    change (inject_Z 2) with 2%Q. change (inject_Z 1048576) with 1048576%Q in *.
    change (inject_Z 100) with 100%Q in *. lra. }
  rewrite <- Zle_Qle in Hlo', Hhi'.
  assert (Htpos : 0 <= t) by lia.
  exists x, t. split; [exact Hx|]. split; [exact Hq|]. split; [reflexivity|].
  split; [|split; [exact Htpos|lia]].
  unfold Py.megabytes, format_fixed.
  destruct x as [s| | |s m e]; try contradiction; simpl in Hsign; subst s;
    change (10 ^ Z.of_nat 2) with 100; cbv zeta; rewrite <- Ht;
    cbn [sign_bit]; rewrite pad_two_digits by (apply Z.mod_pos_bound; lia);
    rewrite !string_app_assoc; reflexivity.
Qed.

End Megabytes.

Lemma megabytes_cell_is_exact_witness :
  exists x t,
    Py.truediv_int (PInt 2621440) 1048576 = Ok x /\
    (F64.F2Q x == inject_Z 2621440 / inject_Z 1048576)%Q /\
    t = F64.round_half_even (inject_Z (100 * 2621440) / inject_Z 1048576) /\
    Py.megabytes x =
      Str.of_nonneg (t / 100) +:+ "." +:+ two_digits (t mod 100) +:+ " MB" /\
    0 <= t /\ 2 * Z.abs (t * 1048576 - 100 * 2621440) <= 1048576.
Proof.
  apply (megabytes_cell_is_exact 2621440). lia.
Defined.

Example megabytes_examples :
  (let* x := Py.truediv_int (PInt 2621440) 1048576 in Ok (Py.megabytes x)) = Ok "2.50 MB" /\
  (let* x := Py.truediv_int (PInt 0) 1048576 in Ok (Py.megabytes x)) = Ok "0.00 MB" /\
  (let* x := Py.truediv_int (PInt 5243) 1048576 in Ok (Py.megabytes x)) = Ok "0.01 MB" /\
  (let* x := Py.truediv_int (PInt 5242) 1048576 in Ok (Py.megabytes x)) = Ok "0.00 MB".
Proof. vm_compute. repeat split. Qed.

(** ** The calendar *)

Section CalendarFacts.

Import Calendar.

Ltac table_lookups :=
  repeat match goal with
         | |- context [nth (Z.to_nat ?k) ?tab 0] =>
             let v := eval vm_compute in (nth (Z.to_nat k) tab 0) in
             change (nth (Z.to_nat k) tab 0) with v
         end.

Ltac zeval t := let v := eval vm_compute in t in change t with v.

Ltac closed_arith :=
  repeat match goal with
         | |- context [Z.sub (Zpos ?a) (Zpos ?b)] => zeval (Z.sub (Zpos a) (Zpos b))
         | |- context [Z.add (Zpos ?a) (Zpos ?b)] => zeval (Z.add (Zpos a) (Zpos b))
         | |- context [Z.add ?a 0] => change (Z.add a 0) with a
         | |- context [Z.add 0 ?a] => change (Z.add 0 a) with a
         | |- context [Z.eqb (Zpos ?a) (Zpos ?b)] => zeval (Z.eqb (Zpos a) (Zpos b))
         | |- context [Z.ltb (Zpos ?a) (Zpos ?b)] => zeval (Z.ltb (Zpos a) (Zpos b))
         | |- context [andb true ?b] => change (andb true b) with b
         | |- context [andb false ?b] => change (andb false b) with false
         | |- context [if true then ?x else ?y] => change (if true then x else y) with x
         | |- context [if false then ?x else ?y] => change (if false then x else y) with y
         end.

(** The leap-year test, in the terms of [ord2ymd]. *)
Lemma is_leap_split (a b c e : Z) :
  0 <= b <= 3 -> 0 <= c <= 24 -> 0 <= e <= 3 ->
  is_leap (a * 400 + 1 + b * 100 + c * 4 + e) =
  (e =? 3) && (negb (c =? 24) || (b =? 3)).
Proof.
  intros Hb Hc He. unfold is_leap.
  set (y := a * 400 + 1 + b * 100 + c * 4 + e).
  destruct (Z.eqb_spec e 3) as [->|Hne]; cbn [andb].
  - assert (H4 : y mod 4 = 0) by (unfold y; Z.div_mod_to_equations; lia).
    rewrite H4. cbn [Z.eqb andb].
    destruct (Z.eqb_spec c 24) as [->|Hc24]; cbn [negb orb].
    + assert (H100 : y mod 100 = 0) by (unfold y; Z.div_mod_to_equations; lia).
      rewrite H100. cbn [Z.eqb negb orb].
      destruct (Z.eqb_spec b 3) as [->|Hb3].
      * assert (H400 : y mod 400 = 0) by (unfold y; Z.div_mod_to_equations; lia).
        now rewrite H400.
      * destruct (Z.eqb_spec (y mod 400) 0) as [H400|]; [|reflexivity].
        exfalso. unfold y in H400. Z.div_mod_to_equations. lia.
    + destruct (Z.eqb_spec (y mod 100) 0) as [H100|]; [|reflexivity].
      exfalso. unfold y in H100. Z.div_mod_to_equations. lia.
  - destruct (Z.eqb_spec (y mod 4) 0) as [H4|]; [|reflexivity].
    exfalso. unfold y in H4. Z.div_mod_to_equations. lia.
Qed.

Lemma days_before_year_split (a b c e : Z) :
  0 <= b <= 3 -> 0 <= c <= 24 -> 0 <= e <= 3 ->
  days_before_year (a * 400 + 1 + b * 100 + c * 4 + e) =
  a * 146097 + b * 36524 + c * 1461 + e * 365.
Proof.
  intros Hb Hc He. unfold days_before_year. cbv zeta.
  Z.div_mod_to_equations. lia.
Qed.

Lemma ord2ymd_round_trip (n : Z) :
  1 <= n ->
  exists y m d,
    ord2ymd n = (y, m, d) /\
    1 <= y /\ 1 <= m <= 12 /\ 1 <= d <= days_in_month y m /\ ymd2ord y m d = n.
Proof.
  intros Hn. unfold ord2ymd. cbv zeta. unfold DI400Y, DI100Y, DI4Y.
  set (n0 := n - 1).
  set (a := n0 / 146097). set (r1 := n0 mod 146097).
  set (b := r1 / 36524). set (r2 := r1 mod 36524).
  set (c := r2 / 1461). set (r3 := r2 mod 1461).
  set (e := r3 / 365). set (r4 := r3 mod 365).
  assert (H1 : n0 = 146097 * a + r1 /\ 0 <= r1 < 146097)
    by (unfold a, r1; Z.div_mod_to_equations; lia).
  assert (H2 : r1 = 36524 * b + r2 /\ 0 <= r2 < 36524)
    by (unfold b, r2; Z.div_mod_to_equations; lia).
  assert (H3 : r2 = 1461 * c + r3 /\ 0 <= r3 < 1461)
    by (unfold c, r3; Z.div_mod_to_equations; lia).
  assert (H4 : r3 = 365 * e + r4 /\ 0 <= r4 < 365)
    by (unfold e, r4; Z.div_mod_to_equations; lia).
  assert (Hn0 : n = n0 + 1) by (unfold n0; lia).
  assert (Hn0' : 0 <= n0) by (unfold n0; lia).
  clearbody a r1 b r2 c r3 e r4 n0. subst n. clear Hn.
  assert (Ha : 0 <= a) by lia.
  assert (Hb : 0 <= b <= 4) by lia.
  assert (Hc : 0 <= c <= 24) by lia.
  assert (He : 0 <= e <= 4) by lia.
  destruct (Z.eqb_spec e 4) as [He4|He4]; cbn [orb].
  - (* the last day of a leap year that ends a cycle of four years *)
    assert (Hb' : 0 <= b <= 3) by lia.
    assert (Hc' : 0 <= c <= 23) by lia.
    exists (a * 400 + 1 + b * 100 + c * 4 + e - 1), 12, 31.
    replace (a * 400 + 1 + b * 100 + c * 4 + e - 1)
      with (a * 400 + 1 + b * 100 + c * 4 + 3) by lia.
    pose proof (is_leap_split a b c 3 Hb' ltac:(lia) ltac:(lia)) as HL.
    pose proof (days_before_year_split a b c 3 Hb' ltac:(lia) ltac:(lia)) as HD.
    destruct (Z.eqb_spec c 24) as [|_]; [lia|]. cbn in HL.
    split; [reflexivity|]. split; [lia|]. split; [lia|].
    unfold days_in_month, ymd2ord, days_before_month. rewrite HL, HD.
    table_lookups. cbn. lia.
  - destruct (Z.eqb_spec b 4) as [Hb4|Hb4].
    + (* the last day of a cycle of four hundred years *)
      exists (a * 400 + 1 + b * 100 + c * 4 + e - 1), 12, 31.
      replace (a * 400 + 1 + b * 100 + c * 4 + e - 1)
        with (a * 400 + 1 + 3 * 100 + 24 * 4 + 3) by lia.
      pose proof (is_leap_split a 3 24 3 ltac:(lia) ltac:(lia) ltac:(lia)) as HL.
      pose proof (days_before_year_split a 3 24 3 ltac:(lia) ltac:(lia) ltac:(lia)) as HD.
      cbn in HL.
      split; [reflexivity|]. split; [lia|]. split; [lia|].
      unfold days_in_month, ymd2ord, days_before_month. rewrite HL, HD.
      table_lookups. cbn. lia.
    + assert (Hb' : 0 <= b <= 3) by lia.
      assert (He' : 0 <= e <= 3) by lia.
      pose proof (is_leap_split a b c e Hb' Hc He') as HL.
      pose proof (days_before_year_split a b c e Hb' Hc He') as HD.
      rewrite <- HL.
      set (y := a * 400 + 1 + b * 100 + c * 4 + e) in *.
      assert (Hy : 1 <= y) by (unfold y; lia).
      assert (Hord : n0 + 1 = days_before_year y + r4 + 1) by lia.
      rewrite Hord. clear HL.
      rewrite Z.shiftr_div_pow2 by lia. change (2 ^ 5) with 32.
      set (m0 := (r4 + 50) / 32).
      assert (Hm0 : 32 * m0 <= r4 + 50 < 32 * m0 + 32)
        by (unfold m0; Z.div_mod_to_equations; lia).
      clearbody m0 y.
      assert (Hm : m0 = 1 \/ m0 = 2 \/ m0 = 3 \/ m0 = 4 \/ m0 = 5 \/ m0 = 6 \/
                   m0 = 7 \/ m0 = 8 \/ m0 = 9 \/ m0 = 10 \/ m0 = 11 \/ m0 = 12) by lia.
      unfold days_in_month, ymd2ord, days_before_month.
      destruct (is_leap y) eqn:Hleap;
        repeat (destruct Hm as [Hm|Hm]);
        subst m0; table_lookups; closed_arith;
        match goal with
        | |- context [?x <? ?P] => destruct (Z.ltb_spec x P)
        end;
        (eexists _, _, _; split; [reflexivity|]); rewrite ?Hleap;
        table_lookups; closed_arith; lia.
Qed.

End CalendarFacts.

(** X19.  For a connection time between the epoch and the end of year
    9999, the text that [format_peer_info] of peerinfo2.py makes of it,
    [YYYY-MM-DD HH:MM:SS], names a date of the calendar and a time of the
    day that give back the connection time: the days from 1970-01-01 to
    that date, times 86400, plus the seconds of the time of day. *)
Theorem connection_time_reads_back (conntime : Z) :
  0 <= conntime <= 253402300799 ->
  PeerInfo2.utcfromtimestamp (PInt conntime) = Ok (conntime * 1000000) /\
  exists year month day hour minute second,
    Calendar.strftime (conntime * 1000000) =
      Calendar.zero_padded 4 year +:+ "-" +:+ Calendar.zero_padded 2 month +:+ "-" +:+
      Calendar.zero_padded 2 day +:+ " " +:+ Calendar.zero_padded 2 hour +:+ ":" +:+
      Calendar.zero_padded 2 minute +:+ ":" +:+ Calendar.zero_padded 2 second /\
    1 <= year /\ 1 <= month <= 12 /\
    1 <= day <= Calendar.days_in_month year month /\
    0 <= hour < 24 /\ 0 <= minute < 60 /\ 0 <= second < 60 /\
    (Calendar.ymd2ord year month day - Calendar.ymd2ord 1970 1 1) * 86400 +
      hour * 3600 + minute * 60 + second = conntime.
Proof.
  intros Ht. split.
  - unfold PeerInfo2.utcfromtimestamp, DateTime.fromtimestamp_with,
      DateTime.from_seconds, DateTime.localtime, DateTime.time_t_min,
      DateTime.time_t_max, DateTime.tm_min, DateTime.tm_max, DateTime.min_us,
      DateTime.max_us.
    repeat match goal with
           | |- context [?a <? ?b] => destruct (Z.ltb_spec a b); [lia|]
           end.
    cbn [orb bind]. f_equal. lia.
  - unfold Calendar.strftime. rewrite Z.div_mul by lia.
    destruct (ord2ymd_round_trip (conntime / 86400 + Calendar.epoch_ordinal))
      as [y [m [d [Heq [Hy [Hm [Hd Hord]]]]]]].
    { unfold Calendar.epoch_ordinal. Z.div_mod_to_equations. lia. }
    rewrite Heq.
    exists y, m, d, (conntime mod 86400 / 3600), (conntime mod 86400 mod 3600 / 60),
      (conntime mod 86400 mod 60).
    split; [reflexivity|]. split; [exact Hy|]. split; [exact Hm|]. split; [exact Hd|].
    rewrite Hord. change (Calendar.ymd2ord 1970 1 1) with 719163.
    unfold Calendar.epoch_ordinal. Z.div_mod_to_equations. lia.
Qed.

Lemma connection_time_reads_back_witness :
  PeerInfo2.utcfromtimestamp (PInt 1700000000) = Ok (1700000000 * 1000000).
Proof.
  apply (connection_time_reads_back 1700000000). lia.
Defined.

Example strftime_examples :
  Calendar.strftime 0 = "1970-01-01 00:00:00" /\
  Calendar.strftime (1700000000 * 1000000) = "2023-11-14 22:13:20" /\
  Calendar.strftime (951782400 * 1000000) = "2000-02-29 00:00:00" /\
  Calendar.strftime (978307199 * 1000000 + 999999) = "2000-12-31 23:59:59" /\
  Calendar.strftime (4107542400 * 1000000) = "2100-03-01 00:00:00" /\
  Calendar.strftime DateTime.max_us = "9999-12-31 23:59:59".
Proof. vm_compute. repeat split. Qed.

(** ** Peers as [getpeerinfo] reports them *)

(** X20.  A peer as [getpeerinfo] reports it gets its row in
    peers_monitor.py: with an id, hexadecimal services, an integer
    connection time from the epoch to three days before the end of the year
    9999, not in the future and less than [2^31] seconds back, a clock less
    than a day away from UTC, a version string, byte counts below [2^53], a
    ping time that is a float or absent, and the two flags,
    [build_peer_table] raises nothing for it and the ten cells are the ones
    computed by the functions of the script, highlighted exactly when
    neither bit 0 nor bit 10 is set. *)
Theorem reported_peer_gets_its_row (utcoffset : Z -> Z) (py_repr : pyval -> string)
    (now : Z) (p : peer) (id inbound relaytxes : pyval) (services subver : string)
    (flags conntime bytessent bytesrecv : Z) :
  let connected := (conntime + utcoffset conntime) * 1000000 in
  p !! "id" = Some id ->
  dict_get p "services" (PStr "0") = PStr services ->
  PyInt.of_hex services = Ok flags ->
  dict_get p "conntime" (PInt 0) = PInt conntime ->
  ordinary_clock utcoffset ->
  0 <= conntime <= 253402300799 - 3 * 86400 ->
  0 <= now - connected < 2 ^ 31 * 1000000 ->
  dict_get p "subver" (PStr "Unknown") = PStr subver ->
  p !! "bytessent" = Some (PInt bytessent) -> 0 <= bytessent < 2 ^ 53 ->
  p !! "bytesrecv" = Some (PInt bytesrecv) -> 0 <= bytesrecv < 2 ^ 53 ->
  (p !! "pingtime" = None \/ exists x, p !! "pingtime" = Some (PFloat x)) ->
  p !! "inbound" = Some inbound ->
  p !! "relaytxes" = Some relaytxes ->
  exists duration sent recv ping,
    PeersMonitor.connection_duration utcoffset now (PInt conntime) = Ok duration /\
    Py.truediv_int (PInt bytessent) 1048576 = Ok sent /\
    Py.truediv_int (PInt bytesrecv) 1048576 = Ok recv /\
    PeersMonitor.format_pingtime (dict_get p "pingtime" (PStr "N/A")) = Ok ping /\
    PeersMonitor.build_row utcoffset py_repr now p =
      Ok (mk_row
            [ PeersMonitor.py_str py_repr id; duration;
              Str.join ", " (PeersMonitor.services_list flags);
              PeersMonitor.truncate_with_ellipsis subver 20;
              PeersMonitor.py_str py_repr (dict_get p "version" (PInt 99));
              Py.megabytes sent; Py.megabytes recv; ping;
              (if Py.truthy inbound then "Yes" else "");
              (if Py.truthy relaytxes then "Yes" else "") ]
            (no_network_bits flags)).
Proof.
  intros connected Hid Hsv Hflags Hct Hclock Hrange Hel Hsub Hbs Hbs' Hbr Hbr' Hping Hin
    Hrel.
  assert (Hdur : exists duration,
             PeersMonitor.connection_duration utcoffset now (PInt conntime) = Ok duration).
  { destruct (Z.le_gt_cases (now - connected) (86400 * 1000000)) as [Hle|Hgt].
    - eexists. apply (monitor_duration_hms utcoffset now conntime Hclock Hrange).
      fold connected. lia.
    - destruct (monitor_duration_days utcoffset now conntime Hclock Hrange)
        as [tenths [Hd _]];
        [fold connected; lia|].
      eexists. exact Hd. }
  destruct Hdur as [duration Hdur].
  destruct (bytes_quotient_val bytessent Hbs') as [sent [Hsent _]].
  destruct (bytes_quotient_val bytesrecv Hbr') as [recv [Hrecv _]].
  assert (Hp : exists ping,
             PeersMonitor.format_pingtime (dict_get p "pingtime" (PStr "N/A")) = Ok ping).
  { unfold dict_get. destruct Hping as [->|[x ->]]; eexists; reflexivity. }
  destruct Hp as [ping Hp].
  exists duration, sent, recv, ping.
  split; [exact Hdur|]. split; [exact Hsent|]. split; [exact Hrecv|]. split; [exact Hp|].
  unfold PeersMonitor.build_row, PeersMonitor.decode_services, PyInt.int16, getitem.
  rewrite Hsv, Hflags, Hid, Hct, Hdur, Hsub, Hbs, Hbr, Hp, Hin, Hrel.
  cbn [bind Py.as_str]. rewrite Hsent, Hrecv. cbn [bind].
  rewrite monitor_flag_behaviour.
  unfold PeersMonitor.NODE_NETWORK, PeersMonitor.NODE_NETWORK_LIMITED.
  rewrite flag_as_bits. reflexivity.
Qed.

Lemma reported_peer_gets_its_row_witness :
  exists duration sent recv ping,
    PeersMonitor.connection_duration utc (1700003661 * 1000000) (PInt 1700000000) =
      Ok duration /\
    Py.truediv_int (PInt 1048576) 1048576 = Ok sent /\
    Py.truediv_int (PInt 2621440) 1048576 = Ok recv /\
    PeersMonitor.format_pingtime (dict_get limited_peer "pingtime" (PStr "N/A")) = Ok ping /\
    PeersMonitor.build_row utc no_repr (1700003661 * 1000000) limited_peer =
      Ok (mk_row
            [ PeersMonitor.py_str no_repr (PInt 7); duration;
              Str.join ", " (PeersMonitor.services_list 1032);
              PeersMonitor.truncate_with_ellipsis "/Satoshi:25.0.0/" 20;
              PeersMonitor.py_str no_repr (dict_get limited_peer "version" (PInt 99));
              Py.megabytes sent; Py.megabytes recv; ping;
              (if Py.truthy (PBool false) then "Yes" else "");
              (if Py.truthy (PBool true) then "Yes" else "") ]
            (no_network_bits 1032)).
Proof.
  apply (reported_peer_gets_its_row utc no_repr (1700003661 * 1000000) limited_peer
           (PInt 7) (PBool false) (PBool true) "0000000000000408" "/Satoshi:25.0.0/"
           1032 1700000000 1048576 2621440);
    try (vm_compute; reflexivity); try lia.
  - intros t. unfold utc. lia.
  - vm_compute. split; [discriminate|reflexivity].
  - right. eexists. vm_compute. reflexivity.
Defined.

(** ** [peers_rich2.py] against [peers_monitor.py] *)

(** X21.  peers_rich2.py builds the row of peers_monitor.py, but for the
    cell under [Version], cut at 23 characters instead of 20, and but for
    the two fields that it reads without a default: every row of
    peers_rich2.py is a row of peers_monitor.py with that one cell
    replaced, and a row of peers_monitor.py is one of peers_rich2.py as
    soon as the peer has its [subver] as text and its [version]. *)
Theorem rich2_row_is_monitor_row_but_for_version (utcoffset : Z -> Z)
    (py_repr : pyval -> string) (now : Z) (p : peer) :
  (forall r2, PeersRich2.build_row utcoffset py_repr now p = Ok r2 ->
     exists r subver,
       p !! "subver" = Some (PStr subver) /\
       PeersMonitor.build_row utcoffset py_repr now p = Ok r /\
       highlighted r = highlighted r2 /\
       cells r = <[3%nat := PeersMonitor.truncate_with_ellipsis subver 20]> (cells r2) /\
       cells r2 = <[3%nat := PeersRich2.truncate_with_ellipsis subver 23]> (cells r)) /\
  (forall r subver version,
     PeersMonitor.build_row utcoffset py_repr now p = Ok r ->
     p !! "subver" = Some (PStr subver) -> p !! "version" = Some version ->
     exists r2,
       PeersRich2.build_row utcoffset py_repr now p = Ok r2 /\
       highlighted r2 = highlighted r /\
       cells r2 = <[3%nat := PeersRich2.truncate_with_ellipsis subver 23]> (cells r)).
Proof.
  assert (Hget : forall k v d, getitem p k = Ok v -> p !! k = Some v /\ dict_get p k d = v).
  { intros k v d. unfold getitem, dict_get.
    destruct (p !! k); intros H; inversion H; auto. }
  split.
  - intros r2 H. unfold PeersRich2.build_row in H. repeat step_bind H.
    unfold PeersRich2.decode_services, PeersRich2.connection_duration,
      PeersRich2.format_pingtime, PeersRich2.py_str in *.
    match goal with
    | E : getitem p "subver" = Ok ?v, E' : Py.as_str ?v = Ok ?s |- _ =>
        destruct v; try discriminate E'; inversion E'; subst;
        destruct (Hget _ _ (PStr "Unknown") E) as [Hsub Hsub']
    end.
    match goal with
    | E : getitem p "version" = Ok ?v |- _ =>
        destruct (Hget _ _ (PInt 99) E) as [_ Hver]
    end.
    unfold PeersMonitor.build_row. rewrite Hsub', Hver.
    repeat match goal with
           | E : ?x = Ok _ |- context [bind ?x _] => rewrite E; cbn [bind]
           end.
    cbn [Py.as_str bind].
    inversion H; subst r2. cbn [cells highlighted].
    eexists _, _. split; [exact Hsub|]. split; [reflexivity|].
    repeat split.
  - intros r subver version H Hsub Hver. unfold PeersMonitor.build_row in H.
    assert (Hsub' : dict_get p "subver" (PStr "Unknown") = PStr subver)
      by (unfold dict_get; now rewrite Hsub).
    assert (Hver' : dict_get p "version" (PInt 99) = version)
      by (unfold dict_get; now rewrite Hver).
    rewrite Hsub', Hver' in H. repeat step_bind H.
    unfold PeersRich2.build_row, PeersRich2.decode_services,
      PeersRich2.connection_duration, PeersRich2.format_pingtime, PeersRich2.py_str.
    repeat match goal with
           | E : ?x = Ok _ |- context [bind ?x _] => rewrite E; cbn [bind]
           end.
    unfold getitem at 1 2. rewrite Hsub, Hver. cbn [bind Py.as_str].
    repeat match goal with
           | E : ?x = Ok _ |- context [bind ?x _] => rewrite E; cbn [bind]
           end.
    inversion H; subst r. cbn [cells highlighted].
    eexists. repeat split.
Qed.

Lemma rich2_row_is_monitor_row_but_for_version_witness :
  exists r2,
    PeersRich2.build_row utc no_repr (1700003661 * 1000000) limited_peer = Ok r2 /\
    highlighted r2 = false /\
    cells r2 = <[3%nat := PeersRich2.truncate_with_ellipsis "/Satoshi:25.0.0/" 23]>
                 ["7"; "01:01:01"; "W, N_L"; "/Satoshi:25.0.0/"; "70016";
                  "1.00 MB"; "2.50 MB"; "0.125"; ""; "Yes"].
Proof.
  destruct (rich2_row_is_monitor_row_but_for_version utc no_repr
              (1700003661 * 1000000) limited_peer) as [_ H].
  apply (H (mk_row ["7"; "01:01:01"; "W, N_L"; "/Satoshi:25.0.0/"; "70016";
                    "1.00 MB"; "2.50 MB"; "0.125"; ""; "Yes"] false)
           "/Satoshi:25.0.0/" (PInt 70016)); vm_compute; reflexivity.
Defined.
